(** * python-weather-app: a shallow embedding of [weather_app.py] and [config.py]

    The program resolves a location (a free-text address or a latitude and
    longitude pair) to current weather conditions through two HTTP services.
    This development embeds its functions as Rocq definitions and checks the
    properties its specification states about them.

    Conventions of the embedding:
    - a Python [float] is an IEEE-754 binary64 value, a [spec_float] of the
      Standard Library with precision 53 and maximal exponent 1024;
    - a Python [str] is the [string] of its UTF-8 bytes, and the [bytes] of
      a response body are a [string] that [decode] checks to be UTF-8;
    - a decoded JSON document is a [pyval];
    - an exception is a value of [exn]; pure functions return a [result],
      functions that log, print or use the HTTP client run in the state and
      exception monad [M];
    - what the program takes from outside its two files (argparse, json,
      usaddress, urllib3, the formatting and parsing of floats, the process
      environment) is a field of the class [PythonEnv]. *)

From Stdlib Require Import ZArith QArith Qpower List String Ascii Bool Lia.
From Stdlib Require Import SpecFloat DecimalString.
Import ListNotations.

Local Open Scope string_scope.
Local Open Scope Z_scope.

(** ** Python floats *)

Module PyFloat.

Definition prec : Z := 53.
Definition emax : Z := 1024.

(** A [spec_float] that is a binary64 value: its mantissa is canonical and
    its exponent in range. *)
Definition is_binary64 (x : spec_float) : Prop := valid_binary prec emax x = true.

(** [float(n)] for an integer that fits: round to nearest, ties to even. *)
Definition of_Z (n : Z) : spec_float := binary_normalize prec emax n 0 false.

(** The float nearest to the decimal [d * 10^p], as a float literal or
    [float("...")] of a decimal string gives it. *)
Definition of_decimal (d : Z) (p : Z) : spec_float :=
  if 0 <=? p then of_Z (d * 10 ^ p)
  else
    let ten_p := S754_finite false (Z.to_pos (10 ^ (- p))) 0 in
    match d with
    | Z0 => S754_zero false
    | Zpos m => SFdiv prec emax (S754_finite false m 0) ten_p
    | Zneg m => SFdiv prec emax (S754_finite true m 0) ten_p
    end.

(** [x <= y] on floats: false as soon as one side is a NaN. *)
Definition le (x y : spec_float) : bool := SFleb x y.

(** [bool(x)]: zero of either sign is falsy, everything else (NaN too) is
    truthy. *)
Definition truthy (x : spec_float) : bool :=
  match x with
  | S754_zero _ => false
  | _ => true
  end.

(** The real number a float denotes; nothing for infinities and NaN. *)
Definition value (x : spec_float) : option Q :=
  match x with
  | S754_zero _ => Some 0%Q
  | S754_finite s m e => Some (inject_Z (cond_Zopp s (Zpos m)) * 2 ^ e)%Q
  | S754_infinity _ | S754_nan => None
  end.

(** [between lo hi x]: [x] denotes a real number of the closed interval
    [[lo, hi]]. *)
Definition between (lo hi : Z) (x : spec_float) : Prop :=
  match value x with
  | Some q => (inject_Z lo <= q /\ q <= inject_Z hi)%Q
  | None => False
  end.

(** A float that denotes a real number. *)
Definition is_real (x : spec_float) : bool :=
  match x with
  | S754_zero _ | S754_finite _ _ _ => true
  | _ => false
  end.

(** The real number a binary64 value denotes, counted in units of
    [2^-1074], the smallest positive binary64 value. *)
Definition scaled (x : spec_float) : Z :=
  match x with
  | S754_finite s m e => cond_Zopp s (Zpos m * 2 ^ (e + 1074))
  | _ => 0
  end.

(** An integer bound [n] that is a binary64 value itself. *)
Definition exact_bound (n : Z) : Prop :=
  is_binary64 (of_Z n) /\ is_real (of_Z n) = true /\ scaled (of_Z n) = n * 2 ^ 1074.

End PyFloat.

(** ** Validator *)

(** [validate_latitude_longitude], lines 177-186. The chained comparison
    [-90 <= latitude <= 90] is the conjunction of its two halves; the integer
    bounds are compared with a float by value. *)
Definition validate_latitude_longitude (latitude longitude : spec_float) : bool :=
  if negb (PyFloat.le (PyFloat.of_Z (-90)) latitude && PyFloat.le latitude (PyFloat.of_Z 90))
  then false
  else if negb (PyFloat.le (PyFloat.of_Z (-180)) longitude && PyFloat.le longitude (PyFloat.of_Z 180))
  then false
  else true.

(** ** Python strings *)

Module PyStr.

Definition chr (n : nat) : string := String (ascii_of_nat n) EmptyString.

Definition tab : string := chr 9.
Definition newline : string := chr 10.

(** The ASCII characters for which [str.isspace] holds. *)
Definition ascii_space (n : nat) : bool :=
  ((9 <=? n) && (n <=? 13) || (28 <=? n) && (n <=? 32))%nat.

(** The two-byte and three-byte encodings of the other white space
    characters: U+0085, U+00A0, U+1680, U+2000 to U+200A, U+2028, U+2029,
    U+202F, U+205F and U+3000. *)
Definition space2 (a b : nat) : bool :=
  ((a =? 194) && ((b =? 133) || (b =? 160)))%nat.

Definition space3 (a b c : nat) : bool :=
  ((a =? 225) && (b =? 154) && (c =? 128)
   || (a =? 226) && (b =? 128)
      && ((128 <=? c) && (c <=? 138) || (c =? 168) || (c =? 169) || (c =? 175))
   || (a =? 226) && (b =? 129) && (c =? 159)
   || (a =? 227) && (b =? 128) && (c =? 128))%nat.

(** When [s] starts with a white space character, what follows it. *)
Definition space_prefix (s : string) : option string :=
  match s with
  | EmptyString => None
  | String c1 r1 =>
    if ascii_space (nat_of_ascii c1) then Some r1
    else
      match r1 with
      | EmptyString => None
      | String c2 r2 =>
        if space2 (nat_of_ascii c1) (nat_of_ascii c2) then Some r2
        else
          match r2 with
          | EmptyString => None
          | String c3 r3 =>
            if space3 (nat_of_ascii c1) (nat_of_ascii c2) (nat_of_ascii c3)
            then Some r3 else None
          end
      end
  end.

Fixpoint lstrip_from (fuel : nat) (s : string) : string :=
  match fuel with
  | O => s
  | S fuel' =>
    match space_prefix s with
    | Some r => lstrip_from fuel' r
    | None => s
    end
  end.

(** [s.lstrip()] *)
Definition lstrip (s : string) : string := lstrip_from (String.length s) s.

Definition is_empty (s : string) : bool :=
  match s with
  | EmptyString => true
  | String _ _ => false
  end.

(** [s.rstrip()]: cut where everything that remains is white space. *)
Fixpoint rstrip (s : string) : string :=
  match s with
  | EmptyString => EmptyString
  | String c r => if is_empty (lstrip s) then EmptyString else String c (rstrip r)
  end.

(** [s.strip()] *)
Definition strip (s : string) : string := rstrip (lstrip s).

(** [bool(s)] *)
Definition truthy (s : string) : bool := negb (is_empty s).

(** The continuation bytes [s] starts with: with the byte before them, the
    first character of a string. *)
Fixpoint continuation (s : string) : string :=
  match s with
  | EmptyString => EmptyString
  | String c r =>
    if ((128 <=? nat_of_ascii c) && (nat_of_ascii c <=? 191))%nat
    then String c (continuation r)
    else EmptyString
  end.

(** [sep.join(parts)] *)
Fixpoint join (sep : string) (parts : list string) : string :=
  match parts with
  | [] => ""
  | [p] => p
  | p :: rest => p ++ sep ++ join sep rest
  end.

(** [sub in s] *)
Fixpoint contains (sub s : string) : bool :=
  if String.prefix sub s then true
  else
    match s with
    | EmptyString => false
    | String _ r => contains sub r
    end.

(** [str(n)] for an integer. *)
Definition of_int (n : Z) : string := NilZero.string_of_int (Z.to_int n).

(** A string made of white space characters only; the empty string is one. *)
Inductive whitespace_only : string -> Prop :=
| ws_empty : whitespace_only ""
| ws_space s r : space_prefix s = Some r -> whitespace_only r -> whitespace_only s.

End PyStr.

(** ** Bytes

    A [str] is kept as the bytes of its UTF-8 encoding, so [bytes.decode('utf-8')]
    returns its argument when that is well-formed UTF-8 and raises otherwise. *)

Module PyBytes.

(** What the decoder waits for: the first byte of a character, or [more]
    continuation bytes of which the next one lies between [lo] and [hi]. *)
Inductive expected : Type :=
| Lead
| Continuation (more lo hi : nat).

(** After a first byte. The bounds on the second byte exclude the overlong
    forms, the surrogates U+D800 to U+DFFF and what lies above U+10FFFF; the
    bytes 128 to 193 and 245 to 255 start no character. *)
Definition after_lead (b : nat) : option expected :=
  (if b <=? 127 then Some Lead
   else if (194 <=? b) && (b <=? 223) then Some (Continuation 1 128 191)
   else if b =? 224 then Some (Continuation 2 160 191)
   else if b =? 237 then Some (Continuation 2 128 159)
   else if (225 <=? b) && (b <=? 239) then Some (Continuation 2 128 191)
   else if b =? 240 then Some (Continuation 3 144 191)
   else if (241 <=? b) && (b <=? 243) then Some (Continuation 3 128 191)
   else if b =? 244 then Some (Continuation 3 128 143)
   else None)%nat.

Fixpoint well_formed (e : expected) (data : string) : bool :=
  match data with
  | EmptyString => match e with Lead => true | Continuation _ _ _ => false end
  | String c rest =>
    let b := nat_of_ascii c in
    match e with
    | Lead =>
      match after_lead b with
      | Some e' => well_formed e' rest
      | None => false
      end
    | Continuation more lo hi =>
      ((lo <=? b) && (b <=? hi))%nat
      && well_formed (match more with
                      | S (S m) => Continuation (S m) 128 191
                      | _ => Lead
                      end) rest
    end
  end.

(** The bytes are the UTF-8 encoding of a text. *)
Definition is_utf8 (data : string) : bool := well_formed Lead data.

End PyBytes.

(** ** Python values and exceptions *)

#[local] Set Warnings "-register-all".

(** What [json.loads] can return, and what the functions of the program pass
    around. The items of a [PyDict] are the entries of the dict, one per key. *)
Inductive pyval : Type :=
| PyNone
| PyBool (b : bool)
| PyInt (n : Z)
| PyFloat (x : spec_float)
| PyStr (s : string)
| PyList (elems : list pyval)
| PyDict (items : list (string * pyval)).

(** The exception classes of [weather_app.py], lines 244-281, and the
    built-in ones its code can meet. *)
Inductive exn_class : Type :=
| BuildUrlError
| FetchUrlDataError
| FetchWeatherDataError
| GetCoordsFromAddressError
| ParsedArgumentError
| AddressMissingError
| ParseAddressError
| ValueError
| TypeError
| KeyError
| AttributeError
| IndexError
| OverflowError
| UnicodeDecodeError
| RecursionError.

(** A raised exception with [str(e)], or [SystemExit] with its code. *)
Inductive exn : Type :=
| Exn (c : exn_class) (msg : string)
| SystemExit (code : Z).

Definition exn_class_eqb (a b : exn_class) : bool :=
  match a, b with
  | BuildUrlError, BuildUrlError
  | FetchUrlDataError, FetchUrlDataError
  | FetchWeatherDataError, FetchWeatherDataError
  | GetCoordsFromAddressError, GetCoordsFromAddressError
  | ParsedArgumentError, ParsedArgumentError
  | AddressMissingError, AddressMissingError
  | ParseAddressError, ParseAddressError
  | ValueError, ValueError
  | TypeError, TypeError
  | KeyError, KeyError
  | AttributeError, AttributeError
  | IndexError, IndexError
  | OverflowError, OverflowError
  | UnicodeDecodeError, UnicodeDecodeError
  | RecursionError, RecursionError => true
  | _, _ => false
  end.

(** [issubclass(c, cls)]: among the classes above, [UnicodeDecodeError]
    derives from [ValueError], and no other class from another one. *)
Definition issubclass (c cls : exn_class) : bool :=
  exn_class_eqb c cls
  || match c, cls with
     | UnicodeDecodeError, ValueError => true
     | _, _ => false
     end.

(** [isinstance(e, cls)] for the classes an [except] clause of the program
    names. *)
Definition isinstance (e : exn) (classes : list exn_class) : bool :=
  match e with
  | Exn c _ => existsb (issubclass c) classes
  | SystemExit _ => false
  end.

(** [str(e)] *)
Definition exn_str (e : exn) : string :=
  match e with
  | Exn _ msg => msg
  | SystemExit code => PyStr.of_int code
  end.

Inductive result (A : Type) : Type :=
| Ok (a : A)
| Raise (e : exn).
Arguments Ok {A} a.
Arguments Raise {A} e.

Definition and_then {A B} (r : result A) (f : A -> result B) : result B :=
  match r with
  | Ok a => f a
  | Raise e => Raise e
  end.

(** The namespace [argparse] returns for the four options of [parse_args]. *)
Record Namespace : Type := {
  address : option string;
  latitude : option spec_float;
  longitude : option spec_float;
  verbose : bool
}.

(** What [usaddress.parse] does on an address. *)
Inductive usaddress_outcome : Type :=
| Components (parsed : list (string * string))
| ReturnsNone
| RepeatedLabelError (original_string parsed_string : string).

(** What [PoolManager.request('GET', url)] does: it returns a response with
    its status and the bytes of its body, or raises. *)
Inductive http_outcome : Type :=
| Response (status : Z) (data : string)
| TimeoutError
| RequestError (description : string).

(** What [json.loads] raises on a text: [JSONDecodeError] when the text is
    not JSON, [RecursionError] when it is nested deeper than the interpreter
    goes, and a plain [ValueError] when it holds an integer with more digits
    than [int] converts. Each comes with [str(e)]. *)
Inductive json_failure : Type :=
| JSONDecodeError (msg : string)
| NestedTooDeep (msg : string)
| TooManyDigits (msg : string).

(** ** The environment of the program *)

Class PythonEnv : Type := {
  (** [ArgumentParser.parse_args] with the four options declared at lines
      108-112: a namespace, or the code it exits with. *)
  argparse_parse_args : list string -> Namespace + Z;
  (** [os.environ.get('MAPS_API_KEY')] *)
  environ_MAPS_API_KEY : option string;
  (** [json.loads] on a text: the value, or what it raises. *)
  json_decoder : string -> json_failure + pyval;
  (** [str(e)] of the [UnicodeDecodeError] that [decode('utf-8')] raises on
      bytes that are not UTF-8. *)
  decode_error_str : string -> string;
  (** [json.dumps(v, indent=2, sort_keys=True)] *)
  json_dumps : pyval -> string;
  usaddress_parse : string -> usaddress_outcome;
  (** The answer to the n-th request of the process, by its URL. *)
  http_request : nat -> string -> http_outcome;
  (** [float(s)] on a string; nothing when it raises [ValueError]. *)
  float_of_str : string -> option spec_float;
  (** [repr(x)] of a float and of a string. *)
  float_repr : spec_float -> string;
  str_repr : string -> string
}.

(** ** Built-in operations on Python values *)

Module Py.

Definition type_name (v : pyval) : string :=
  match v with
  | PyNone => "NoneType"
  | PyBool _ => "bool"
  | PyInt _ => "int"
  | PyFloat _ => "float"
  | PyStr _ => "str"
  | PyList _ => "list"
  | PyDict _ => "dict"
  end.

(** [bool(v)] *)
Definition truthy (v : pyval) : bool :=
  match v with
  | PyNone => false
  | PyBool b => b
  | PyInt n => negb (n =? 0)
  | PyFloat x => PyFloat.truthy x
  | PyStr s => PyStr.truthy s
  | PyList elems => match elems with [] => false | _ :: _ => true end
  | PyDict items => match items with [] => false | _ :: _ => true end
  end.

(** The entry of a dict under a key. *)
Fixpoint lookup (items : list (string * pyval)) (key : string) : option pyval :=
  match items with
  | [] => None
  | (k, v) :: rest => if String.eqb k key then Some v else lookup rest key
  end.

(** [elem == key] for a string [key]: only an equal string is. *)
Definition eq_str (key : string) (elem : pyval) : bool :=
  match elem with
  | PyStr s => String.eqb s key
  | _ => false
  end.

Section WithEnv.
Context {env : PythonEnv}.

(** [repr(v)] *)
Fixpoint repr (v : pyval) : string :=
  match v with
  | PyNone => "None"
  | PyBool true => "True"
  | PyBool false => "False"
  | PyInt n => PyStr.of_int n
  | PyFloat x => float_repr x
  | PyStr s => str_repr s
  | PyList elems => "[" ++ PyStr.join ", " (List.map repr elems) ++ "]"
  | PyDict items =>
    "{" ++ PyStr.join ", "
             (List.map (fun kv => str_repr (fst kv) ++ ": " ++ repr (snd kv)) items)
        ++ "}"
  end.

(** [str(v)], which is what an f-string puts for [{v}]. *)
Definition str (v : pyval) : string :=
  match v with
  | PyStr s => s
  | _ => repr v
  end.

(** [key in container] for a string key. *)
Definition contains (key : string) (container : pyval) : result bool :=
  match container with
  | PyDict items =>
    Ok (match lookup items key with Some _ => true | None => false end)
  | PyList elems => Ok (existsb (eq_str key) elems)
  | PyStr s => Ok (PyStr.contains key s)
  | _ =>
    Raise (Exn TypeError
             ("argument of type '" ++ type_name container ++ "' is not iterable"))
  end.

(** [container[key]] for a string key. *)
Definition getitem (container : pyval) (key : string) : result pyval :=
  match container with
  | PyDict items =>
    match lookup items key with
    | Some v => Ok v
    | None => Raise (Exn KeyError (str_repr key))
    end
  | PyList _ =>
    Raise (Exn TypeError "list indices must be integers or slices, not str")
  | PyStr _ => Raise (Exn TypeError "string indices must be integers, not 'str'")
  | _ =>
    Raise (Exn TypeError ("'" ++ type_name container ++ "' object is not subscriptable"))
  end.

(** [container[0]] *)
Definition getitem0 (container : pyval) : result pyval :=
  match container with
  | PyList (first :: _) => Ok first
  | PyList [] => Raise (Exn IndexError "list index out of range")
  | PyDict _ => Raise (Exn KeyError "0")
  | PyStr (String c rest) => Ok (PyStr (String c (PyStr.continuation rest)))
  | PyStr EmptyString => Raise (Exn IndexError "string index out of range")
  | _ =>
    Raise (Exn TypeError ("'" ++ type_name container ++ "' object is not subscriptable"))
  end.

(** [d.get(key)] *)
Definition get (d : pyval) (key : string) : result pyval :=
  match d with
  | PyDict items =>
    Ok (match lookup items key with Some v => v | None => PyNone end)
  | _ =>
    Raise (Exn AttributeError
             ("'" ++ type_name d ++ "' object has no attribute 'get'"))
  end.

(** [data.decode('utf-8')] *)
Definition decode (data : string) : result string :=
  if PyBytes.is_utf8 data
  then Ok data
  else Raise (Exn UnicodeDecodeError (decode_error_str data)).

(** [float(v)] *)
Definition float (v : pyval) : result spec_float :=
  match v with
  | PyFloat x => Ok x
  | PyBool b => Ok (PyFloat.of_Z (if b then 1 else 0))
  | PyInt n =>
    match PyFloat.of_Z n with
    | S754_infinity _ => Raise (Exn OverflowError "int too large to convert to float")
    | x => Ok x
    end
  | PyStr s =>
    match float_of_str s with
    | Some x => Ok x
    | None =>
      Raise (Exn ValueError ("could not convert string to float: " ++ str_repr s))
    end
  | _ =>
    Raise (Exn TypeError
             ("float() argument must be a string or a real number, not '"
                ++ type_name v ++ "'"))
  end.

End WithEnv.

End Py.

(** [json.loads] on a [str]. Bytes that are not UTF-8 are the encoding of no
    [str]: nothing is decoded from them. *)
Definition json_loads {env : PythonEnv} (text : string) : json_failure + pyval :=
  if PyBytes.is_utf8 text
  then json_decoder text
  else inl (JSONDecodeError "Expecting value: line 1 column 1 (char 0)").

(** ** State, effects and the monad of the program *)

Inductive log_level : Type := DEBUG | INFO | WARNING | ERROR.

Definition levelno (l : log_level) : Z :=
  match l with
  | DEBUG => 10
  | INFO => 20
  | WARNING => 30
  | ERROR => 40
  end.

Definition levelname (l : log_level) : string :=
  match l with
  | DEBUG => "DEBUG"
  | INFO => "INFO"
  | WARNING => "WARNING"
  | ERROR => "ERROR"
  end.

(** The handlers of the root logger: those [setup_logging] installs (standard
    output and the file weather_app.log, format [LEVEL: message]) or the one
    [logging] installs by itself when a record is logged before any
    configuration (standard error, format [LEVEL:root:message]). *)
Inductive log_handlers : Type :=
| StdoutAndFile
| DefaultStderr.

(** What a run does that can be seen from outside, in order. [HttpGet] is
    the call of [PoolManager.request]; [Logged] is a record that reached the
    handlers. The functions below log the records of the program; those that
    the HTTP library hands to [logging] by itself while a request is under
    way are not followed. *)
Inductive event : Type :=
| PoolCreated (pool : nat)
| PoolCleared (pool : nat)
| HttpGet (pool : nat) (url : string)
| Logged (handlers : log_handlers) (line : string)
| Printed (text : string).

Record state : Type := {
  (** [WeatherAPI._instance]: the singleton and its pool, by identity. *)
  instance : option nat;
  (** The level and the handlers of the root logger, once it has some. *)
  root_logger : option (log_level * log_handlers);
  trace : list event
}.

Definition initial_state : state :=
  {| instance := None; root_logger := None; trace := [] |}.

Definition emit (ev : event) (s : state) : state :=
  {| instance := instance s; root_logger := root_logger s; trace := (trace s ++ [ev])%list |}.

Definition is_pool_created (ev : event) : bool :=
  match ev with PoolCreated _ => true | _ => false end.
Definition is_pool_cleared (ev : event) : bool :=
  match ev with PoolCleared _ => true | _ => false end.
Definition is_http_get (ev : event) : bool :=
  match ev with HttpGet _ _ => true | _ => false end.
Definition is_printed (ev : event) : bool :=
  match ev with Printed _ => true | _ => false end.

Definition count (p : event -> bool) (t : list event) : nat :=
  List.length (List.filter p t).

(** The pool an event is about, when it is about one. *)
Definition pool_of (ev : event) : option nat :=
  match ev with
  | PoolCreated h | PoolCleared h | HttpGet h _ => Some h
  | _ => None
  end.

Definition M (A : Type) : Type := state -> result A * state.

Definition ret {A} (a : A) : M A := fun s => (Ok a, s).

Definition bind {A B} (m : M A) (f : A -> M B) : M B :=
  fun s =>
    match m s with
    | (Ok a, s') => f a s'
    | (Raise e, s') => (Raise e, s')
    end.

Definition raise {A} (e : exn) : M A := fun s => (Raise e, s).

Definition lift {A} (r : result A) : M A := fun s => (r, s).

(** [try: body / except classes as e: handler e] *)
Definition try_except {A} (body : M A) (classes : list exn_class) (handler : exn -> M A) : M A :=
  fun s =>
    match body s with
    | (Ok a, s') => (Ok a, s')
    | (Raise e, s') => if isinstance e classes then handler e s' else (Raise e, s')
    end.

(** [try: body / finally: cleanup] *)
Definition try_finally {A} (body : M A) (cleanup : M unit) : M A :=
  fun s =>
    match body s with
    | (r, s') =>
      match cleanup s' with
      | (Ok _, s'') => (r, s'')
      | (Raise e, s'') => (Raise e, s'')
      end
    end.

Declare Scope py_scope.
Delimit Scope py_scope with py.
Notation "x <- m ;; k" := (bind m (fun x => k))
  (at level 100, m at next level, right associativity) : py_scope.
Notation "m ;; k" := (bind m (fun _ => k))
  (at level 100, right associativity) : py_scope.
Local Open Scope py_scope.

Definition when (b : bool) (m : M unit) : M unit := if b then m else ret tt.

(** [print(text)] *)
Definition print (text : string) : M unit := fun s => (Ok tt, emit (Printed text) s).

(** [sys.exit(code)] *)
Definition sys_exit {A} (code : Z) : M A := raise (SystemExit code).

Module logging.

Definition format (h : log_handlers) (l : log_level) (msg : string) : string :=
  match h with
  | StdoutAndFile => levelname l ++ ": " ++ msg
  | DefaultStderr => levelname l ++ ":root:" ++ msg
  end.

(** [logging.basicConfig(level=..., format=..., handlers=...)]: does nothing
    when the root logger has handlers already. *)
Definition basicConfig (l : log_level) (h : log_handlers) : M unit :=
  fun s =>
    match root_logger s with
    | Some _ => (Ok tt, s)
    | None => (Ok tt, {| instance := instance s; root_logger := Some (l, h); trace := trace s |})
    end.

(** The module-level [logging.info] and [logging.error]: they call
    [basicConfig()] first when the root logger has no handler, which leaves
    it at level WARNING, writing to standard error. *)
Definition log (l : log_level) (msg : string) : M unit :=
  basicConfig WARNING DefaultStderr ;;
  fun s =>
    match root_logger s with
    | Some (threshold, h) =>
      if levelno threshold <=? levelno l
      then (Ok tt, emit (Logged h (format h l msg)) s)
      else (Ok tt, s)
    | None => (Ok tt, s)
    end.

Definition info (msg : string) : M unit := log INFO msg.
Definition error (msg : string) : M unit := log ERROR msg.

End logging.

(** ** config.py *)

Module APIConfig.
Definition DEFAULT_PARAMS : string :=
  "current=temperature_2m,wind_speed_10m&temperature_unit=fahrenheit&wind_speed_unit=mph&timezone=auto".
Definition GEOCODE_BASE_URL : string := "https://geocode.maps.co/search".
Definition WEATHER_BASE_URL : string := "https://api.open-meteo.com/v1/forecast".
End APIConfig.

(** ** weather_app.py *)

Section Program.
Context {env : PythonEnv}.

(** Line 14: [MAPS_API_KEY = os.environ.get('MAPS_API_KEY')], as an
    f-string shows it. *)
Definition MAPS_API_KEY : string :=
  match environ_MAPS_API_KEY with
  | Some key => key
  | None => "None"
  end.

(** [build_url], lines 16-34. The bare [except] turns whatever [float]
    raises into [BuildUrlError]; its message shows [latitude] after the
    conversion when only that of [longitude] failed. The test of line 25
    never fires: [float] does not return [None]. *)
Definition build_url (latitude longitude : pyval) (verbose : bool) : result string :=
  match Py.float latitude with
  | Raise _ =>
    Raise (Exn BuildUrlError
             ("Lat/long must be numerical values. Received: Latitude: "
                ++ Py.str latitude ++ ", Longitude: " ++ Py.str longitude))
  | Ok lat =>
    match Py.float longitude with
    | Raise _ =>
      Raise (Exn BuildUrlError
               ("Lat/long must be numerical values. Received: Latitude: "
                  ++ Py.str (PyFloat lat) ++ ", Longitude: " ++ Py.str longitude))
    | Ok long =>
      if negb (validate_latitude_longitude lat long)
      then
        Raise (Exn BuildUrlError
                 ("Invalid lat/long provided. Latitude: " ++ Py.str (PyFloat lat)
                    ++ ", Longitude: " ++ Py.str (PyFloat long)))
      else
        Ok (APIConfig.WEATHER_BASE_URL ++ "?latitude=" ++ Py.str (PyFloat lat)
              ++ "&longitude=" ++ Py.str (PyFloat long)
              ++ "&" ++ APIConfig.DEFAULT_PARAMS)
    end
  end.

(** [create_http_client], lines 36-37: a new pool, known by its rank among
    the pools of the process. *)
Definition create_http_client : M nat :=
  fun s =>
    let pool := count is_pool_created (trace s) in
    (Ok pool, emit (PoolCreated pool) s).

(** [parse_json_response], lines 141-145. The [except] clause names
    [JSONDecodeError] only: what else [json.loads] raises goes through. *)
Definition parse_json_response (response : string) : result pyval :=
  match json_loads response with
  | inr v => Ok v
  | inl (JSONDecodeError e) => Raise (Exn ValueError ("Malformed JSON response: " ++ e))
  | inl (NestedTooDeep msg) => Raise (Exn RecursionError msg)
  | inl (TooManyDigits msg) => Raise (Exn ValueError msg)
  end.

(** [validate_latitude_longitude] is defined above, with the floats. *)

(** [sanitize_address], lines 147-164 *)
Definition sanitize_address (address : string) (verbose : bool) : M string :=
  if negb (PyStr.truthy address) || negb (PyStr.truthy (PyStr.strip address))
  then raise (Exn ValueError ("Missing address. Input provided: " ++ address))
  else
    match usaddress_parse address with
    | RepeatedLabelError original_string parsed_string =>
      raise (Exn ParseAddressError
               ("Error parsing address: " ++ parsed_string ++ ", " ++ original_string))
    | ReturnsNone =>
      raise (Exn AddressMissingError
               ("Missing address from 'usaddress'. Input provided: " ++ address))
    | Components parsed_components =>
      let sanitized := PyStr.join " " (List.map fst parsed_components) in
      when verbose
           (logging.info ("Sanitized address: " ++ sanitized ++ PyStr.newline)) ;;
      ret sanitized
    end.

(** [setup_logging], lines 166-175 *)
Definition setup_logging (verbose : bool) : M unit :=
  let level := if verbose then DEBUG else INFO in
  logging.basicConfig level StdoutAndFile.

(** The dataclass [WeatherData], lines 188-192. *)
Record WeatherData : Type := {
  wd_latitude : spec_float;
  wd_longitude : spec_float;
  wd_current : pyval
}.

(** [all(key in data for key in keys)]: stops at the first key that is
    missing, and raises what [in] raises. *)
Fixpoint all_in (keys : list string) (data : pyval) : result bool :=
  match keys with
  | [] => Ok true
  | key :: rest =>
    match Py.contains key data with
    | Raise e => Raise e
    | Ok false => Ok false
    | Ok true => all_in rest data
    end
  end.

(** [WeatherData.from_dict], lines 194-202 *)
Definition from_dict (data : pyval) : result WeatherData :=
  and_then (all_in ["latitude"; "longitude"; "current"] data) (fun present =>
  if negb present
  then Raise (Exn ValueError "Missing required fields in weather data")
  else
    and_then (Py.getitem data "latitude") (fun lat =>
    and_then (Py.float lat) (fun latitude =>
    and_then (Py.getitem data "longitude") (fun long =>
    and_then (Py.float long) (fun longitude =>
    and_then (Py.getitem data "current") (fun current =>
    Ok {| wd_latitude := latitude; wd_longitude := longitude;
          wd_current := current |})))))).

(** The singleton [WeatherAPI], lines 209-242. *)

(** [WeatherAPI.__new__], lines 218-222 *)
Definition WeatherAPI_new : M nat :=
  fun s =>
    match instance s with
    | Some api => (Ok api, s)
    | None =>
      match create_http_client s with
      | (Ok pool, s') =>
        (Ok pool, {| instance := Some pool; root_logger := root_logger s'; trace := trace s' |})
      | (Raise e, s') => (Raise e, s')
      end
    end.

(** [WeatherAPI.get_instance], lines 212-216 *)
Definition get_instance : M nat :=
  fun s =>
    match instance s with
    | Some api => (Ok api, s)
    | None =>
      match WeatherAPI_new s with
      | (Ok api, s') =>
        (Ok api, {| instance := Some api; root_logger := root_logger s'; trace := trace s' |})
      | (Raise e, s') => (Raise e, s')
      end
    end.

(** [WeatherAPI.__exit__], lines 227-228: [self.http.clear()] *)
Definition WeatherAPI_exit (api : nat) : M unit :=
  fun s => (Ok tt, emit (PoolCleared api) s).

(** [WeatherAPI.fetch_url], lines 230-242. The status is tested before the
    body is decoded; neither [except] clause catches what [decode] raises. *)
Definition fetch_url (api : nat) (url : string) (verbose : bool) : M string :=
  when verbose (logging.info ("Fetching data from: " ++ url ++ " " ++ PyStr.newline)) ;;
  fun s =>
    let n := count is_http_get (trace s) in
    let s' := emit (HttpGet api url) s in
    match http_request n url with
    | Response status data =>
      if negb (status =? 200)
      then (Raise (Exn FetchUrlDataError ("Failed to fetch data: " ++ PyStr.of_int status)), s')
      else (Py.decode data, s')
    | TimeoutError => (Raise (Exn FetchUrlDataError "Request timed out"), s')
    | RequestError description =>
      (Raise (Exn FetchUrlDataError ("Request failed: " ++ description)), s')
    end.

(** [with WeatherAPI.get_instance() as weather_api: body]: [__enter__]
    returns the instance, [__exit__] runs however the body ends and lets an
    exception of the body through. *)
Definition with_weather_api {A} (body : nat -> M A) : M A :=
  api <- get_instance ;;
  try_finally (body api) (WeatherAPI_exit api).

(** [display_weather_data], lines 39-53 *)
Definition display_weather_data (response : string) : M unit :=
  try_except
    (data <- lift (parse_json_response response) ;;
     weather_data <- lift (from_dict data) ;;
     temperature <- lift (Py.get (wd_current weather_data) "temperature_2m") ;;
     wind_speed <- lift (Py.get (wd_current weather_data) "wind_speed_10m") ;;
     print ("Temperature:" ++ PyStr.tab ++ Py.str temperature ++ "°" ++ PyStr.newline
              ++ "Wind Speed:" ++ PyStr.tab ++ Py.str wind_speed ++ " MPH"))
    [ValueError]
    (fun e => logging.error ("Failed to parse weather data: " ++ exn_str e)).

(** [get_coords_from_address], lines 55-78 *)
Definition get_coords_from_address (address : string) (verbose : bool) : M pyval :=
  try_except
    (let url :=
       APIConfig.GEOCODE_BASE_URL ++ "?q=" ++ address ++ "&api_key=" ++ MAPS_API_KEY in
     response <- with_weather_api (fun weather_api => fetch_url weather_api url verbose) ;;
     coords <- lift (parse_json_response response) ;;
     if negb (Py.truthy coords)
     then
       raise (Exn GetCoordsFromAddressError
                ("No coordinates found for address: " ++ address
                   ++ ". Verify that the address is valid."))
     else
       when verbose
            (first <- lift (Py.getitem0 coords) ;;
             display_name <- lift (Py.getitem first "display_name") ;;
             first <- lift (Py.getitem0 coords) ;;
             lat <- lift (Py.getitem first "lat") ;;
             first <- lift (Py.getitem0 coords) ;;
             lon <- lift (Py.getitem first "lon") ;;
             let location_data :=
               PyDict [("display_name", display_name); ("lat", lat); ("long", lon)] in
             logging.info ("Location data:" ++ PyStr.newline ++ json_dumps location_data
                             ++ PyStr.newline)) ;;
       ret coords)
    [FetchUrlDataError]
    (fun e =>
       raise (Exn GetCoordsFromAddressError
                ("Error getting coordinates from address: " ++ exn_str e))).

(** An optional float of the namespace as a Python value. *)
Definition of_option_float (x : option spec_float) : pyval :=
  match x with
  | Some f => PyFloat f
  | None => PyNone
  end.

(** [get_weather_url], lines 80-100. Both tests are tests of truth: an
    absent or empty address and an absent or zero latitude are false. *)
Definition get_weather_url (parsed_args : Namespace) : M string :=
  let by_coordinates : M string :=
    if match latitude parsed_args with Some x => PyFloat.truthy x | None => false end
    then
      lift (build_url (of_option_float (latitude parsed_args))
                      (of_option_float (longitude parsed_args))
                      (verbose parsed_args))
    else
      raise (Exn ParsedArgumentError
               "Failed to build URL: No valid address / coordinates provided.") in
  match address parsed_args with
  | None => by_coordinates
  | Some raw =>
    if PyStr.truthy raw
    then
      address <- sanitize_address raw (verbose parsed_args) ;;
      coords <- get_coords_from_address address (verbose parsed_args) ;;
      first <- lift (Py.getitem0 coords) ;;
      lat <- lift (Py.getitem first "lat") ;;
      first <- lift (Py.getitem0 coords) ;;
      lon <- lift (Py.getitem first "lon") ;;
      lift (build_url lat lon (verbose parsed_args))
    else by_coordinates
  end.

Definition is_some {A} (x : option A) : bool :=
  match x with Some _ => true | None => false end.

(** [parse_args], lines 102-139. [argparse] exits by itself on arguments it
    does not accept. *)
Definition parse_args (args : list string) : result Namespace :=
  match argparse_parse_args args with
  | inr code => Raise (SystemExit code)
  | inl parsed_args =>
    if is_some (address parsed_args)
       && (is_some (latitude parsed_args) || is_some (longitude parsed_args))
    then
      Raise (Exn ParsedArgumentError
               "Address and latitude/longitude cannot be provided together.")
    else if negb (Bool.eqb (is_some (latitude parsed_args))
                           (is_some (longitude parsed_args)))
    then
      Raise (Exn ParsedArgumentError
               "Both latitude and longitude must be provided together.")
    else if negb (is_some (latitude parsed_args)) && negb (is_some (address parsed_args))
    then
      Raise (Exn ParsedArgumentError
               "Either '--latitude' and '--longitude' pair, or '--address' must be provided.")
    else
      match latitude parsed_args, longitude parsed_args with
      | Some lat, Some long =>
        if negb (validate_latitude_longitude lat long)
        then
          Raise (Exn ParsedArgumentError
                   "Invalid latitude and/or longitude values provided.")
        else Ok parsed_args
      | _, _ => Ok parsed_args
      end
  end.

(** The [try] block of [main], lines 285-294, on [sys.argv[1:]]. *)
Definition main_try (argv : list string) : M unit :=
  parsed_args <- lift (parse_args argv) ;;
  setup_logging (verbose parsed_args) ;;
  url <- get_weather_url parsed_args ;;
  response <- with_weather_api
                (fun weather_api => fetch_url weather_api url (verbose parsed_args)) ;;
  display_weather_data response.

(** [main], lines 283-300 *)
Definition main (argv : list string) : M unit :=
  try_except
    (main_try argv)
    [BuildUrlError; FetchUrlDataError; FetchWeatherDataError;
     GetCoordsFromAddressError; ParsedArgumentError;
     AddressMissingError; ParseAddressError; ValueError]
    (fun e => logging.error (exn_str e) ;; sys_exit 1).

(** The exit status of the interpreter after [main]: 0 when it returns,
    the code of [sys.exit], and 1 with a traceback for an exception nobody
    caught. *)
Definition exit_status (r : result unit) : Z :=
  match r with
  | Ok _ => 0
  | Raise (SystemExit code) => code
  | Raise (Exn _ _) => 1
  end.

(** One run of the program from a fresh process. *)
Definition run (argv : list string) : Z * state :=
  let (r, s) := main argv initial_state in (exit_status r, s).

End Program.

(** ** Recorded sessions

    A closed run needs the answers of the outside world. [Replay.env_of]
    turns the answers recorded during a session into an environment: what an
    input that was not recorded gets is the failure of that collaborator, or
    an empty answer where it has none. *)

Module Replay.

Fixpoint assoc {A} (table : list (string * A)) (key : string) : option A :=
  match table with
  | [] => None
  | (k, a) :: rest => if String.eqb k key then Some a else assoc rest key
  end.

Definition float_eqb (x y : spec_float) : bool :=
  match x, y with
  | S754_zero a, S754_zero b => Bool.eqb a b
  | S754_infinity a, S754_infinity b => Bool.eqb a b
  | S754_nan, S754_nan => true
  | S754_finite a m e, S754_finite b n f => Bool.eqb a b && Pos.eqb m n && Z.eqb e f
  | _, _ => false
  end.

Fixpoint assoc_float (table : list (spec_float * string)) (x : spec_float) : string :=
  match table with
  | [] => ""
  | (y, text) :: rest => if float_eqb y x then text else assoc_float rest x
  end.

Fixpoint assoc_argv (table : list (list string * Namespace)) (argv : list string)
  : Namespace + Z :=
  match table with
  | [] => inr 2
  | (a, ns) :: rest =>
    if list_eq_dec string_dec a argv then inl ns else assoc_argv rest argv
  end.

Record session : Type := {
  command_lines : list (list string * Namespace);
  api_key : option string;
  documents : list (string * pyval);
  rejected : list (string * json_failure);
  undecodable : list (string * string);
  addresses : list (string * usaddress_outcome);
  responses : list (string * http_outcome);
  float_strings : list (string * spec_float);
  float_reprs : list (spec_float * string);
  pretty : pyval -> string
}.

Definition env_of (rec : session) : PythonEnv := {|
  argparse_parse_args := assoc_argv (command_lines rec);
  environ_MAPS_API_KEY := api_key rec;
  json_decoder := fun text =>
    match assoc (documents rec) text with
    | Some v => inr v
    | None =>
      match assoc (rejected rec) text with
      | Some failure => inl failure
      | None => inl (JSONDecodeError "Expecting value: line 1 column 1 (char 0)")
      end
    end;
  decode_error_str := fun data =>
    match assoc (undecodable rec) data with
    | Some msg => msg
    | None => ""
    end;
  json_dumps := pretty rec;
  usaddress_parse := fun text =>
    match assoc (addresses rec) text with
    | Some outcome => outcome
    | None => Components []
    end;
  http_request := fun _ url =>
    match assoc (responses rec) url with
    | Some outcome => outcome
    | None => RequestError "Max retries exceeded"
    end;
  float_of_str := assoc (float_strings rec);
  float_repr := assoc_float (float_reprs rec);
  str_repr := fun text => "'" ++ text ++ "'"
|}.

End Replay.

(** A session: Seattle by coordinates, the White House by address, a place
    whose forecast comes back without [current], an address the geocoder
    answers with an object that has no field, a point on the equator, an
    empty address and an empty command line; and four more answers of the
    geocoder: an empty list, a page that is not JSON, brackets nested a
    thousand deep, and a body that is not UTF-8. *)
Module Session.

Definition f47_6 : spec_float := Eval vm_compute in PyFloat.of_decimal 476 (-1).
Definition fm122_3 : spec_float := Eval vm_compute in PyFloat.of_decimal (-1223) (-1).
Definition f72_5 : spec_float := Eval vm_compute in PyFloat.of_decimal 725 (-1).
Definition f5_3 : spec_float := Eval vm_compute in PyFloat.of_decimal 53 (-1).
Definition f38_8977 : spec_float := Eval vm_compute in PyFloat.of_decimal 388977 (-4).
Definition fm77_0365 : spec_float := Eval vm_compute in PyFloat.of_decimal (-770365) (-4).
Definition f10 : spec_float := Eval vm_compute in PyFloat.of_Z 10.
Definition f20 : spec_float := Eval vm_compute in PyFloat.of_Z 20.
Definition f91 : spec_float := Eval vm_compute in PyFloat.of_Z 91.
Definition zero : spec_float := S754_zero false.

Definition seattle : Namespace :=
  {| address := None; latitude := Some f47_6; longitude := Some fm122_3; verbose := false |}.
Definition white_house : Namespace :=
  {| address := Some "1600 pennsylvania ave washington dc";
     latitude := None; longitude := None; verbose := false |}.
Definition somewhere : Namespace :=
  {| address := None; latitude := Some f10; longitude := Some f20; verbose := false |}.
Definition nowhere : Namespace :=
  {| address := Some "nowhere"; latitude := None; longitude := None; verbose := true |}.
Definition equator : Namespace :=
  {| address := None; latitude := Some zero; longitude := Some f20; verbose := false |}.
Definition empty_address : Namespace :=
  {| address := Some ""; latitude := None; longitude := None; verbose := false |}.
Definition nothing : Namespace :=
  {| address := None; latitude := None; longitude := None; verbose := false |}.

Definition seattle_url : string :=
  "https://api.open-meteo.com/v1/forecast?latitude=47.6&longitude=-122.3&current=temperature_2m,wind_speed_10m&temperature_unit=fahrenheit&wind_speed_unit=mph&timezone=auto".
Definition white_house_url : string :=
  "https://api.open-meteo.com/v1/forecast?latitude=38.8977&longitude=-77.0365&current=temperature_2m,wind_speed_10m&temperature_unit=fahrenheit&wind_speed_unit=mph&timezone=auto".
Definition somewhere_url : string :=
  "https://api.open-meteo.com/v1/forecast?latitude=10.0&longitude=20.0&current=temperature_2m,wind_speed_10m&temperature_unit=fahrenheit&wind_speed_unit=mph&timezone=auto".
Definition white_house_geocode_url : string :=
  "https://geocode.maps.co/search?q=1600 pennsylvania ave washington dc&api_key=k3y".
Definition nowhere_geocode_url : string :=
  "https://geocode.maps.co/search?q=nowhere&api_key=k3y".
Definition atlantis_geocode_url : string :=
  "https://geocode.maps.co/search?q=atlantis&api_key=k3y".
Definition gateway_geocode_url : string :=
  "https://geocode.maps.co/search?q=gateway&api_key=k3y".
Definition labyrinth_geocode_url : string :=
  "https://geocode.maps.co/search?q=labyrinth&api_key=k3y".
Definition babel_geocode_url : string :=
  "https://geocode.maps.co/search?q=babel&api_key=k3y".

(** The bodies of the responses, as JSON text. *)
Definition quoted (s : string) : string := PyStr.chr 34 ++ s ++ PyStr.chr 34.
Definition member (key value : string) : string := quoted key ++ ": " ++ value.

Definition forecast_body (lat long : string) : string :=
  "{" ++ member "latitude" lat ++ ", " ++ member "longitude" long ++ ", "
      ++ member "current"
           ("{" ++ member "temperature_2m" "72.5" ++ ", "
                ++ member "wind_speed_10m" "5.3" ++ "}")
      ++ "}".
Definition seattle_body : string := forecast_body "47.6" "-122.3".
Definition white_house_body : string := forecast_body "38.8977" "-77.0365".
Definition somewhere_body : string :=
  "{" ++ member "latitude" "10.0" ++ ", " ++ member "longitude" "20.0" ++ "}".
Definition null_latitude_body : string :=
  "{" ++ member "latitude" "null" ++ ", " ++ member "longitude" "20" ++ ", "
      ++ member "current" "{}" ++ "}".
Definition candidates_body : string :=
  "[{" ++ member "display_name" (quoted "White House, Washington, DC") ++ ", "
       ++ member "lat" (quoted "38.8977") ++ ", "
       ++ member "lon" (quoted "-77.0365") ++ "}]".
Definition bare_candidate_body : string := "[{}]".
(** A thousand opening brackets, and one byte that starts no character. *)
Definition nested_body : string := String.concat "" (List.repeat "[" 1000).
Definition latin_body : string := PyStr.chr 255.

(** What [json.loads] makes of them. *)
Definition forecast (lat long : spec_float) : pyval :=
  PyDict [("latitude", PyFloat lat); ("longitude", PyFloat long);
          ("current", PyDict [("temperature_2m", PyFloat f72_5);
                              ("wind_speed_10m", PyFloat f5_3)])].

Definition without_current : pyval :=
  PyDict [("latitude", PyFloat f10); ("longitude", PyFloat f20)].

Definition null_latitude : pyval :=
  PyDict [("latitude", PyNone); ("longitude", PyInt 20); ("current", PyDict [])].

Definition candidates : pyval :=
  PyList [PyDict [("display_name", PyStr "White House, Washington, DC");
                  ("lat", PyStr "38.8977"); ("lon", PyStr "-77.0365")]].

Definition bare_candidate : pyval := PyList [PyDict []].

Definition recorded : Replay.session := {|
  Replay.command_lines :=
    [(["--latitude"; "47.6"; "--longitude"; "-122.3"], seattle);
     (["--address"; "1600 pennsylvania ave washington dc"], white_house);
     (["--latitude"; "10"; "--longitude"; "20"], somewhere);
     (["--address"; "nowhere"; "--verbose"], nowhere);
     (["--latitude"; "0.0"; "--longitude"; "20"], equator);
     (["--address"; ""], empty_address);
     ([], nothing)];
  Replay.api_key := Some "k3y";
  Replay.documents :=
    [(seattle_body, forecast f47_6 fm122_3);
     (white_house_body, forecast f38_8977 fm77_0365);
     (somewhere_body, without_current);
     (null_latitude_body, null_latitude);
     (candidates_body, candidates);
     (bare_candidate_body, bare_candidate);
     ("[]", PyList [])];
  Replay.rejected :=
    [(nested_body,
      NestedTooDeep
        "maximum recursion depth exceeded while decoding a JSON array from a unicode string")];
  Replay.undecodable :=
    [(latin_body, "'utf-8' codec can't decode byte 0xff in position 0: invalid start byte")];
  Replay.addresses :=
    [("1600 pennsylvania ave washington dc",
      Components [("1600", "AddressNumber"); ("pennsylvania", "StreetName");
                  ("ave", "StreetNamePostType"); ("washington", "PlaceName");
                  ("dc", "StateName")]);
     ("nowhere", Components [("nowhere", "PlaceName")]);
     (",", Components [])];
  Replay.responses :=
    [(seattle_url, Response 200 seattle_body);
     (white_house_geocode_url, Response 200 candidates_body);
     (white_house_url, Response 200 white_house_body);
     (somewhere_url, Response 200 somewhere_body);
     (nowhere_geocode_url, Response 200 bare_candidate_body);
     (atlantis_geocode_url, Response 200 "[]");
     (gateway_geocode_url, Response 200 "<html>Bad Gateway</html>");
     (labyrinth_geocode_url, Response 200 nested_body);
     (babel_geocode_url, Response 200 latin_body)];
  Replay.float_strings := [("38.8977", f38_8977); ("-77.0365", fm77_0365)];
  Replay.float_reprs :=
    [(f47_6, "47.6"); (fm122_3, "-122.3"); (f72_5, "72.5"); (f5_3, "5.3");
     (f38_8977, "38.8977"); (fm77_0365, "-77.0365"); (f10, "10.0"); (f20, "20.0");
     (f91, "91.0"); (zero, "0.0")];
  (* [json.dumps] is not called in these sessions *)
  Replay.pretty := fun _ => ""
|}.

Definition env : PythonEnv := Replay.env_of recorded.

End Session.

(** ** The vocabulary of the properties *)

(** The floats of a namespace are binary64 values, as [argparse] makes them
    with [type=float]. *)
Definition binary64_namespace (ns : Namespace) : Prop :=
  (forall x, latitude ns = Some x -> PyFloat.is_binary64 x)
  /\ (forall x, longitude ns = Some x -> PyFloat.is_binary64 x).

(** The address alone is set. *)
Definition address_mode (ns : Namespace) : Prop :=
  (exists a, address ns = Some a) /\ latitude ns = None /\ longitude ns = None.

(** Latitude and longitude alone are set, and both are in range. *)
Definition coordinates_mode (ns : Namespace) : Prop :=
  address ns = None
  /\ exists lat long,
      latitude ns = Some lat /\ longitude ns = Some long
      /\ PyFloat.between (-90) 90 lat /\ PyFloat.between (-180) 180 long.

Definition one_valid_mode (ns : Namespace) : Prop :=
  address_mode ns \/ coordinates_mode ns.

(** The forecast URL for a latitude and a longitude as they are written. *)
Definition forecast_url (lat long : string) : string :=
  APIConfig.WEATHER_BASE_URL ++ "?latitude=" ++ lat ++ "&longitude=" ++ long
    ++ "&current=temperature_2m,wind_speed_10m&temperature_unit=fahrenheit&wind_speed_unit=mph&timezone=auto".

(** The two lines of a successful run. *)
Definition weather_lines (temperature wind_speed : string) : string :=
  "Temperature:" ++ PyStr.tab ++ temperature ++ "°" ++ PyStr.newline
    ++ "Wind Speed:" ++ PyStr.tab ++ wind_speed ++ " MPH".

(** What [current.get(key)] shows in the output. *)
Definition shown {env : PythonEnv} (fields : list (string * pyval)) (key : string) : string :=
  Py.str (match Py.lookup fields key with Some v => v | None => PyNone end).

(** The pools of a trace are in order: before the singleton exists no event
    is about a pool; once it exists it is pool 0, one pool was created, and
    every event about a pool is about that one. *)
Definition pools_ok (s : state) : Prop :=
  match instance s with
  | None => forall ev, In ev (trace s) -> pool_of ev = None
  | Some api =>
    api = 0%nat
    /\ count is_pool_created (trace s) = 1%nat
    /\ forall ev pool, In ev (trace s) -> pool_of ev = Some pool -> pool = 0%nat
  end.

(** Between [s] and [s'], [j] requests were sent and the pool was cleared [j]
    times, and the pools stayed in order. *)
Definition fetches (j : nat) (s s' : state) : Prop :=
  (pools_ok s -> pools_ok s')
  /\ count is_pool_cleared (trace s') = (count is_pool_cleared (trace s) + j)%nat
  /\ count is_http_get (trace s') = (count is_http_get (trace s) + j)%nat
  /\ (forall api, instance s = Some api -> instance s' = Some api).

(** From any state, [m] fetches between [lo] and [hi] times. *)
Definition performs {A} (lo hi : nat) (m : M A) : Prop :=
  forall s, exists j, (lo <= j <= hi)%nat /\ fetches j s (snd (m s)).

(** [m] leaves the number of events of kind [p] as it is. *)
Definition keeps {A} (p : event -> bool) (m : M A) : Prop :=
  forall s, count p (trace (snd (m s))) = count p (trace s).

(** When [m] raises, it has printed nothing. *)
Definition fails_silently {A} (m : M A) : Prop :=
  forall s e s', m s = (Raise e, s') ->
                 count is_printed (trace s') = count is_printed (trace s).

(** ** The rest of weather_app.py *)

(** [WeatherData.__str__], lines 204-207 *)
Definition WeatherData_str {env : PythonEnv} (self : WeatherData) : result string :=
  and_then (Py.get (wd_current self) "temperature_2m") (fun temperature =>
  and_then (Py.get (wd_current self) "wind_speed_10m") (fun wind_speed =>
  Ok ("WeatherData(latitude=" ++ Py.str (PyFloat (wd_latitude self))
        ++ ", longitude=" ++ Py.str (PyFloat (wd_longitude self))
        ++ ", temperature=" ++ Py.str temperature
        ++ ", wind_speed=" ++ Py.str wind_speed ++ ")"))).

(** The requests of a trace, in order. *)
Definition requests (t : list event) : list event := List.filter is_http_get t.

Definition is_logged (ev : event) : bool :=
  match ev with Logged _ _ => true | _ => false end.

(** [t'] is [t] and, after it, log records only: those that a library logs
    by itself while it works. *)
Definition then_records (t t' : list event) : Prop :=
  exists records, t' = (t ++ records)%list /\ forallb is_logged records = true.

(** The URL of the geocoding request for an address: the address as it is,
    and the text [None] for a key that the environment does not define. *)
Definition geocode_url {env : PythonEnv} (address : string) : string :=
  "https://geocode.maps.co/search?q=" ++ address ++ "&api_key="
    ++ match environ_MAPS_API_KEY with Some key => key | None => "None" end.

(** The classes the [except] clause of [main] names, lines 296-298. *)
Definition handled_by_main : list exn_class :=
  [BuildUrlError; FetchUrlDataError; FetchWeatherDataError;
   GetCoordsFromAddressError; ParsedArgumentError;
   AddressMissingError; ParseAddressError; ValueError].

(** What a failed request raises in [fetch_url]; nothing for an answer with
    status 200. *)
Definition fetch_error (outcome : http_outcome) : option string :=
  match outcome with
  | Response status _ =>
    if status =? 200 then None else Some ("Failed to fetch data: " ++ PyStr.of_int status)
  | TimeoutError => Some "Request timed out"
  | RequestError description => Some ("Request failed: " ++ description)
  end.

(** [m] never raises [SystemExit]. *)
Definition never_exits {A} (m : M A) : Prop :=
  forall s code, fst (m s) <> Raise (SystemExit code).

Definition pure_never_exits {A} (r : result A) : Prop :=
  forall code, r <> Raise (SystemExit code).

(** A logger that lets a record of level [l] through to the handlers [h]. *)
Definition lets_through (s : state) (l : log_level) (h : log_handlers) : Prop :=
  exists threshold,
    root_logger s = Some (threshold, h) /\ (levelno threshold <=? levelno l) = true.

(** [m] adds no request to the trace. *)
Definition sends_nothing {A} (m : M A) : Prop :=
  forall s, requests (trace (snd (m s))) = requests (trace s).

(** The state of a run once [setup_logging] has configured the logger and
    before anything else has happened. *)
Definition configured (v : bool) : state :=
  {| instance := None;
     root_logger := Some (if v then DEBUG else INFO, StdoutAndFile);
     trace := [] |}.



(** A second session, on a bad day and without API key: the forecast
    service answers 404, the geocoder refuses one address with status 401,
    answers another with an object that reports an error and a third with a
    candidate that has no [display_name], and one forecast comes back with a
    [current] that is [null]. *)
Module Outage.

Definition elsewhere : Namespace :=
  {| address := Some "elsewhere"; latitude := None; longitude := None; verbose := false |}.
Definition nameless : Namespace :=
  {| address := Some "nameless"; latitude := None; longitude := None; verbose := true |}.

Definition elsewhere_geocode_url : string :=
  "https://geocode.maps.co/search?q=elsewhere&api_key=None".
Definition white_house_geocode_url : string :=
  "https://geocode.maps.co/search?q=1600 pennsylvania ave washington dc&api_key=None".
Definition nameless_geocode_url : string :=
  "https://geocode.maps.co/search?q=nameless&api_key=None".

Definition error_body : string :=
  "{" ++ Session.member "error" (Session.quoted "Unable to geocode") ++ "}".
Definition error_object : pyval := PyDict [("error", PyStr "Unable to geocode")].

(** A candidate with its coordinates and no [display_name]. *)
Definition nameless_body : string :=
  "[{" ++ Session.member "lat" (Session.quoted "38.8977") ++ ", "
       ++ Session.member "lon" (Session.quoted "-77.0365") ++ "}]".
Definition nameless_candidate : list (string * pyval) :=
  [("lat", PyStr "38.8977"); ("lon", PyStr "-77.0365")].

Definition null_current_body : string :=
  "{" ++ Session.member "latitude" "47.6" ++ ", " ++ Session.member "longitude" "-122.3"
      ++ ", " ++ Session.member "current" "null" ++ "}".
Definition null_current : list (string * pyval) :=
  [("latitude", PyFloat Session.f47_6); ("longitude", PyFloat Session.fm122_3);
   ("current", PyNone)].

Definition recorded : Replay.session := {|
  Replay.command_lines :=
    [(["--latitude"; "47.6"; "--longitude"; "-122.3"], Session.seattle);
     (["--address"; "1600 pennsylvania ave washington dc"], Session.white_house);
     (["--address"; "elsewhere"], elsewhere);
     (["--address"; "nameless"; "--verbose"], nameless)];
  Replay.api_key := None;
  Replay.documents :=
    [(error_body, error_object); (null_current_body, PyDict null_current);
     (nameless_body, PyList [PyDict nameless_candidate])];
  Replay.rejected := [];
  Replay.undecodable := [];
  Replay.addresses :=
    [("1600 pennsylvania ave washington dc",
      Components [("1600", "AddressNumber"); ("pennsylvania", "StreetName");
                  ("ave", "StreetNamePostType"); ("washington", "PlaceName");
                  ("dc", "StateName")]);
     ("elsewhere", Components [("elsewhere", "PlaceName")]);
     ("nameless", Components [("nameless", "PlaceName")])];
  Replay.responses :=
    [(Session.seattle_url, Response 404 "Not Found");
     (white_house_geocode_url, Response 401 "Unauthorized");
     (elsewhere_geocode_url, Response 200 error_body);
     (nameless_geocode_url, Response 200 nameless_body)];
  Replay.float_strings := [];
  Replay.float_reprs := [(Session.f47_6, "47.6"); (Session.fm122_3, "-122.3")];
  Replay.pretty := fun _ => ""
|}.

Definition env : PythonEnv := Replay.env_of recorded.

End Outage.

(** * Properties *)

(** ** Comparison of binary64 values *)

Module PyFloatFacts.
Import PyFloat.

(** The number of binary digits of a mantissa. *)
Lemma digits2_pos_bounds (m : positive) :
  2 ^ (Zpos (digits2_pos m) - 1) <= Zpos m < 2 ^ Zpos (digits2_pos m).
Proof.
  induction m as [p IH | p IH | ]; cbn [digits2_pos].
  - rewrite Pos2Z.inj_succ.
    replace (Z.succ (Zpos (digits2_pos p)) - 1) with (Z.succ (Zpos (digits2_pos p) - 1)) by lia.
    rewrite !Z.pow_succ_r by lia. lia.
  - rewrite Pos2Z.inj_succ.
    replace (Z.succ (Zpos (digits2_pos p)) - 1) with (Z.succ (Zpos (digits2_pos p) - 1)) by lia.
    rewrite !Z.pow_succ_r by lia. lia.
  - cbn. lia.
Qed.

(** A binary64 mantissa has at most 53 digits, and exactly 53 unless the
    float is subnormal. *)
Lemma bounded_inv m e :
  bounded prec emax m e = true ->
  -1074 <= e <= 971 /\
  Zpos (digits2_pos m) <= 53 /\
  (Zpos (digits2_pos m) = 53 \/ e = -1074).
Proof.
  unfold bounded, canonical_mantissa, fexp, SpecFloat.emin, prec, emax.
  intros H. apply andb_true_iff in H as [H1 H2].
  apply Z.eqb_eq in H1. apply Z.leb_le in H2. lia.
Qed.

Lemma scaled_bounds m e :
  bounded prec emax m e = true ->
  2 ^ (e + 1074) <= Zpos m * 2 ^ (e + 1074) < 2 ^ (e + 1127) /\
  (-1074 < e -> 2 ^ (e + 1126) <= Zpos m * 2 ^ (e + 1074)).
Proof.
  intros H. destruct (bounded_inv _ _ H) as (He & Hd & Hn).
  pose proof (digits2_pos_bounds m) as [Hlo Hhi].
  assert (Hp : 0 < 2 ^ (e + 1074)) by (apply Z.pow_pos_nonneg; lia).
  assert (Hm : Zpos m < 2 ^ 53).
  { eapply Z.lt_le_trans; [exact Hhi|]. apply Z.pow_le_mono_r; lia. }
  assert (H1 : 1 <= Zpos m) by lia.
  remember (2 ^ (e + 1074)) as P. remember (Zpos m) as M.
  split; [split|].
  - nia.
  - replace (e + 1127) with (53 + (e + 1074)) by lia.
    rewrite Z.pow_add_r by lia. rewrite <- HeqP. nia.
  - intros Hgt. destruct Hn as [Hn | Hn]; [|lia].
    rewrite Hn in Hlo. replace (e + 1126) with (52 + (e + 1074)) by lia.
    rewrite Z.pow_add_r by lia. rewrite <- HeqP. change (53 - 1) with 52 in Hlo. nia.
Qed.

(** On finite binary64 values, [SFcompare] is the comparison of the real
    values. *)
Lemma compare_scaled s1 m1 e1 s2 m2 e2 c :
  bounded prec emax m1 e1 = true ->
  bounded prec emax m2 e2 = true ->
  SFcompare (S754_finite s1 m1 e1) (S754_finite s2 m2 e2) = Some c ->
  c = (scaled (S754_finite s1 m1 e1) ?= scaled (S754_finite s2 m2 e2)).
Proof.
  intros B1 B2 Hc.
  destruct (scaled_bounds _ _ B1) as [[L1 U1] N1].
  destruct (scaled_bounds _ _ B2) as [[L2 U2] N2].
  destruct (bounded_inv _ _ B1) as (He1 & _ & _).
  destruct (bounded_inv _ _ B2) as (He2 & _ & _).
  assert (P1 : 0 < 2 ^ (e1 + 1074)) by (apply Z.pow_pos_nonneg; lia).
  assert (P2 : 0 < 2 ^ (e2 + 1074)) by (apply Z.pow_pos_nonneg; lia).
  assert (Mono : forall a b, -1074 <= a -> a < b -> 2 ^ (a + 1127) <= 2 ^ (b + 1126)).
  { intros a b Ha Hab. apply Z.pow_le_mono_r; lia. }
  cbn [SFcompare] in Hc. injection Hc as <-. cbn [scaled].
  symmetry.
  destruct s1, s2; cbn [cond_Zopp].
  - destruct (Z.compare_spec e1 e2) as [E | E | E].
    + subst e2. change (Pos.compare_cont Eq m1 m2) with (m1 ?= m2)%positive.
      destruct (Pos.compare_spec m1 m2) as [F | F | F]; cbn [CompOpp].
      * subst. apply Z.compare_eq_iff. reflexivity.
      * apply Z.compare_gt_iff. apply Pos2Z.pos_lt_pos in F. nia.
      * apply Z.compare_lt_iff. apply Pos2Z.pos_lt_pos in F. nia.
    + apply Z.compare_gt_iff. specialize (Mono e1 e2 ltac:(lia) E).
      specialize (N2 ltac:(lia)). lia.
    + apply Z.compare_lt_iff. specialize (Mono e2 e1 ltac:(lia) E).
      specialize (N1 ltac:(lia)). lia.
  - apply Z.compare_lt_iff. lia.
  - apply Z.compare_gt_iff. lia.
  - destruct (Z.compare_spec e1 e2) as [E | E | E].
    + subst e2. change (Pos.compare_cont Eq m1 m2) with (m1 ?= m2)%positive.
      destruct (Pos.compare_spec m1 m2) as [F | F | F].
      * subst. apply Z.compare_eq_iff. reflexivity.
      * apply Z.compare_lt_iff. apply Pos2Z.pos_lt_pos in F. nia.
      * apply Z.compare_gt_iff. apply Pos2Z.pos_lt_pos in F. nia.
    + apply Z.compare_lt_iff. specialize (Mono e1 e2 ltac:(lia) E).
      specialize (N2 ltac:(lia)). lia.
    + apply Z.compare_gt_iff. specialize (Mono e2 e1 ltac:(lia) E).
      specialize (N1 ltac:(lia)). lia.
Qed.

Lemma le_scaled x y :
  is_binary64 x -> is_binary64 y -> is_real x = true -> is_real y = true ->
  le x y = true <-> scaled x <= scaled y.
Proof.
  unfold is_binary64, le, SFleb. intros Vx Vy Rx Ry.
  destruct x as [sx | | | sx mx ex], y as [sy | | | sy my ey]; try discriminate.
  - cbn. split; [lia | reflexivity].
  - cbn in Vy. destruct (scaled_bounds _ _ Vy) as [[L U] _].
    destruct (bounded_inv _ _ Vy) as (He & _ & _).
    assert (0 < 2 ^ (ey + 1074)) by (apply Z.pow_pos_nonneg; lia).
    destruct sy; cbn [SFcompare scaled cond_Zopp]; split; intros; try lia; try discriminate; try reflexivity.
  - cbn in Vx. destruct (scaled_bounds _ _ Vx) as [[L U] _].
    destruct (bounded_inv _ _ Vx) as (He & _ & _).
    assert (0 < 2 ^ (ex + 1074)) by (apply Z.pow_pos_nonneg; lia).
    destruct sx; cbn [SFcompare scaled cond_Zopp]; split; intros; try lia; try discriminate; try reflexivity.
  - cbn in Vx, Vy.
    destruct (SFcompare (S754_finite sx mx ex) (S754_finite sy my ey)) as [c|] eqn:Hc;
      [| discriminate Hc].
    rewrite (compare_scaled _ _ _ _ _ _ _ Vx Vy Hc).
    unfold Z.le. destruct (_ ?= _); split; congruence.
Qed.

Lemma pow2_pos e : (0 < 2 ^ e)%Q.
Proof. apply Qpower_0_lt. reflexivity. Qed.

(** [scaled] is [value] in units of [2^-1074]. *)
Lemma value_scaled x q :
  is_binary64 x -> value x = Some q ->
  (q * 2 ^ 1074 == inject_Z (scaled x))%Q.
Proof.
  unfold is_binary64. intros V Hq.
  destruct x as [s | | | s m e]; try discriminate; cbn [value] in Hq; injection Hq as <-.
  - cbn [scaled]. rewrite Qmult_0_l. reflexivity.
  - cbn [valid_binary] in V. destruct (bounded_inv _ _ V) as (He & _ & _).
    cbn [scaled].
    assert (E : (2 ^ e * 2 ^ 1074 == inject_Z (2 ^ (e + 1074)))%Q).
    { rewrite Zpower_Qpower by lia. rewrite Qpower_plus by discriminate. reflexivity. }
    rewrite <- Qmult_assoc, E, <- inject_Z_mult.
    destruct s; cbn [cond_Zopp]; rewrite ?Z.mul_opp_l; reflexivity.
Qed.

Lemma value_real x : is_real x = true <-> exists q, value x = Some q.
Proof.
  destruct x; cbn; split; intros H; try reflexivity; try discriminate;
    try (eexists; reflexivity); destruct H; discriminate.
Qed.

Lemma inject_scaled n : (inject_Z n * 2 ^ 1074 == inject_Z (n * 2 ^ 1074))%Q.
Proof. rewrite inject_Z_mult, Zpower_Qpower by lia. reflexivity. Qed.

Lemma le_bound_l n x q :
  exact_bound n -> is_binary64 x -> value x = Some q ->
  le (of_Z n) x = true <-> (inject_Z n <= q)%Q.
Proof.
  intros (Vn & Rn & Sn) Vx Hq.
  assert (Rx : is_real x = true) by (apply value_real; eauto).
  rewrite (le_scaled _ _ Vn Vx Rn Rx), Sn.
  rewrite <- (Qmult_le_r _ _ (2 ^ 1074)%Q (pow2_pos _)).
  rewrite (value_scaled _ _ Vx Hq), inject_scaled, <- Zle_Qle. reflexivity.
Qed.

Lemma le_bound_r n x q :
  exact_bound n -> is_binary64 x -> value x = Some q ->
  le x (of_Z n) = true <-> (q <= inject_Z n)%Q.
Proof.
  intros (Vn & Rn & Sn) Vx Hq.
  assert (Rx : is_real x = true) by (apply value_real; eauto).
  rewrite (le_scaled _ _ Vx Vn Rx Rn), Sn.
  rewrite <- (Qmult_le_r _ _ (2 ^ 1074)%Q (pow2_pos _)).
  rewrite (value_scaled _ _ Vx Hq), inject_scaled, <- Zle_Qle. reflexivity.
Qed.

(** The two comparisons of a range test, against the interval. *)
Lemma le_le_between lo hi x :
  exact_bound lo -> exact_bound hi -> is_binary64 x ->
  le (of_Z lo) x && le x (of_Z hi) = true <-> between lo hi x.
Proof.
  intros Blo Bhi Vx. unfold between. rewrite andb_true_iff.
  destruct (value x) as [q|] eqn:Hq.
  - rewrite (le_bound_l _ _ _ Blo Vx Hq), (le_bound_r _ _ _ Bhi Vx Hq). reflexivity.
  - split; [|tauto]. intros [H1 H2].
    destruct Blo as (_ & Rlo & _), Bhi as (_ & Rhi & _).
    unfold le, SFleb in H1, H2.
    destruct x as [ | [|] | | ]; try discriminate Hq.
    + destruct (of_Z lo); discriminate.
    + destruct (of_Z hi); discriminate.
    + destruct (of_Z lo); discriminate.
Qed.

Lemma exact_bound_90 : exact_bound 90 /\ exact_bound (-90) /\ exact_bound 180 /\ exact_bound (-180).
Proof. repeat split; vm_compute; reflexivity. Qed.

End PyFloatFacts.

(** ** Validator *)

Lemma validate_latitude_longitude_true (latitude longitude : spec_float) :
  PyFloat.is_binary64 latitude -> PyFloat.is_binary64 longitude ->
  validate_latitude_longitude latitude longitude = true <->
  PyFloat.between (-90) 90 latitude /\ PyFloat.between (-180) 180 longitude.
Proof.
  intros Vlat Vlong.
  destruct PyFloatFacts.exact_bound_90 as (B90 & Bm90 & B180 & Bm180).
  rewrite <- (PyFloatFacts.le_le_between _ _ _ Bm90 B90 Vlat),
          <- (PyFloatFacts.le_le_between _ _ _ Bm180 B180 Vlong).
  unfold validate_latitude_longitude.
  destruct (PyFloat.le (PyFloat.of_Z (-90)) latitude && PyFloat.le latitude (PyFloat.of_Z 90));
    destruct (PyFloat.le (PyFloat.of_Z (-180)) longitude
              && PyFloat.le longitude (PyFloat.of_Z 180));
    cbn; intuition congruence.
Qed.

(** C2. For every pair of floats, [validate_latitude_longitude] returns true
    exactly when the latitude denotes a real number of [[-90, 90]] and the
    longitude one of [[-180, 180]], and false when either is outside its range
    (an infinity or a NaN is outside every range). It is a function of its two
    arguments to [bool]: it reads and writes nothing else. *)
Theorem validate_latitude_longitude_spec (latitude longitude : spec_float) :
  PyFloat.is_binary64 latitude -> PyFloat.is_binary64 longitude ->
  (validate_latitude_longitude latitude longitude = true <->
   PyFloat.between (-90) 90 latitude /\ PyFloat.between (-180) 180 longitude)
  /\ (~ PyFloat.between (-90) 90 latitude \/ ~ PyFloat.between (-180) 180 longitude ->
      validate_latitude_longitude latitude longitude = false).
Proof.
  intros Vlat Vlong.
  pose proof (validate_latitude_longitude_true _ _ Vlat Vlong) as H.
  split; [exact H|].
  intros Hout. destruct (validate_latitude_longitude latitude longitude); [|reflexivity].
  destruct (proj1 H eq_refl) as [Hlat Hlong]. destruct Hout; contradiction.
Qed.

Lemma between_47_6 : PyFloat.between (-90) 90 Session.f47_6.
Proof. split; vm_compute; discriminate. Qed.

Lemma between_m122_3 : PyFloat.between (-180) 180 Session.fm122_3.
Proof. split; vm_compute; discriminate. Qed.

Lemma validate_latitude_longitude_witness :
  PyFloat.is_binary64 Session.f47_6 /\ PyFloat.is_binary64 Session.fm122_3
  /\ validate_latitude_longitude Session.f47_6 Session.fm122_3 = true
  /\ validate_latitude_longitude Session.f91 Session.fm122_3 = false.
Proof.
  split; [reflexivity|]. split; [reflexivity|]. split.
  - apply (proj1 (validate_latitude_longitude_spec Session.f47_6 Session.fm122_3
                    eq_refl eq_refl)).
    split; [exact between_47_6 | exact between_m122_3].
  - apply (proj2 (validate_latitude_longitude_spec Session.f91 Session.fm122_3
                    eq_refl eq_refl)).
    left. intros [_ H]. vm_compute in H. apply H. reflexivity.
Defined.

(** ** Stripping white space *)

Module PyStrFacts.
Import PyStr.

Lemma is_empty_true (s : string) : is_empty s = true <-> s = "".
Proof. destruct s; cbn; split; congruence. Qed.

Lemma space_prefix_shorter (s r : string) :
  space_prefix s = Some r -> (String.length r < String.length s)%nat.
Proof.
  unfold space_prefix. intros H.
  destruct s as [|c1 [|c2 [|c3 r3]]]; try discriminate;
    repeat match type of H with
           | (if ?b then _ else _) = _ => destruct b
           end;
    try discriminate; injection H as <-; cbn; lia.
Qed.

Lemma lstrip_from_whitespace (n : nat) : forall s,
  (String.length s <= n)%nat -> whitespace_only s -> lstrip_from n s = "".
Proof.
  induction n as [|n IH]; intros s Hlen Hws.
  - destruct s; [reflexivity | cbn in Hlen; lia].
  - cbn [lstrip_from]. destruct Hws as [|s r Hp Hr].
    + reflexivity.
    + rewrite Hp. apply IH; [|exact Hr].
      apply space_prefix_shorter in Hp. lia.
Qed.

Lemma lstrip_from_empty (n : nat) : forall s,
  (String.length s <= n)%nat -> lstrip_from n s = "" -> whitespace_only s.
Proof.
  induction n as [|n IH]; intros s Hlen H.
  - cbn in H. subst s. constructor.
  - cbn [lstrip_from] in H. destruct (space_prefix s) as [r|] eqn:Hp.
    + apply (ws_space s r Hp). apply IH; [|exact H].
      apply space_prefix_shorter in Hp. lia.
    + subst s. constructor.
Qed.

Lemma lstrip_from_keeps (n : nat) : forall s,
  whitespace_only (lstrip_from n s) -> whitespace_only s.
Proof.
  induction n as [|n IH]; intros s H; [exact H|].
  cbn [lstrip_from] in H. destruct (space_prefix s) as [r|] eqn:Hp; [|exact H].
  apply (ws_space s r Hp). apply IH. exact H.
Qed.

Lemma lstrip_empty (s : string) : lstrip s = "" <-> whitespace_only s.
Proof.
  unfold lstrip. split.
  - apply lstrip_from_empty. lia.
  - apply lstrip_from_whitespace. lia.
Qed.

Lemma rstrip_empty (s : string) : rstrip s = "" <-> whitespace_only s.
Proof.
  rewrite <- lstrip_empty. destruct s as [|c r]; [cbn; tauto|].
  cbn [rstrip]. destruct (is_empty (lstrip (String c r))) eqn:E.
  - apply is_empty_true in E. tauto.
  - split; [discriminate|]. intros H. rewrite H in E. discriminate.
Qed.

(** [s.strip()] is empty exactly when [s] holds white space only. *)
Lemma strip_empty (s : string) : strip s = "" <-> whitespace_only s.
Proof.
  unfold strip. rewrite rstrip_empty. split.
  - apply lstrip_from_keeps.
  - intros H. apply lstrip_empty in H. rewrite H. constructor.
Qed.

(** The test of line 148, [not address or not address.strip()]. *)
Lemma missing_address_test (address : string) :
  negb (truthy address) || negb (truthy (strip address)) = true
  <-> whitespace_only address.
Proof.
  unfold truthy. rewrite !negb_involutive, orb_true_iff, !is_empty_true, strip_empty.
  split; [|tauto]. intros [-> | H]; [constructor | exact H].
Qed.

End PyStrFacts.

(** ** Argument validation and URL building *)

Section Arguments.
Context {env : PythonEnv}.

Lemma validate_in_range (lat long : spec_float) :
  PyFloat.is_binary64 lat -> PyFloat.is_binary64 long ->
  PyFloat.between (-90) 90 lat -> PyFloat.between (-180) 180 long ->
  validate_latitude_longitude lat long = true.
Proof.
  intros Vlat Vlong Hlat Hlong.
  apply (validate_latitude_longitude_true _ _ Vlat Vlong). tauto.
Qed.

Lemma parse_args_cases (argv : list string) (ns : Namespace) :
  argparse_parse_args argv = inl ns ->
  parse_args argv =
  match address ns, latitude ns, longitude ns with
  | Some _, Some _, _ | Some _, None, Some _ =>
    Raise (Exn ParsedArgumentError
             "Address and latitude/longitude cannot be provided together.")
  | None, Some _, None | None, None, Some _ =>
    Raise (Exn ParsedArgumentError
             "Both latitude and longitude must be provided together.")
  | None, None, None =>
    Raise (Exn ParsedArgumentError
             "Either '--latitude' and '--longitude' pair, or '--address' must be provided.")
  | Some _, None, None => Ok ns
  | None, Some lat, Some long =>
    if validate_latitude_longitude lat long then Ok ns
    else Raise (Exn ParsedArgumentError
                  "Invalid latitude and/or longitude values provided.")
  end.
Proof.
  intros Hargs. unfold parse_args. rewrite Hargs.
  destruct ns as [[a|] [lat|] [long|] v]; cbn; try reflexivity.
  destruct (validate_latitude_longitude lat long); reflexivity.
Qed.

(** C3. On the namespace [argparse] returns, [parse_args] fails with
    [ParsedArgumentError] (the InvalidArguments of the specification) when
    an address comes with a latitude or a longitude, when only one of
    latitude and longitude is set, and when nothing is set; it returns the
    namespace exactly when one valid mode is set: the address alone, or
    latitude and longitude alone and in range. *)
Theorem parse_args_spec (argv : list string) (ns : Namespace) :
  argparse_parse_args argv = inl ns ->
  binary64_namespace ns ->
  (is_some (address ns) = true ->
   is_some (latitude ns) = true \/ is_some (longitude ns) = true ->
   parse_args argv =
   Raise (Exn ParsedArgumentError
            "Address and latitude/longitude cannot be provided together."))
  /\ (is_some (latitude ns) <> is_some (longitude ns) ->
      exists msg, parse_args argv = Raise (Exn ParsedArgumentError msg))
  /\ (address ns = None -> latitude ns = None -> longitude ns = None ->
      parse_args argv =
      Raise (Exn ParsedArgumentError
               "Either '--latitude' and '--longitude' pair, or '--address' must be provided."))
  /\ (parse_args argv = Ok ns <-> one_valid_mode ns)
  /\ (~ one_valid_mode ns ->
      exists msg, parse_args argv = Raise (Exn ParsedArgumentError msg)).
Proof.
  intros Hargs [Vlat Vlong]. rewrite (parse_args_cases argv ns Hargs).
  unfold one_valid_mode, address_mode, coordinates_mode.
  destruct ns as [[a|] [lat|] [long|] v]; cbn [address latitude longitude is_some].
  - (* address, latitude and longitude *)
    repeat split; try (intros; discriminate); try (eexists; reflexivity).
    intros [(_ & H & _) | (H & _)]; discriminate H.
  - (* address and latitude *)
    repeat split; try (intros; discriminate); try (eexists; reflexivity).
    intros [(_ & H & _) | (H & _)]; discriminate H.
  - (* address and longitude *)
    repeat split; try (intros; discriminate); try (eexists; reflexivity).
    intros [(_ & _ & H) | (H & _)]; discriminate H.
  - (* address alone *)
    repeat split; try (intros; discriminate); try (intros _ [H | H]; discriminate H);
      try congruence.
    + intros _. left. repeat split. exists a. reflexivity.
    + intros H. exfalso. apply H. left. repeat split. exists a. reflexivity.
  - (* latitude and longitude *)
    pose proof (validate_latitude_longitude_true lat long (Vlat _ eq_refl) (Vlong _ eq_refl))
      as Hv.
    assert (Hmode : validate_latitude_longitude lat long = true <->
                    ((exists a, @None string = Some a) /\ Some lat = None /\ Some long = None)
                    \/ (@None string = None /\
                        exists lat0 long0, Some lat = Some lat0 /\ Some long = Some long0
                          /\ PyFloat.between (-90) 90 lat0 /\ PyFloat.between (-180) 180 long0)).
    { rewrite Hv. split.
      - intros [B1 B2]. right. split; [reflexivity|]. exists lat, long. auto.
      - intros [(_ & H & _) | (_ & lat0 & long0 & E1 & E2 & B1 & B2)]; [discriminate H|].
        injection E1 as <-. injection E2 as <-. auto. }
    repeat split; try (intros; discriminate); try congruence.
    + intros H. apply Hmode. destruct (validate_latitude_longitude lat long);
        [reflexivity | discriminate H].
    + intros H. apply Hmode in H. rewrite H. reflexivity.
    + intros H. destruct (validate_latitude_longitude lat long).
      * exfalso. apply H, Hmode. reflexivity.
      * eexists. reflexivity.
  - (* latitude alone *)
    repeat split; try (intros; discriminate); try (eexists; reflexivity).
    intros [(_ & H & _) | (_ & ? & ? & _ & H & _)]; discriminate H.
  - (* longitude alone *)
    repeat split; try (intros; discriminate); try (eexists; reflexivity).
    intros [(_ & _ & H) | (_ & ? & ? & H & _)]; discriminate H.
  - (* nothing *)
    repeat split; try (intros; discriminate); try (eexists; reflexivity).
    intros [([? H] & _) | (_ & ? & ? & H & _)]; discriminate H.
Qed.

Lemma build_url_in_range (latitude longitude : pyval) (lat long : spec_float) (v : bool) :
  Py.float latitude = Ok lat -> Py.float longitude = Ok long ->
  validate_latitude_longitude lat long = true ->
  build_url latitude longitude v =
  Ok (forecast_url (float_repr lat) (float_repr long)).
Proof.
  intros Hlat Hlong Hv. unfold build_url. rewrite Hlat, Hlong, Hv. reflexivity.
Qed.


(** C10. A namespace with no address, a latitude of zero (of either sign)
    and a longitude in range passes [parse_args], and [get_weather_url]
    then raises [ParsedArgumentError] without building any URL and without
    touching the state: its tests are tests of truth, and zero is false. A
    namespace whose address is the empty string passes [parse_args] and
    falls through both tests the same way. *)
Theorem get_weather_url_zero_latitude (argv : list string) (s : state) :
  (forall sign long v,
      let ns := {| address := None; latitude := Some (S754_zero sign);
                   longitude := Some long; verbose := v |} in
      argparse_parse_args argv = inl ns ->
      PyFloat.is_binary64 long -> PyFloat.between (-180) 180 long ->
      parse_args argv = Ok ns
      /\ get_weather_url ns s =
         (Raise (Exn ParsedArgumentError
                   "Failed to build URL: No valid address / coordinates provided."), s))
  /\ (forall v,
         let ns := {| address := Some ""; latitude := None;
                      longitude := None; verbose := v |} in
         argparse_parse_args argv = inl ns ->
         parse_args argv = Ok ns
         /\ get_weather_url ns s =
            (Raise (Exn ParsedArgumentError
                      "Failed to build URL: No valid address / coordinates provided."), s)).
Proof.
  split.
  - intros sign long v ns Hargs Vlong Blong. split; [|reflexivity].
    rewrite (parse_args_cases argv ns Hargs). cbn [address latitude longitude ns].
    rewrite (validate_in_range (S754_zero sign) long); try assumption; try reflexivity.
    split; vm_compute; discriminate.
  - intros v ns Hargs. split; [|reflexivity].
    rewrite (parse_args_cases argv ns Hargs). reflexivity.
Qed.

End Arguments.

(** ** Address sanitizer *)

Section Sanitizer.
Context {env : PythonEnv}.

(** Logging returns normally, whatever the configuration of the logger. *)
Lemma log_returns (l : log_level) (msg : string) (s : state) :
  fst (logging.log l msg s) = Ok tt.
Proof.
  unfold logging.log, logging.basicConfig, bind.
  destruct (root_logger s) as [[threshold h]|] eqn:E; cbn; rewrite ?E.
  - destruct (levelno threshold <=? levelno l); reflexivity.
  - destruct (30 <=? levelno l); reflexivity.
Qed.

Lemma log_run (l : log_level) (msg : string) (s : state) :
  logging.log l msg s = (Ok tt, snd (logging.log l msg s)).
Proof.
  pose proof (log_returns l msg s) as H.
  destruct (logging.log l msg s) as [r s']. cbn in H. subst r. reflexivity.
Qed.

Lemma when_log_returns (b : bool) (l : log_level) (msg : string) (s : state) :
  fst (when b (logging.log l msg) s) = Ok tt.
Proof. destruct b; [apply log_returns | reflexivity]. Qed.

Lemma join_three (sep a b c : string) :
  PyStr.join sep [a; b; c] = a ++ sep ++ b ++ sep ++ c.
Proof. reflexivity. Qed.

Lemma sanitize_address_missing (address : string) (v : bool) (s : state) :
  PyStr.whitespace_only address ->
  sanitize_address address v s =
  (Raise (Exn ValueError ("Missing address. Input provided: " ++ address)), s).
Proof.
  intros Hws. unfold sanitize_address.
  apply PyStrFacts.missing_address_test in Hws. rewrite Hws. reflexivity.
Qed.

Lemma sanitize_address_present (address : string) (v : bool) :
  ~ PyStr.whitespace_only address ->
  sanitize_address address v =
  match usaddress_parse address with
  | RepeatedLabelError original_string parsed_string =>
    raise (Exn ParseAddressError
             ("Error parsing address: " ++ parsed_string ++ ", " ++ original_string))
  | ReturnsNone =>
    raise (Exn AddressMissingError
             ("Missing address from 'usaddress'. Input provided: " ++ address))
  | Components parsed_components =>
    let sanitized := PyStr.join " " (List.map fst parsed_components) in
    (when v (logging.info ("Sanitized address: " ++ sanitized ++ PyStr.newline)) ;;
     ret sanitized)%py
  end.
Proof.
  intros Hws. unfold sanitize_address.
  destruct (negb (PyStr.truthy address) || negb (PyStr.truthy (PyStr.strip address)))
    eqn:E; [|reflexivity].
  apply PyStrFacts.missing_address_test in E. contradiction.
Qed.

(** C7. [sanitize_address] fails on an address that is empty or holds white
    space only, with [ValueError] (the address error of the specification for
    this case) and without touching the state. On any other address for which
    the parser returns labelled components, it returns the components in the
    order of the parser, joined by single spaces, without their labels; all
    it does besides is to log the result when verbose. *)
Theorem sanitize_address_spec (address : string) (v : bool) (s : state) :
  (PyStr.whitespace_only address ->
   sanitize_address address v s =
   (Raise (Exn ValueError ("Missing address. Input provided: " ++ address)), s))
  /\ (forall parsed_components,
         ~ PyStr.whitespace_only address ->
         usaddress_parse address = Components parsed_components ->
         let sanitized := PyStr.join " " (List.map fst parsed_components) in
         sanitize_address address v s =
         (Ok sanitized,
          snd (when v (logging.info ("Sanitized address: " ++ sanitized ++ PyStr.newline)) s))).
Proof.
  split; [apply sanitize_address_missing|].
  intros comps Hws Hparse sanitized.
  rewrite (sanitize_address_present address v Hws), Hparse. fold sanitized.
  unfold bind, ret.
  pose proof (when_log_returns v INFO ("Sanitized address: " ++ sanitized ++ PyStr.newline) s)
    as Hlog.
  unfold logging.info.
  destruct (when v (logging.log INFO ("Sanitized address: " ++ sanitized ++ PyStr.newline)) s)
    as [r s'].
  cbn in Hlog. subst r. reflexivity.
Qed.

(** When the parser reports a repeated label, [sanitize_address] fails with
    [ParseAddressError]; its message carries the partly parsed string and the
    original one. *)
Lemma sanitize_address_repeated_label
      (address original_string parsed_string : string) (v : bool) (s : state) :
  ~ PyStr.whitespace_only address ->
  usaddress_parse address = RepeatedLabelError original_string parsed_string ->
  sanitize_address address v s =
  (Raise (Exn ParseAddressError
            ("Error parsing address: " ++ parsed_string ++ ", " ++ original_string)), s).
Proof.
  intros Hws Hparse. rewrite (sanitize_address_present address v Hws), Hparse. reflexivity.
Qed.

(** When the parser returns [None], [sanitize_address] fails with
    [AddressMissingError]. *)
Lemma sanitize_address_none (address : string) (v : bool) (s : state) :
  ~ PyStr.whitespace_only address ->
  usaddress_parse address = ReturnsNone ->
  sanitize_address address v s =
  (Raise (Exn AddressMissingError
            ("Missing address from 'usaddress'. Input provided: " ++ address)), s).
Proof.
  intros Hws Hparse. rewrite (sanitize_address_present address v Hws), Hparse. reflexivity.
Qed.

(** When the parser returns an empty list, [sanitize_address] returns the
    empty string: the test of line 152 is [is not None]. *)
Lemma sanitize_address_empty_list (address : string) (s : state) :
  ~ PyStr.whitespace_only address ->
  usaddress_parse address = Components [] ->
  sanitize_address address false s = (Ok "", s).
Proof.
  intros Hws Hparse. rewrite (sanitize_address_present address false Hws), Hparse. reflexivity.
Qed.

End Sanitizer.

(** ** Forecast payload *)

Section Forecast.
Context {env : PythonEnv}.

Lemma all_in_dict (items : list (string * pyval)) :
  all_in ["latitude"; "longitude"; "current"] (PyDict items) =
  Ok (is_some (Py.lookup items "latitude")
      && is_some (Py.lookup items "longitude")
      && is_some (Py.lookup items "current")).
Proof.
  cbn. destruct (Py.lookup items "latitude"), (Py.lookup items "longitude"),
         (Py.lookup items "current"); reflexivity.
Qed.


Lemma from_dict_present (items : list (string * pyval))
      (lat long current : pyval) (x y : spec_float) :
  Py.lookup items "latitude" = Some lat ->
  Py.lookup items "longitude" = Some long ->
  Py.lookup items "current" = Some current ->
  Py.float lat = Ok x -> Py.float long = Ok y ->
  from_dict (PyDict items) =
  Ok {| wd_latitude := x; wd_longitude := y; wd_current := current |}.
Proof.
  intros Hlat Hlong Hcur Hx Hy. unfold from_dict. rewrite all_in_dict.
  rewrite Hlat, Hlong, Hcur. cbn. rewrite Hlat, Hlong, Hcur. cbn.
  rewrite Hx. cbn. rewrite Hy. reflexivity.
Qed.



(** A failure of the payload that is a [ValueError] is logged by
    [display_weather_data] and goes no further: the function returns. *)
Lemma display_weather_data_swallows (response : string) (s : state) (msg : string) :
  (parse_json_response response = Raise (Exn ValueError msg)
   \/ exists data, parse_json_response response = Ok data
                   /\ from_dict data = Raise (Exn ValueError msg)) ->
  display_weather_data response s =
  (Ok tt, snd (logging.error ("Failed to parse weather data: " ++ msg) s)).
Proof.
  intros H. unfold display_weather_data, try_except, bind, lift, logging.error.
  destruct H as [H | (data & H & Hd)]; rewrite H; [|rewrite Hd];
    exact (log_run ERROR ("Failed to parse weather data: " ++ msg) s).
Qed.

End Forecast.

(** ** Effects: the pool, the requests and the log *)

Section Effects.
Context {env : PythonEnv}.

Lemma count_emit (p : event -> bool) (ev : event) (s : state) :
  count p (trace (emit ev s)) = (count p (trace s) + (if p ev then 1 else 0))%nat.
Proof.
  unfold count, emit. cbn [trace]. rewrite List.filter_app, List.length_app. cbn.
  destruct (p ev); reflexivity.
Qed.

Lemma in_emit (ev ev' : event) (s : state) :
  In ev' (trace (emit ev s)) <-> In ev' (trace s) \/ ev' = ev.
Proof.
  unfold emit. cbn [trace]. rewrite List.in_app_iff. cbn. intuition congruence.
Qed.

Lemma no_pool_event_count (t : list event) :
  (forall ev, In ev t -> pool_of ev = None) -> count is_pool_created t = 0%nat.
Proof.
  unfold count. induction t as [|ev t IH]; intros H; [reflexivity|].
  cbn. specialize (IH (fun ev' Hin => H ev' (or_intror Hin))).
  pose proof (H ev (or_introl eq_refl)) as Hev.
  destruct ev; cbn in *; try discriminate; exact IH.
Qed.

Lemma fetches_refl (s : state) : fetches 0 s s.
Proof. unfold fetches. repeat split; auto. Qed.

Lemma fetches_trans (a b : nat) (s s1 s2 : state) :
  fetches a s s1 -> fetches b s1 s2 -> fetches (a + b) s s2.
Proof.
  intros (P1 & C1 & G1 & I1) (P2 & C2 & G2 & I2).
  repeat split; [tauto | lia | lia | auto].
Qed.

(** An event that is about no pool leaves everything in place. *)
Lemma fetches_emit_other (ev : event) (s : state) :
  pool_of ev = None -> fetches 0 s (emit ev s).
Proof.
  intros Hev. unfold fetches. rewrite !count_emit. repeat split.
  - unfold pools_ok. cbn [instance emit]. destruct (instance s) as [api|].
    + intros (Hz & Hc & Hall). split; [exact Hz|]. split.
      * rewrite count_emit, Hc. destruct ev; cbn in *; try discriminate; reflexivity.
      * intros ev' p Hin Hp. apply in_emit in Hin as [Hin | ->]; [eauto | congruence].
    + intros Hall ev' Hin. apply in_emit in Hin as [Hin | ->]; auto.
  - destruct ev; cbn in *; try discriminate; lia.
  - destruct ev; cbn in *; try discriminate; lia.
  - auto.
Qed.

Lemma fetches_set_logger (cfg : option (log_level * log_handlers)) (s : state) :
  fetches 0 s {| instance := instance s; root_logger := cfg; trace := trace s |}.
Proof. unfold fetches, pools_ok. cbn. repeat split; auto. Qed.

Lemma performs_ret {A} (a : A) : performs 0 0 (ret a).
Proof. intros s. exists 0%nat. split; [lia | apply fetches_refl]. Qed.

Lemma performs_raise {A} (e : exn) : performs 0 0 (@raise A e).
Proof. intros s. exists 0%nat. split; [lia | apply fetches_refl]. Qed.

Lemma performs_lift {A} (r : result A) : performs 0 0 (lift r).
Proof. intros s. exists 0%nat. split; [lia | apply fetches_refl]. Qed.

Lemma performs_weaken {A} (lo hi lo' hi' : nat) (m : M A) :
  performs lo hi m -> (lo' <= lo)%nat -> (hi <= hi')%nat -> performs lo' hi' m.
Proof.
  intros H Hlo Hhi s. destruct (H s) as (j & Hj & Hf). exists j. split; [lia | exact Hf].
Qed.

Lemma performs_bind {A B} (a b c d : nat) (m : M A) (f : A -> M B) :
  performs a b m -> (forall x, performs c d (f x)) -> performs a (b + d) (bind m f).
Proof.
  intros Hm Hf s. unfold bind. destruct (Hm s) as (j1 & Hj1 & F1).
  destruct (m s) as [[x | e] s1]; cbn [snd] in *.
  - destruct (Hf x s1) as (j2 & Hj2 & F2). exists (j1 + j2)%nat.
    split; [lia | exact (fetches_trans _ _ _ _ _ F1 F2)].
  - exists j1. split; [lia | exact F1].
Qed.

Lemma performs_try_except {A} (a b c d : nat) (body : M A)
      (classes : list exn_class) (handler : exn -> M A) :
  performs a b body -> (forall e, performs c d (handler e)) ->
  performs a (b + d) (try_except body classes handler).
Proof.
  intros Hm Hh s. unfold try_except. destruct (Hm s) as (j1 & Hj1 & F1).
  destruct (body s) as [[x | e] s1]; cbn [snd] in *.
  - exists j1. split; [lia | exact F1].
  - destruct (isinstance e classes).
    + destruct (Hh e s1) as (j2 & Hj2 & F2). exists (j1 + j2)%nat.
      split; [lia | exact (fetches_trans _ _ _ _ _ F1 F2)].
    + exists j1. split; [lia | exact F1].
Qed.

Lemma performs_basicConfig (l : log_level) (h : log_handlers) :
  performs 0 0 (logging.basicConfig l h).
Proof.
  intros s. exists 0%nat. split; [lia|]. unfold logging.basicConfig.
  destruct (root_logger s); [apply fetches_refl | apply fetches_set_logger].
Qed.

Lemma performs_log (l : log_level) (msg : string) : performs 0 0 (logging.log l msg).
Proof.
  unfold logging.log. apply (performs_bind 0 0 0 0); [apply performs_basicConfig|].
  intros _ s. exists 0%nat. split; [lia|].
  destruct (root_logger s) as [[threshold h]|]; [|apply fetches_refl].
  destruct (levelno threshold <=? levelno l); [|apply fetches_refl].
  apply fetches_emit_other. reflexivity.
Qed.

Lemma performs_when_log (b : bool) (l : log_level) (msg : string) :
  performs 0 0 (when b (logging.log l msg)).
Proof. destruct b; [apply performs_log | apply performs_ret]. Qed.

Lemma performs_print (text : string) : performs 0 0 (print text).
Proof.
  intros s. exists 0%nat. split; [lia|]. apply fetches_emit_other. reflexivity.
Qed.

(** [get_instance] returns the singleton, which it creates when there is
    none; it sends and clears nothing. *)
Lemma get_instance_spec (s : state) :
  exists api s1,
    get_instance s = (Ok api, s1)
    /\ instance s1 = Some api
    /\ fetches 0 s s1
    /\ (instance s = Some api -> s1 = s)
    /\ (instance s = None ->
        count is_pool_created (trace s1) = S (count is_pool_created (trace s))).
Proof.
  unfold get_instance, WeatherAPI_new, create_http_client.
  destruct (instance s) as [api|] eqn:E.
  - exists api, s. repeat split; auto using fetches_refl. discriminate.
  - eexists _, _. split; [reflexivity|]. cbn [instance trace root_logger emit].
    split; [reflexivity|]. split; [|split; [discriminate|]].
    + unfold fetches, pools_ok. cbn [instance trace]. rewrite E.
      split; [|split; [|split]].
      * intros Hall. pose proof (no_pool_event_count _ Hall) as Hc. rewrite Hc.
        repeat split.
        -- unfold count. rewrite List.filter_app, List.length_app. cbn.
           unfold count in Hc. rewrite Hc. reflexivity.
        -- intros ev p Hin Hp. apply List.in_app_iff in Hin as [Hin | [<- | []]].
           ++ rewrite (Hall ev Hin) in Hp. discriminate.
           ++ cbn in Hp. congruence.
      * unfold count. rewrite List.filter_app, List.length_app. cbn. lia.
      * unfold count. rewrite List.filter_app, List.length_app. cbn. lia.
      * discriminate.
    + intros _. unfold count. rewrite List.filter_app, List.length_app. cbn. lia.
Qed.

(** An event about the singleton keeps the pools in order. *)
Lemma pools_ok_emit (ev : event) (api : nat) (s : state) :
  instance s = Some api -> pool_of ev = Some api -> is_pool_created ev = false ->
  pools_ok s -> pools_ok (emit ev s).
Proof.
  unfold pools_ok. cbn [instance emit]. intros E Hev Hnc. rewrite E.
  intros (Hz & Hc & Hall). split; [exact Hz|]. split.
  - rewrite count_emit, Hc, Hnc. lia.
  - intros ev' p Hin Hp. apply in_emit in Hin as [Hin | ->]; [eauto | congruence].
Qed.

(** Sending a request on the singleton and clearing its pool. *)
Lemma fetches_get_then_clear (api : nat) (url : string) (s : state) :
  instance s = Some api ->
  fetches 1 s (emit (PoolCleared api) (emit (HttpGet api url) s)).
Proof.
  intros E. unfold fetches. rewrite !count_emit. cbn [is_pool_cleared is_http_get].
  repeat split; try lia.
  - intros H. apply (pools_ok_emit _ api); try reflexivity; [exact E|].
    apply (pools_ok_emit _ api); try reflexivity; [exact E | exact H].
  - cbn [instance emit]. auto.
Qed.

(** One scoped use of the client to fetch a URL: one request, and one
    clearing of the pool however the request ends. *)
Lemma performs_with_fetch (url : string) (v : bool) :
  performs 1 1 (with_weather_api (fun weather_api => fetch_url weather_api url v)).
Proof.
  intros s. exists 1%nat. split; [lia|].
  unfold with_weather_api, bind at 1.
  destruct (get_instance_spec s) as (api & s1 & Hget & Hinst & F1 & _ & _).
  rewrite Hget. unfold try_finally, fetch_url, bind, logging.info.
  destruct (performs_when_log v INFO ("Fetching data from: " ++ url ++ " " ++ PyStr.newline) s1)
    as (j & Hj & F2).
  assert (j = 0%nat) by lia. subst j.
  pose proof (when_log_returns v INFO ("Fetching data from: " ++ url ++ " " ++ PyStr.newline) s1)
    as Hret.
  destruct (when v (logging.log INFO ("Fetching data from: " ++ url ++ " " ++ PyStr.newline)) s1)
    as [r s2]. cbn [fst snd] in *. subst r.
  assert (Hinst2 : instance s2 = Some api) by (apply F2; exact Hinst).
  pose proof (fetches_trans _ _ _ _ _ (fetches_trans _ _ _ _ _ F1 F2)
                (fetches_get_then_clear api url s2 Hinst2)) as F.
  destruct (http_request (count is_http_get (trace s2)) url) as [status data | | description];
    [destruct (negb (status =? 200))| |]; exact F.
Qed.

Lemma performs_sanitize_address (address : string) (v : bool) :
  performs 0 0 (sanitize_address address v).
Proof.
  unfold sanitize_address.
  destruct (negb (PyStr.truthy address) || negb (PyStr.truthy (PyStr.strip address)));
    [apply performs_raise|].
  destruct (usaddress_parse address); try apply performs_raise.
  apply (performs_bind 0 0 0 0); [apply performs_when_log|].
  intros _. apply performs_ret.
Qed.

Lemma performs_get_coords_from_address (address : string) (v : bool) :
  performs 1 1 (get_coords_from_address address v).
Proof.
  unfold get_coords_from_address.
  apply (performs_try_except 1 1 0 0); [|intros e; apply performs_raise].
  apply (performs_bind 1 1 0 0); [apply performs_with_fetch|].
  intros response.
  apply (performs_bind 0 0 0 0); [apply performs_lift|].
  intros coords. destruct (negb (Py.truthy coords)); [apply performs_raise|].
  apply (performs_bind 0 0 0 0); [|intros _; apply performs_ret].
  destruct v; [|apply performs_ret]. cbn [when].
  repeat (apply (performs_bind 0 0 0 0); [apply performs_lift|]; intro).
  apply performs_log.
Qed.

Lemma performs_get_weather_url (parsed_args : Namespace) :
  performs 0 1 (get_weather_url parsed_args).
Proof.
  unfold get_weather_url.
  assert (Hc : forall m : M string,
             m = (if match latitude parsed_args with
                     | Some x => PyFloat.truthy x
                     | None => false
                     end
                  then lift (build_url (of_option_float (latitude parsed_args))
                                       (of_option_float (longitude parsed_args))
                                       (verbose parsed_args))
                  else raise (Exn ParsedArgumentError
                                "Failed to build URL: No valid address / coordinates provided."))
             -> performs 0 1 m).
  { intros m ->. apply (performs_weaken 0 0); try lia.
    destruct (match latitude parsed_args with Some x => PyFloat.truthy x | None => false end);
      [apply performs_lift | apply performs_raise]. }
  destruct (address parsed_args) as [raw|]; [|apply Hc; reflexivity].
  destruct (PyStr.truthy raw); [|apply Hc; reflexivity].
  apply (performs_bind 0 0 1 1); [apply performs_sanitize_address|].
  intros a. apply (performs_bind 1 1 0 0); [apply performs_get_coords_from_address|].
  intros coords.
  repeat (apply (performs_bind 0 0 0 0); [apply performs_lift|]; intro).
  apply performs_lift.
Qed.

Lemma performs_display_weather_data (response : string) :
  performs 0 0 (display_weather_data response).
Proof.
  unfold display_weather_data.
  apply (performs_try_except 0 0 0 0); [|intros e; apply performs_log].
  repeat (apply (performs_bind 0 0 0 0); [apply performs_lift|]; intro).
  apply performs_print.
Qed.

Lemma performs_main (argv : list string) : performs 0 2 (main argv).
Proof.
  unfold main, main_try.
  apply (performs_try_except 0 2 0 0).
  - apply (performs_bind 0 0 0 2); [apply performs_lift|]. intros parsed_args.
    apply (performs_bind 0 0 0 2); [apply performs_basicConfig|]. intros _.
    apply (performs_bind 0 1 1 1); [apply performs_get_weather_url|]. intros url.
    apply (performs_bind 1 1 0 0); [apply performs_with_fetch|]. intros response.
    apply performs_display_weather_data.
  - intros e. apply (performs_bind 0 0 0 0); [apply performs_log|].
    intros _. apply performs_raise.
Qed.

Lemma pools_ok_initial : pools_ok initial_state.
Proof. intros ev []. Qed.

Lemma pools_ok_created (s : state) :
  pools_ok s -> (count is_pool_created (trace s) <= 1)%nat.
Proof.
  unfold pools_ok. destruct (instance s).
  - intros (_ & -> & _). lia.
  - intros H. rewrite (no_pool_event_count _ H). lia.
Qed.

Lemma snd_run (argv : list string) : snd (run argv) = snd (main argv initial_state).
Proof. unfold run. destruct (main argv initial_state). reflexivity. Qed.

Lemma with_fetch_clears_last (url : string) (v : bool) (s : state) :
  exists t api,
    trace (snd (with_weather_api (fun weather_api => fetch_url weather_api url v) s))
    = (t ++ [PoolCleared api])%list.
Proof.
  unfold with_weather_api, bind at 1.
  destruct (get_instance_spec s) as (api & s1 & Hget & _).
  rewrite Hget. unfold try_finally, WeatherAPI_exit.
  destruct (fetch_url api url v s1) as [r s2]. cbn. eauto.
Qed.

(** Only well-formed text decodes to a value. *)
Lemma json_loads_text (text : string) (v : pyval) :
  json_loads text = inr v -> PyBytes.is_utf8 text = true.
Proof.
  unfold json_loads. destruct (PyBytes.is_utf8 text); [reflexivity | discriminate].
Qed.

Lemma decode_text (data : string) :
  PyBytes.is_utf8 data = true -> Py.decode data = Ok data.
Proof. intros H. unfold Py.decode. rewrite H. reflexivity. Qed.

Lemma with_fetch_returns (url : string) (v : bool) (s : state) (body : string) :
  http_request (count is_http_get (trace s)) url = Response 200 body ->
  fst (with_weather_api (fun weather_api => fetch_url weather_api url v) s) = Py.decode body.
Proof.
  intros Hreq. unfold with_weather_api, bind at 1.
  destruct (get_instance_spec s) as (api & s1 & Hget & Hinst & F1 & _ & _).
  rewrite Hget. unfold try_finally, fetch_url, bind, logging.info.
  destruct (performs_when_log v INFO ("Fetching data from: " ++ url ++ " " ++ PyStr.newline) s1)
    as (j & Hj & F2).
  assert (j = 0%nat) by lia. subst j.
  pose proof (when_log_returns v INFO ("Fetching data from: " ++ url ++ " " ++ PyStr.newline) s1)
    as Hret.
  destruct (when v (logging.log INFO ("Fetching data from: " ++ url ++ " " ++ PyStr.newline)) s1)
    as [r s2]. cbn [fst snd] in *. subst r.
  destruct F1 as (_ & _ & G1 & _), F2 as (_ & _ & G2 & _).
  replace (count is_http_get (trace s2)) with (count is_http_get (trace s)) by lia.
  rewrite Hreq. reflexivity.
Qed.

(** C9, as amended. Acquiring the client again returns the same instance and
    creates at most one pool. A scoped use of the client clears the pool once
    when the scope ends, however the request ended, as its last action. Over a
    whole run, whatever the arguments and the answers of the services, at most
    one pool is created, every request and every clearing is on that pool, and
    the pool is cleared once per request: not at all when the run stops before
    any request, once in latitude and longitude mode, and up to twice in
    address mode, after the geocoding request and after the forecast
    request. *)
Theorem singleton_and_release (argv : list string) (url : string) (v : bool) (s : state) :
  (forall api s1,
      get_instance s = (Ok api, s1) ->
      get_instance s1 = (Ok api, s1)
      /\ (count is_pool_created (trace s1) <= count is_pool_created (trace s) + 1)%nat)
  /\ (let s' := snd (with_weather_api (fun weather_api => fetch_url weather_api url v) s) in
      count is_pool_cleared (trace s') = (count is_pool_cleared (trace s) + 1)%nat
      /\ exists t api, trace s' = (t ++ [PoolCleared api])%list)
  /\ (let final := snd (run argv) in
      pools_ok final
      /\ (count is_pool_created (trace final) <= 1)%nat
      /\ count is_pool_cleared (trace final) = count is_http_get (trace final)
      /\ (count is_http_get (trace final) <= 2)%nat).
Proof.
  split; [|split].
  - intros api s1 Hget.
    destruct (get_instance_spec s) as (api' & s1' & Hget' & Hinst & _ & Hsame & Hnew).
    rewrite Hget in Hget'. injection Hget' as <- <-. split.
    + unfold get_instance. rewrite Hinst. reflexivity.
    + destruct (instance s) as [a|] eqn:E.
      * unfold get_instance in Hget. rewrite E in Hget. injection Hget as <- <-. lia.
      * rewrite (Hnew eq_refl). lia.
  - cbn zeta. split; [|apply with_fetch_clears_last].
    destruct (performs_with_fetch url v s) as (j & Hj & _ & Hc & _).
    assert (j = 1%nat) by lia. subst j. exact Hc.
  - cbn zeta. rewrite snd_run.
    destruct (performs_main argv initial_state) as (j & Hj & Hp & Hc & Hg & _).
    pose proof (Hp pools_ok_initial) as Hok.
    split; [exact Hok|]. split; [apply pools_ok_created; exact Hok|].
    cbn in Hc, Hg. lia.
Qed.

(** ** Geocoder *)

Lemma get_coords_from_address_bad_json (address : string) (v : bool) (s : state)
      (body msg : string) :
  http_request (count is_http_get (trace s))
               (APIConfig.GEOCODE_BASE_URL ++ "?q=" ++ address ++ "&api_key=" ++ MAPS_API_KEY)
  = Response 200 body ->
  PyBytes.is_utf8 body = true ->
  json_loads body = inl (JSONDecodeError msg) ->
  fst (get_coords_from_address address v s) =
  Raise (Exn ValueError ("Malformed JSON response: " ++ msg)).
Proof.
  intros Hreq Htext Hjson. pose proof (with_fetch_returns _ v s body Hreq) as Hfetch.
  rewrite (decode_text body Htext) in Hfetch.
  unfold get_coords_from_address, try_except, bind at 1.
  destruct (with_weather_api _ s) as [r s1]. cbn [fst] in Hfetch. subst r.
  unfold bind, lift, parse_json_response. rewrite Hjson. reflexivity.
Qed.

Lemma get_coords_from_address_decoded (address : string) (v : bool) (s : state)
      (body : string) (coords : pyval) :
  http_request (count is_http_get (trace s))
               (APIConfig.GEOCODE_BASE_URL ++ "?q=" ++ address ++ "&api_key=" ++ MAPS_API_KEY)
  = Response 200 body ->
  json_loads body = inr coords ->
  exists s1,
    get_coords_from_address address v s =
    try_except
      (if negb (Py.truthy coords)
       then
         raise (Exn GetCoordsFromAddressError
                  ("No coordinates found for address: " ++ address
                     ++ ". Verify that the address is valid."))
       else
         when v
              (first <- lift (Py.getitem0 coords) ;;
               display_name <- lift (Py.getitem first "display_name") ;;
               first <- lift (Py.getitem0 coords) ;;
               lat <- lift (Py.getitem first "lat") ;;
               first <- lift (Py.getitem0 coords) ;;
               lon <- lift (Py.getitem first "lon") ;;
               let location_data :=
                 PyDict [("display_name", display_name); ("lat", lat); ("long", lon)] in
               logging.info ("Location data:" ++ PyStr.newline ++ json_dumps location_data
                               ++ PyStr.newline)) ;;
         ret coords)
      [FetchUrlDataError]
      (fun e =>
         raise (Exn GetCoordsFromAddressError
                  ("Error getting coordinates from address: " ++ exn_str e))) s1.
Proof.
  intros Hreq Hjson. pose proof (with_fetch_returns _ v s body Hreq) as Hfetch.
  rewrite (decode_text body (json_loads_text body coords Hjson)) in Hfetch.
  unfold get_coords_from_address, try_except, bind at 1.
  destruct (with_weather_api _ s) as [r s1]. cbn [fst] in Hfetch. subst r.
  exists s1. unfold bind at 1, lift at 1, parse_json_response. rewrite Hjson. reflexivity.
Qed.

(** C6, as amended. When the geocoding request is answered with status 200:
    if the body is UTF-8 text that [json.loads] rejects with a
    [JSONDecodeError], [get_coords_from_address] fails with the error of the
    geocoder for a decode failure, which in the code is
    [ValueError("Malformed JSON response: ...")] and carries the text of the
    decoding error; if the body decodes to an empty list, it fails with
    [GetCoordsFromAddressError("No coordinates found ...")]; if it decodes to
    a list that is not empty, it returns the whole list, provided that it is
    not verbose or that the first candidate is an object with
    [display_name], [lat] and [lon]. *)
Theorem get_coords_from_address_spec (address : string) (v : bool) (s : state)
        (body : string) :
  http_request (count is_http_get (trace s))
               (APIConfig.GEOCODE_BASE_URL ++ "?q=" ++ address ++ "&api_key=" ++ MAPS_API_KEY)
  = Response 200 body ->
  (forall msg,
      PyBytes.is_utf8 body = true ->
      json_loads body = inl (JSONDecodeError msg) ->
      fst (get_coords_from_address address v s) =
      Raise (Exn ValueError ("Malformed JSON response: " ++ msg)))
  /\ (json_loads body = inr (PyList []) ->
      fst (get_coords_from_address address v s) =
      Raise (Exn GetCoordsFromAddressError
               ("No coordinates found for address: " ++ address
                  ++ ". Verify that the address is valid.")))
  /\ (forall first rest,
         json_loads body = inr (PyList (first :: rest)) ->
         v = false
         \/ (exists items display_name lat lon,
                first = PyDict items
                /\ Py.lookup items "display_name" = Some display_name
                /\ Py.lookup items "lat" = Some lat
                /\ Py.lookup items "lon" = Some lon) ->
         fst (get_coords_from_address address v s) = Ok (PyList (first :: rest))).
Proof.
  intros Hreq. split; [|split].
  - intros msg Htext Hjson.
    apply (get_coords_from_address_bad_json _ _ _ _ _ Hreq Htext Hjson).
  - intros Hjson.
    destruct (get_coords_from_address_decoded _ v _ _ _ Hreq Hjson) as (s1 & ->).
    reflexivity.
  - intros first rest Hjson Hgood.
    destruct (get_coords_from_address_decoded _ v _ _ _ Hreq Hjson) as (s1 & ->).
    destruct Hgood as [-> | (items & dn & lat & lon & -> & Hdn & Hlat & Hlon)];
      [reflexivity|].
    destruct v; [|reflexivity].
    unfold try_except, bind, lift, when, Py.truthy, negb, Py.getitem0, Py.getitem.
    rewrite Hdn, Hlat, Hlon. unfold logging.info. rewrite log_run. reflexivity.
Qed.

End Effects.

(** ** The standard output *)

Section Output.
Context {env : PythonEnv}.

Lemma keeps_ret {A} (p : event -> bool) (a : A) : keeps p (ret a).
Proof. intros s. reflexivity. Qed.

Lemma keeps_raise {A} (p : event -> bool) (e : exn) : keeps p (@raise A e).
Proof. intros s. reflexivity. Qed.

Lemma keeps_lift {A} (p : event -> bool) (r : result A) : keeps p (lift r).
Proof. intros s. reflexivity. Qed.

Lemma keeps_bind {A B} (p : event -> bool) (m : M A) (f : A -> M B) :
  keeps p m -> (forall x, keeps p (f x)) -> keeps p (bind m f).
Proof.
  intros Hm Hf s. unfold bind. specialize (Hm s).
  destruct (m s) as [[x | e] s1]; cbn [snd] in *; [|exact Hm].
  rewrite (Hf x s1). exact Hm.
Qed.

Lemma keeps_try_except {A} (p : event -> bool) (body : M A)
      (classes : list exn_class) (handler : exn -> M A) :
  keeps p body -> (forall e, keeps p (handler e)) -> keeps p (try_except body classes handler).
Proof.
  intros Hm Hh s. unfold try_except. specialize (Hm s).
  destruct (body s) as [[x | e] s1]; cbn [snd] in *; [exact Hm|].
  destruct (isinstance e classes); [|exact Hm].
  rewrite (Hh e s1). exact Hm.
Qed.

Lemma keeps_try_finally {A} (p : event -> bool) (body : M A) (cleanup : M unit) :
  keeps p body -> keeps p cleanup -> keeps p (try_finally body cleanup).
Proof.
  intros Hm Hc s. unfold try_finally. specialize (Hm s).
  destruct (body s) as [r s1]. specialize (Hc s1).
  destruct (cleanup s1) as [[[] | e] s2]; cbn [snd] in *; congruence.
Qed.

Lemma keeps_printed_basicConfig (l : log_level) (h : log_handlers) :
  keeps is_printed (logging.basicConfig l h).
Proof. intros s. unfold logging.basicConfig. destruct (root_logger s); reflexivity. Qed.

Lemma keeps_printed_log (l : log_level) (msg : string) :
  keeps is_printed (logging.log l msg).
Proof.
  unfold logging.log. apply keeps_bind; [apply keeps_printed_basicConfig|].
  intros _ s. destruct (root_logger s) as [[threshold h]|]; [|reflexivity].
  destruct (levelno threshold <=? levelno l); [|reflexivity].
  cbn [snd]. rewrite count_emit. cbn. lia.
Qed.

Lemma keeps_printed_when_log (b : bool) (l : log_level) (msg : string) :
  keeps is_printed (when b (logging.log l msg)).
Proof. destruct b; [apply keeps_printed_log | apply keeps_ret]. Qed.

Lemma keeps_printed_get_instance : keeps is_printed get_instance.
Proof.
  intros s. unfold get_instance, WeatherAPI_new, create_http_client.
  destruct (instance s); [reflexivity|]. cbn [snd trace emit].
  unfold count. rewrite List.filter_app, List.length_app. cbn. lia.
Qed.

Lemma keeps_printed_with_fetch (url : string) (v : bool) :
  keeps is_printed (with_weather_api (fun weather_api => fetch_url weather_api url v)).
Proof.
  unfold with_weather_api. apply keeps_bind; [apply keeps_printed_get_instance|].
  intros api. apply keeps_try_finally.
  - unfold fetch_url. apply keeps_bind; [apply keeps_printed_when_log|].
    intros _ s.
    destruct (http_request (count is_http_get (trace s)) url) as [status data | | d];
      [destruct (negb (status =? 200))| |]; cbn [snd]; rewrite count_emit; cbn; lia.
  - intros s. unfold WeatherAPI_exit. cbn [snd]. rewrite count_emit. cbn. lia.
Qed.

Lemma keeps_printed_sanitize_address (address : string) (v : bool) :
  keeps is_printed (sanitize_address address v).
Proof.
  unfold sanitize_address.
  destruct (negb (PyStr.truthy address) || negb (PyStr.truthy (PyStr.strip address)));
    [apply keeps_raise|].
  destruct (usaddress_parse address); try apply keeps_raise.
  apply keeps_bind; [apply keeps_printed_when_log | intros _; apply keeps_ret].
Qed.

Lemma keeps_printed_get_coords_from_address (address : string) (v : bool) :
  keeps is_printed (get_coords_from_address address v).
Proof.
  unfold get_coords_from_address.
  apply keeps_try_except; [|intros e; apply keeps_raise].
  apply keeps_bind; [apply keeps_printed_with_fetch|]. intros response.
  apply keeps_bind; [apply keeps_lift|]. intros coords.
  destruct (negb (Py.truthy coords)); [apply keeps_raise|].
  apply keeps_bind; [|intros _; apply keeps_ret].
  destruct v; [|apply keeps_ret]. cbn [when].
  repeat (apply keeps_bind; [apply keeps_lift|]; intro).
  apply keeps_printed_log.
Qed.

Lemma keeps_printed_get_weather_url (parsed_args : Namespace) :
  keeps is_printed (get_weather_url parsed_args).
Proof.
  unfold get_weather_url.
  assert (Hc : keeps is_printed
                     (if match latitude parsed_args with
                         | Some x => PyFloat.truthy x
                         | None => false
                         end
                      then lift (build_url (of_option_float (latitude parsed_args))
                                           (of_option_float (longitude parsed_args))
                                           (verbose parsed_args))
                      else @raise string
                             (Exn ParsedArgumentError
                                "Failed to build URL: No valid address / coordinates provided."))).
  { destruct (match latitude parsed_args with Some x => PyFloat.truthy x | None => false end);
      [apply keeps_lift | apply keeps_raise]. }
  destruct (address parsed_args) as [raw|]; [|exact Hc].
  destruct (PyStr.truthy raw); [|exact Hc].
  apply keeps_bind; [apply keeps_printed_sanitize_address|]. intros a.
  apply keeps_bind; [apply keeps_printed_get_coords_from_address|]. intros coords.
  repeat (apply keeps_bind; [apply keeps_lift|]; intro).
  apply keeps_lift.
Qed.

Lemma fails_silently_keeps {A} (m : M A) : keeps is_printed m -> fails_silently m.
Proof. intros H s e s' Hm. specialize (H s). rewrite Hm in H. exact H. Qed.

Lemma fails_silently_bind {A B} (m : M A) (f : A -> M B) :
  keeps is_printed m -> (forall x, fails_silently (f x)) -> fails_silently (bind m f).
Proof.
  intros Hm Hf s e s'. unfold bind. specialize (Hm s).
  destruct (m s) as [[x | e1] s1]; cbn [snd] in Hm.
  - intros H. rewrite (Hf x s1 e s' H). exact Hm.
  - intros H. injection H as <- <-. exact Hm.
Qed.

(** [display_weather_data] prints as its last action: when it raises, it
    has printed nothing. *)
Lemma fails_silently_display_weather_data (response : string) :
  fails_silently (display_weather_data response).
Proof.
  intros s e s'. unfold display_weather_data, try_except, bind, lift, print.
  destruct (parse_json_response response) as [data | e1].
  - destruct (from_dict data) as [wd | e2].
    + destruct (Py.get (wd_current wd) "temperature_2m") as [t | e3].
      * destruct (Py.get (wd_current wd) "wind_speed_10m") as [w | e4].
        -- discriminate.
        -- destruct (isinstance e4 [ValueError]).
           ++ unfold logging.error. rewrite log_run. discriminate.
           ++ intros H. injection H as <- <-. reflexivity.
      * destruct (isinstance e3 [ValueError]).
        -- unfold logging.error. rewrite log_run. discriminate.
        -- intros H. injection H as <- <-. reflexivity.
    + destruct (isinstance e2 [ValueError]).
      * unfold logging.error. rewrite log_run. discriminate.
      * intros H. injection H as <- <-. reflexivity.
  - destruct (isinstance e1 [ValueError]).
    + unfold logging.error. rewrite log_run. discriminate.
    + intros H. injection H as <- <-. reflexivity.
Qed.

Lemma fails_silently_main_try (argv : list string) : fails_silently (main_try argv).
Proof.
  unfold main_try.
  apply fails_silently_bind; [apply keeps_lift|]. intros parsed_args.
  apply fails_silently_bind; [apply keeps_printed_basicConfig|]. intros _.
  apply fails_silently_bind; [apply keeps_printed_get_weather_url|]. intros url.
  apply fails_silently_bind; [apply keeps_printed_with_fetch|]. intros response.
  apply fails_silently_display_weather_data.
Qed.

(** What [main] does with an exception of its [try] block that it handles:
    it logs the message of the exception, as an ERROR line that closes the
    trace, and exits with code 1. *)
Lemma main_handles (argv : list string) (s s1 : state) (e : exn) :
  main_try argv s = (Raise e, s1) ->
  isinstance e [BuildUrlError; FetchUrlDataError; FetchWeatherDataError;
                GetCoordsFromAddressError; ParsedArgumentError;
                AddressMissingError; ParseAddressError; ValueError] = true ->
  exists s2 handlers,
    main argv s = (Raise (SystemExit 1), s2)
    /\ trace s2 = (trace s1 ++ [Logged handlers (logging.format handlers ERROR (exn_str e))])%list.
Proof.
  intros Htry Hin. unfold main, try_except. rewrite Htry, Hin.
  unfold bind, logging.error, logging.log, logging.basicConfig, bind, sys_exit, raise.
  destruct (root_logger s1) as [[threshold h]|] eqn:E; cbn [root_logger]; rewrite ?E.
  - replace (levelno threshold <=? levelno ERROR) with true
      by (destruct threshold; reflexivity).
    eexists _, h. split; reflexivity.
  - cbn [levelno]. eexists _, DefaultStderr. split; reflexivity.
Qed.

(** A run that does not exit with status 0 has printed nothing. *)
Lemma run_failure_prints_nothing (argv : list string) :
  fst (run argv) <> 0 -> count is_printed (trace (snd (run argv))) = 0%nat.
Proof.
  unfold run, main, try_except.
  pose proof (fails_silently_main_try argv initial_state) as Hsilent.
  destruct (main_try argv initial_state) as [[[] | e] s1].
  - cbn. intros H. contradiction H. reflexivity.
  - specialize (Hsilent e s1 eq_refl). intros _.
    destruct (isinstance e _).
    + assert (Hk : keeps is_printed (logging.error (exn_str e) ;; @sys_exit unit 1)).
      { apply keeps_bind; [apply keeps_printed_log | intros _; apply keeps_raise]. }
      specialize (Hk s1).
      destruct ((logging.error (exn_str e) ;; sys_exit 1) s1) as [r s2].
      cbn [snd] in *. rewrite Hk. exact Hsilent.
    + cbn [snd]. exact Hsilent.
Qed.

End Output.

(** ** The recorded session *)

Section Recorded.
#[local] Existing Instance Session.env.

(** C1, on the run that breaks it. The command line
    [--latitude 10 --longitude 20] is answered with a forecast that has no
    [current]: [display_weather_data] logs the error itself and returns, so
    [main] returns too and the exit status is 0. Every failure that reaches
    the [except] clause of [main] is logged and exits with 1
    ([main_handles]), and no failing run prints anything
    ([run_failure_prints_nothing]); this one never reaches the clause. *)
Theorem run_incomplete_forecast :
  json_loads Session.somewhere_body = inr Session.without_current
  /\ from_dict Session.without_current =
     Raise (Exn ValueError "Missing required fields in weather data")
  /\ run ["--latitude"; "10"; "--longitude"; "20"] =
     (0,
      {| instance := Some 0%nat;
         root_logger := Some (INFO, StdoutAndFile);
         trace :=
           [PoolCreated 0; HttpGet 0 Session.somewhere_url; PoolCleared 0;
            Logged StdoutAndFile
                   "ERROR: Failed to parse weather data: Missing required fields in weather data"]
      |}).
Proof. repeat split; vm_compute; reflexivity. Qed.

(** For comparison, a failure before the forecast is fetched: [main] logs it
    and exits with 1. *)
Lemma run_equator :
  run ["--latitude"; "0.0"; "--longitude"; "20"] =
  (1,
   {| instance := None;
      root_logger := Some (INFO, StdoutAndFile);
      trace :=
        [Logged StdoutAndFile
                "ERROR: Failed to build URL: No valid address / coordinates provided."]
   |}).
Proof. vm_compute. reflexivity. Qed.

Lemma run_seattle :
  run ["--latitude"; "47.6"; "--longitude"; "-122.3"] =
  (0,
   {| instance := Some 0%nat;
      root_logger := Some (INFO, StdoutAndFile);
      trace :=
        [PoolCreated 0; HttpGet 0 Session.seattle_url; PoolCleared 0;
         Printed (weather_lines "72.5" "5.3")]
   |}).
Proof. vm_compute. reflexivity. Qed.

Lemma parse_args_witness :
  argparse_parse_args ["--latitude"; "47.6"; "--longitude"; "-122.3"] = inl Session.seattle
  /\ binary64_namespace Session.seattle
  /\ parse_args ["--latitude"; "47.6"; "--longitude"; "-122.3"] = Ok Session.seattle
  /\ parse_args [] =
     Raise (Exn ParsedArgumentError
              "Either '--latitude' and '--longitude' pair, or '--address' must be provided.").
Proof.
  assert (Hnone : argparse_parse_args [] = inl Session.nothing) by reflexivity.
  assert (Hwfn : binary64_namespace Session.nothing) by (split; intros x Hx; discriminate Hx).
  pose proof (parse_args_spec [] Session.nothing Hnone Hwfn) as (_ & _ & Hnothing & _).
  specialize (Hnothing eq_refl eq_refl eq_refl).
  assert (Hwf : binary64_namespace Session.seattle).
  { split; intros x Hx; injection Hx as <-; reflexivity. }
  assert (Hargs : argparse_parse_args ["--latitude"; "47.6"; "--longitude"; "-122.3"]
                  = inl Session.seattle) by reflexivity.
  split; [exact Hargs|]. split; [exact Hwf|]. split; [|exact Hnothing].
  apply (parse_args_spec ["--latitude"; "47.6"; "--longitude"; "-122.3"]
                         Session.seattle Hargs Hwf).
  right. split; [reflexivity|]. exists Session.f47_6, Session.fm122_3.
  repeat split; try (vm_compute; discriminate).
Defined.


Lemma get_weather_url_zero_latitude_witness :
  argparse_parse_args ["--latitude"; "0.0"; "--longitude"; "20"] = inl Session.equator
  /\ PyFloat.is_binary64 Session.f20 /\ PyFloat.between (-180) 180 Session.f20
  /\ parse_args ["--latitude"; "0.0"; "--longitude"; "20"] = Ok Session.equator
  /\ get_weather_url Session.equator initial_state =
     (Raise (Exn ParsedArgumentError
               "Failed to build URL: No valid address / coordinates provided."),
      initial_state)
  /\ parse_args ["--address"; ""] = Ok Session.empty_address
  /\ get_weather_url Session.empty_address initial_state =
     (Raise (Exn ParsedArgumentError
               "Failed to build URL: No valid address / coordinates provided."),
      initial_state).
Proof.
  assert (B : PyFloat.between (-180) 180 Session.f20) by (split; vm_compute; discriminate).
  assert (Hempty : argparse_parse_args ["--address"; ""] = inl Session.empty_address)
    by reflexivity.
  pose proof (proj2 (get_weather_url_zero_latitude ["--address"; ""] initial_state)
                    false Hempty) as [Hparse Hurl].
  assert (Hargs : argparse_parse_args ["--latitude"; "0.0"; "--longitude"; "20"]
                  = inl Session.equator) by reflexivity.
  assert (V : PyFloat.is_binary64 Session.f20) by reflexivity.
  split; [exact Hargs|]. split; [exact V|]. split; [exact B|].
  destruct (proj1 (get_weather_url_zero_latitude
                     ["--latitude"; "0.0"; "--longitude"; "20"] initial_state)
                  false Session.f20 false Hargs V B) as [Hparse0 Hurl0].
  repeat split; assumption.
Defined.

Lemma white_house_not_blank :
  ~ PyStr.whitespace_only "1600 pennsylvania ave washington dc".
Proof. intros H. apply PyStrFacts.strip_empty in H. vm_compute in H. discriminate H. Qed.

Lemma sanitize_address_witness :
  PyStr.whitespace_only "  "
  /\ sanitize_address "  " false initial_state =
     (Raise (Exn ValueError "Missing address. Input provided:   "), initial_state)
  /\ sanitize_address "1600 pennsylvania ave washington dc" false initial_state =
     (Ok "1600 pennsylvania ave washington dc", initial_state).
Proof.
  assert (Hws : PyStr.whitespace_only "  ").
  { apply (PyStr.ws_space "  " " "); [reflexivity|].
    apply (PyStr.ws_space " " ""); [reflexivity | constructor]. }
  split; [exact Hws|]. split.
  - apply (sanitize_address_spec "  " false initial_state). exact Hws.
  - assert (Hparse : usaddress_parse "1600 pennsylvania ave washington dc" =
                     Components [("1600", "AddressNumber"); ("pennsylvania", "StreetName");
                                 ("ave", "StreetNamePostType"); ("washington", "PlaceName");
                                 ("dc", "StateName")]) by reflexivity.
    apply (proj2 (sanitize_address_spec "1600 pennsylvania ave washington dc"
                                        false initial_state)
                 _ white_house_not_blank Hparse).
Defined.

(** C8, on the input that breaks it. For the address [","] the parser finds
    no component and returns the empty list; [sanitize_address] tests the
    answer against [None] only, and returns the empty string where the
    specification asks for the error of a parse without components. *)
Theorem sanitize_address_no_component :
  usaddress_parse "," = Components []
  /\ sanitize_address "," false initial_state = (Ok "", initial_state).
Proof. split; reflexivity. Qed.



(** C6, the claim as it stands fails, in three places. The geocoder answers
    [[{}]], a list that is not empty: in verbose mode
    [get_coords_from_address] raises [KeyError] on [display_name] instead of
    returning the list. The geocoder answers a thousand opening brackets,
    which is not valid JSON: [json.loads] raises [RecursionError], and the
    function lets it through as it is, wrapped in nothing. The geocoder
    answers a body that is not UTF-8, hence not valid JSON either: the body
    never reaches the JSON decoder, and the function lets the
    [UnicodeDecodeError] of [fetch_url] through as it is. *)
Lemma get_coords_from_address_unwrapped :
  (http_request 0 Session.nowhere_geocode_url = Response 200 "[{}]"
   /\ json_loads "[{}]" = inr (PyList [PyDict []])
   /\ fst (get_coords_from_address "nowhere" true initial_state) =
      Raise (Exn KeyError "'display_name'"))
  /\ (http_request 0 Session.labyrinth_geocode_url = Response 200 Session.nested_body
      /\ json_loads Session.nested_body =
         inl (NestedTooDeep
                "maximum recursion depth exceeded while decoding a JSON array from a unicode string")
      /\ fst (get_coords_from_address "labyrinth" false initial_state) =
         Raise (Exn RecursionError
                  "maximum recursion depth exceeded while decoding a JSON array from a unicode string"))
  /\ (http_request 0 Session.babel_geocode_url = Response 200 Session.latin_body
      /\ PyBytes.is_utf8 Session.latin_body = false
      /\ fst (get_coords_from_address "babel" false initial_state) =
         Raise (Exn UnicodeDecodeError
                  "'utf-8' codec can't decode byte 0xff in position 0: invalid start byte")).
Proof.
  split; [|split].
  - repeat split; vm_compute; reflexivity.
  - repeat split; vm_compute; reflexivity.
  - repeat split; vm_compute; reflexivity.
Qed.

Lemma get_coords_from_address_witness :
  http_request (count is_http_get (trace initial_state)) Session.white_house_geocode_url
  = Response 200 Session.candidates_body
  /\ json_loads Session.candidates_body = inr Session.candidates
  /\ fst (get_coords_from_address "1600 pennsylvania ave washington dc" false initial_state)
     = Ok Session.candidates
  /\ fst (get_coords_from_address "atlantis" false initial_state)
     = Raise (Exn GetCoordsFromAddressError
                "No coordinates found for address: atlantis. Verify that the address is valid.")
  /\ fst (get_coords_from_address "gateway" false initial_state)
     = Raise (Exn ValueError
                "Malformed JSON response: Expecting value: line 1 column 1 (char 0)").
Proof.
  assert (Hreq : http_request (count is_http_get (trace initial_state))
                   (APIConfig.GEOCODE_BASE_URL ++ "?q=" ++ "1600 pennsylvania ave washington dc"
                      ++ "&api_key=" ++ MAPS_API_KEY)
                 = Response 200 Session.candidates_body) by reflexivity.
  assert (Hjson : json_loads Session.candidates_body = inr Session.candidates)
    by reflexivity.
  assert (Hreq2 : http_request (count is_http_get (trace initial_state))
                    (APIConfig.GEOCODE_BASE_URL ++ "?q=" ++ "atlantis"
                       ++ "&api_key=" ++ MAPS_API_KEY)
                  = Response 200 "[]") by reflexivity.
  assert (Hjson2 : json_loads "[]" = inr (PyList [])) by reflexivity.
  assert (Hreq3 : http_request (count is_http_get (trace initial_state))
                    (APIConfig.GEOCODE_BASE_URL ++ "?q=" ++ "gateway"
                       ++ "&api_key=" ++ MAPS_API_KEY)
                  = Response 200 "<html>Bad Gateway</html>") by reflexivity.
  assert (Htext3 : PyBytes.is_utf8 "<html>Bad Gateway</html>" = true) by reflexivity.
  assert (Hjson3 : json_loads "<html>Bad Gateway</html>"
                   = inl (JSONDecodeError "Expecting value: line 1 column 1 (char 0)"))
    by reflexivity.
  split; [exact Hreq|]. split; [exact Hjson|]. split; [|split].
  - apply (proj2 (proj2 (get_coords_from_address_spec
                           "1600 pennsylvania ave washington dc" false initial_state
                           Session.candidates_body Hreq))
                 _ _ Hjson).
    left. reflexivity.
  - apply (proj1 (proj2 (get_coords_from_address_spec
                           "atlantis" false initial_state "[]" Hreq2))
                 Hjson2).
  - apply (proj1 (get_coords_from_address_spec
                    "gateway" false initial_state "<html>Bad Gateway</html>" Hreq3)
                 _ Htext3 Hjson3).
Defined.

(** C9, the claim as it stands fails. A successful run in address mode clears
    the pool twice, the first time in the middle of the run; a run that fails
    before any request never clears it. *)
Lemma run_white_house_clears_twice :
  fst (run ["--address"; "1600 pennsylvania ave washington dc"]) = 0
  /\ trace (snd (run ["--address"; "1600 pennsylvania ave washington dc"])) =
     [PoolCreated 0; HttpGet 0 Session.white_house_geocode_url; PoolCleared 0;
      HttpGet 0 Session.white_house_url; PoolCleared 0;
      Printed (weather_lines "72.5" "5.3")]
  /\ count is_pool_cleared
           (trace (snd (run ["--address"; "1600 pennsylvania ave washington dc"]))) = 2%nat
  /\ fst (run ["--latitude"; "0.0"; "--longitude"; "20"]) = 1
  /\ count is_pool_cleared
           (trace (snd (run ["--latitude"; "0.0"; "--longitude"; "20"]))) = 0%nat.
Proof. repeat split; vm_compute; reflexivity. Qed.

Lemma singleton_and_release_witness :
  get_instance initial_state =
  (Ok 0%nat, {| instance := Some 0%nat; root_logger := None; trace := [PoolCreated 0] |})
  /\ get_instance {| instance := Some 0%nat; root_logger := None; trace := [PoolCreated 0] |} =
     (Ok 0%nat, {| instance := Some 0%nat; root_logger := None; trace := [PoolCreated 0] |})
  /\ count is_pool_cleared
           (trace (snd (run ["--address"; "1600 pennsylvania ave washington dc"])))
     = count is_http_get
             (trace (snd (run ["--address"; "1600 pennsylvania ave washington dc"]))).
Proof.
  pose proof (singleton_and_release ["--address"; "1600 pennsylvania ave washington dc"]
                                    Session.seattle_url false initial_state)
    as (Hid & _ & Hrun).
  split; [reflexivity|]. split.
  - apply (Hid 0%nat _ eq_refl).
  - apply Hrun.
Defined.

End Recorded.

(** ** The rest of the program: requests, failures and whole runs *)

Section FetchFacts.
Context {env : PythonEnv}.

Lemma when_log_requests (b : bool) (l : log_level) (msg : string) (s : state) :
  count is_http_get (trace (snd (when b (logging.log l msg) s))) = count is_http_get (trace s).
Proof.
  destruct (performs_when_log b l msg s) as (j & Hj & _ & _ & Hg & _).
  rewrite Hg. lia.
Qed.

Lemma fetch_url_run (api : nat) (url : string) (v : bool) (s : state) :
  let s1 := snd (when v (logging.info ("Fetching data from: " ++ url ++ " " ++ PyStr.newline)) s) in
  fetch_url api url v s =
  (match fetch_error (http_request (count is_http_get (trace s)) url) with
   | Some msg => Raise (Exn FetchUrlDataError msg)
   | None =>
     match http_request (count is_http_get (trace s)) url with
     | Response _ data => Py.decode data
     | _ => Ok ""
     end
   end,
   emit (HttpGet api url) s1).
Proof.
  cbn zeta. unfold fetch_url, bind, logging.info.
  pose proof (when_log_returns v INFO ("Fetching data from: " ++ url ++ " " ++ PyStr.newline) s)
    as Hret.
  pose proof (when_log_requests v INFO ("Fetching data from: " ++ url ++ " " ++ PyStr.newline) s)
    as Hcount.
  destruct (when v (logging.log INFO ("Fetching data from: " ++ url ++ " " ++ PyStr.newline)) s)
    as [r s1]. cbn [fst snd] in *. subst r. rewrite Hcount.
  destruct (http_request (count is_http_get (trace s)) url) as [status data | | d];
    cbn [fetch_error]; try reflexivity.
  destruct (status =? 200); reflexivity.
Qed.

(** A record that the logger lets through is one more line of the trace. *)
Lemma log_emits (l : log_level) (msg : string) (s : state) (h : log_handlers) :
  lets_through s l h ->
  logging.log l msg s = (Ok tt, emit (Logged h (logging.format h l msg)) s).
Proof.
  intros (threshold & Hcfg & Hle). unfold logging.log, logging.basicConfig, bind.
  rewrite Hcfg. cbn. rewrite Hcfg, Hle. reflexivity.
Qed.

Lemma lets_through_emit (ev : event) (s : state) (l : log_level) (h : log_handlers) :
  lets_through s l h -> lets_through (emit ev s) l h.
Proof. intros H. exact H. Qed.

(** What a record does to the trace: nothing, or one line. *)
Lemma log_trace (l : log_level) (msg : string) (s : state) :
  instance (snd (logging.log l msg s)) = instance s
  /\ (trace (snd (logging.log l msg s)) = trace s
      \/ exists h, trace (snd (logging.log l msg s))
                   = (trace s ++ [Logged h (logging.format h l msg)])%list).
Proof.
  unfold logging.log, logging.basicConfig, bind.
  destruct (root_logger s) as [[threshold h]|] eqn:E; cbn [root_logger]; rewrite ?E.
  - destruct (levelno threshold <=? levelno l); cbn [snd instance trace emit];
      split; try reflexivity; [right; exists h; reflexivity | left; reflexivity].
  - destruct (levelno WARNING <=? levelno l); cbn [snd instance trace emit];
      split; try reflexivity; [right; exists DefaultStderr; reflexivity | left; reflexivity].
Qed.

Lemma requests_app (t1 t2 : list event) : requests (t1 ++ t2) = (requests t1 ++ requests t2)%list.
Proof. apply List.filter_app. Qed.

Lemma when_log_requests_kept (b : bool) (l : log_level) (msg : string) (s : state) :
  requests (trace (snd (when b (logging.log l msg) s))) = requests (trace s)
  /\ instance (snd (when b (logging.log l msg) s)) = instance s.
Proof.
  destruct b; [|split; reflexivity]. cbn [when].
  destruct (log_trace l msg s) as (Hi & [Ht | (h & Ht)]); rewrite Ht; split; auto.
  rewrite requests_app. cbn. apply List.app_nil_r.
Qed.

(** What [fetch_url] raises is a [FetchUrlDataError], or the
    [UnicodeDecodeError] of a body that is not UTF-8. *)
Lemma fetch_url_raises (api : nat) (url : string) (v : bool) (s : state) (e : exn) :
  fst (fetch_url api url v s) = Raise e ->
  exists msg, e = Exn FetchUrlDataError msg \/ e = Exn UnicodeDecodeError msg.
Proof.
  rewrite (fetch_url_run api url v s). cbn [fst].
  destruct (fetch_error _) as [msg|].
  - intros H. injection H as <-. eauto.
  - destruct (http_request _ url) as [status data | | d]; try discriminate.
    unfold Py.decode. destruct (PyBytes.is_utf8 data); [discriminate|].
    intros H. injection H as <-. eauto.
Qed.

(** The line of [fetch_url] comes first, the request after it. *)
Lemma fetch_url_trace (api : nat) (url : string) (v : bool) (s : state) :
  trace (snd (fetch_url api url v s))
  = (trace (snd (when v (logging.info ("Fetching data from: " ++ url ++ " "
                                         ++ PyStr.newline)) s))
       ++ [HttpGet api url])%list.
Proof. rewrite (fetch_url_run api url v s). reflexivity. Qed.

Lemma fetch_url_requests (api : nat) (url : string) (v : bool) (s : state) :
  requests (trace (snd (fetch_url api url v s))) = (requests (trace s) ++ [HttpGet api url])%list.
Proof.
  rewrite (fetch_url_run api url v s). cbn [snd]. unfold emit. cbn [trace].
  rewrite requests_app. rewrite (proj1 (when_log_requests_kept v INFO _ s)). reflexivity.
Qed.

(** X1. [fetch_url] sends one request: the request is the next event of
    the trace, after the one line [Fetching data from: ...] when verbose and
    the logger lets INFO through, and what follows it holds log records
    only. The status is tested before the body is decoded: with status 200
    the function returns the body when it is UTF-8 and raises
    [UnicodeDecodeError], not [FetchUrlDataError], when it is not; for any
    other status, whatever the body, for a timeout and for a request error
    it raises [FetchUrlDataError] with the cause in its message. *)
Theorem fetch_url_outcomes (api : nat) (url : string) (v : bool) (s : state) :
  let outcome := http_request (count is_http_get (trace s)) url in
  let r := fst (fetch_url api url v s) in
  let after := trace (snd (fetch_url api url v s)) in
  (forall data, outcome = Response 200 data -> PyBytes.is_utf8 data = true -> r = Ok data)
  /\ (forall data,
         outcome = Response 200 data -> PyBytes.is_utf8 data = false ->
         r = Raise (Exn UnicodeDecodeError (decode_error_str data)))
  /\ (forall status data,
         outcome = Response status data -> status <> 200 ->
         r = Raise (Exn FetchUrlDataError ("Failed to fetch data: " ++ PyStr.of_int status)))
  /\ (outcome = TimeoutError -> r = Raise (Exn FetchUrlDataError "Request timed out"))
  /\ (forall description,
         outcome = RequestError description ->
         r = Raise (Exn FetchUrlDataError ("Request failed: " ++ description)))
  /\ requests after = (requests (trace s) ++ [HttpGet api url])%list
  /\ (v = false -> then_records (trace s ++ [HttpGet api url]) after)
  /\ (forall h,
         v = true -> lets_through s INFO h ->
         then_records
           (trace s ++ [Logged h (logging.format h INFO
                                    ("Fetching data from: " ++ url ++ " " ++ PyStr.newline));
                        HttpGet api url])
           after).
Proof.
  cbn zeta. repeat match goal with |- _ /\ _ => split end.
  - intros data Ho Htext. rewrite (fetch_url_run api url v s), Ho. cbn [fst fetch_error Z.eqb].
    apply decode_text, Htext.
  - intros data Ho Htext. rewrite (fetch_url_run api url v s), Ho. cbn [fst fetch_error Z.eqb].
    unfold Py.decode. rewrite Htext. reflexivity.
  - intros status data Ho Hne. rewrite (fetch_url_run api url v s), Ho. cbn [fst fetch_error].
    destruct (Z.eqb_spec status 200); [contradiction | reflexivity].
  - intros Ho. rewrite (fetch_url_run api url v s), Ho. reflexivity.
  - intros d Ho. rewrite (fetch_url_run api url v s), Ho. reflexivity.
  - apply fetch_url_requests.
  - intros ->. rewrite fetch_url_trace. exists []. split; [|reflexivity].
    cbn [when ret snd]. symmetry. apply List.app_nil_r.
  - intros h -> Hlog. rewrite fetch_url_trace. exists []. split; [|reflexivity].
    cbn [when]. unfold logging.info. rewrite (log_emits _ _ _ _ Hlog).
    cbn [snd emit trace]. rewrite List.app_nil_r, <- List.app_assoc. reflexivity.
Qed.

(** One scoped use of the client, step by step. *)
Lemma with_fetch_run (url : string) (v : bool) (s : state) :
  exists api s1,
    get_instance s = (Ok api, s1)
    /\ with_weather_api (fun weather_api => fetch_url weather_api url v) s =
       (fst (fetch_url api url v s1), emit (PoolCleared api) (snd (fetch_url api url v s1))).
Proof.
  destruct (get_instance_spec s) as (api & s1 & Hget & _).
  exists api, s1. split; [exact Hget|].
  unfold with_weather_api, bind. rewrite Hget. unfold try_finally, WeatherAPI_exit.
  destruct (fetch_url api url v s1) as [r s2]. reflexivity.
Qed.


End FetchFacts.

Section GeocoderFacts.
Context {env : PythonEnv}.

Lemma sends_nothing_ret {A} (a : A) : sends_nothing (ret a).
Proof. intros s. reflexivity. Qed.

Lemma sends_nothing_raise {A} (e : exn) : sends_nothing (@raise A e).
Proof. intros s. reflexivity. Qed.

Lemma sends_nothing_lift {A} (r : result A) : sends_nothing (lift r).
Proof. intros s. reflexivity. Qed.

Lemma sends_nothing_bind {A B} (m : M A) (f : A -> M B) :
  sends_nothing m -> (forall x, sends_nothing (f x)) -> sends_nothing (bind m f).
Proof.
  intros Hm Hf s. unfold bind. specialize (Hm s).
  destruct (m s) as [[x | e] s1]; cbn [snd] in *; [|exact Hm].
  rewrite (Hf x s1). exact Hm.
Qed.

Lemma sends_nothing_log (l : log_level) (msg : string) : sends_nothing (logging.log l msg).
Proof. intros s. apply (when_log_requests_kept true l msg s). Qed.

Lemma sends_nothing_when_log (b : bool) (l : log_level) (msg : string) :
  sends_nothing (when b (logging.log l msg)).
Proof. intros s. apply (when_log_requests_kept b l msg s). Qed.

Lemma geocode_url_eq (address : string) :
  APIConfig.GEOCODE_BASE_URL ++ "?q=" ++ address ++ "&api_key=" ++ MAPS_API_KEY
  = geocode_url address.
Proof. reflexivity. Qed.

Lemma get_instance_requests (s : state) :
  requests (trace (snd (get_instance s))) = requests (trace s)
  /\ count is_http_get (trace (snd (get_instance s))) = count is_http_get (trace s).
Proof.
  unfold get_instance, WeatherAPI_new, create_http_client.
  destruct (instance s); [split; reflexivity|]. cbn [snd trace emit]. split.
  - rewrite requests_app. cbn. apply List.app_nil_r.
  - unfold count. rewrite List.filter_app, List.length_app. cbn. lia.
Qed.


Lemma with_fetch_requests (url : string) (v : bool) (s : state) :
  exists api,
    requests (trace (snd (with_weather_api (fun weather_api => fetch_url weather_api url v) s)))
    = (requests (trace s) ++ [HttpGet api url])%list.
Proof.
  destruct (with_fetch_run url v s) as (api & s1 & Hget & ->). exists api.
  cbn [snd]. unfold emit at 1. cbn [trace]. rewrite requests_app.
  rewrite (fetch_url_requests api url v s1). pose proof (proj1 (get_instance_requests s)) as Hr.
  rewrite Hget in Hr. cbn [snd] in Hr. rewrite Hr. cbn. apply List.app_nil_r.
Qed.


Lemma get_coords_from_address_after_fetch (address : string) (v : bool) (s : state)
      (body : string) (coords : pyval) :
  http_request (count is_http_get (trace s)) (geocode_url address) = Response 200 body ->
  json_loads body = inr coords ->
  (Py.truthy coords = false ->
   fst (get_coords_from_address address v s) =
   Raise (Exn GetCoordsFromAddressError
            ("No coordinates found for address: " ++ address
               ++ ". Verify that the address is valid.")))
  /\ (Py.truthy coords = true -> v = false ->
      fst (get_coords_from_address address v s) = Ok coords).
Proof.
  intros Hreq Hjson. rewrite <- geocode_url_eq in Hreq.
  destruct (get_coords_from_address_decoded _ v _ _ _ Hreq Hjson) as (s1 & ->).
  split.
  - intros Hf. unfold try_except. rewrite Hf. reflexivity.
  - intros Ht ->. unfold try_except. rewrite Ht. reflexivity.
Qed.

(** X3. What [get_coords_from_address] does with the decoded answer is a
    test of truth, not of type: an empty list, but also an empty object,
    [null], [false], zero or an empty string, raise
    [GetCoordsFromAddressError("No coordinates found ...")]; and any other
    value, a list or not, is returned as it is when not verbose. *)
Theorem get_coords_from_address_truth_test (address : string) (s : state)
        (body : string) (coords : pyval) :
  http_request (count is_http_get (trace s)) (geocode_url address) = Response 200 body ->
  json_loads body = inr coords ->
  (In coords [PyList []; PyDict []; PyNone; PyBool false; PyInt 0; PyStr "";
              PyFloat (S754_zero false); PyFloat (S754_zero true)] ->
   forall v,
     fst (get_coords_from_address address v s) =
     Raise (Exn GetCoordsFromAddressError
              ("No coordinates found for address: " ++ address
                 ++ ". Verify that the address is valid.")))
  /\ (Py.truthy coords = true ->
      fst (get_coords_from_address address false s) = Ok coords).
Proof.
  intros Hreq Hjson. split.
  - intros Hin v.
    apply (get_coords_from_address_after_fetch address v s body coords Hreq Hjson).
    cbn in Hin. repeat destruct Hin as [<- | Hin]; try reflexivity. contradiction.
  - intros Ht.
    apply (get_coords_from_address_after_fetch address false s body coords Hreq Hjson);
      [exact Ht | reflexivity].
Qed.

(** X4. Whatever happens next, [get_coords_from_address] sends exactly one
    request, to the geocoding endpoint with the address as it was given (not
    URL-encoded) and the API key of the environment, or the text [None]
    when the environment has no key. *)
Theorem get_coords_from_address_request (address : string) (v : bool) (s : state) :
  exists api,
    requests (trace (snd (get_coords_from_address address v s)))
    = (requests (trace s)
         ++ [HttpGet api
                     ("https://geocode.maps.co/search?q=" ++ address ++ "&api_key="
                        ++ match environ_MAPS_API_KEY with
                           | Some key => key
                           | None => "None"
                           end)])%list.
Proof.
  destruct (with_fetch_requests (geocode_url address) v s) as (api & Hreq). exists api.
  unfold get_coords_from_address, try_except, bind at 1. rewrite geocode_url_eq.
  destruct (with_weather_api _ s) as [[response | e] s1]; cbn [snd] in Hreq.
  - assert (Hrest : forall m : M pyval, sends_nothing m ->
                requests (trace (snd (match m s1 with
                                      | (Ok a, s') => (Ok a, s')
                                      | (Raise e, s') =>
                                        if isinstance e [FetchUrlDataError]
                                        then raise (Exn GetCoordsFromAddressError
                                                      ("Error getting coordinates from address: "
                                                         ++ exn_str e)) s'
                                        else (Raise e, s')
                                      end)))
                = requests (trace s1)).
    { intros m Hm. specialize (Hm s1). destruct (m s1) as [[a | e] s'];
        cbn [snd] in *; [exact Hm|]. destruct (isinstance e _); exact Hm. }
    rewrite Hrest; [exact Hreq|].
    apply sends_nothing_bind; [apply sends_nothing_lift|]. intros coords.
    destruct (negb (Py.truthy coords)); [apply sends_nothing_raise|].
    apply sends_nothing_bind; [|intros _; apply sends_nothing_ret].
    destruct v; [|apply sends_nothing_ret]. cbn [when].
    repeat (apply sends_nothing_bind; [apply sends_nothing_lift|]; intro).
    apply sends_nothing_log.
  - destruct (isinstance e [FetchUrlDataError]); exact Hreq.
Qed.

End GeocoderFacts.

Section DispatchFacts.
Context {env : PythonEnv}.

(** What [parse_args] returns is the namespace of [argparse], as it is. *)
Lemma parse_args_returns (argv : list string) (ns : Namespace) :
  parse_args argv = Ok ns -> argparse_parse_args argv = inl ns.
Proof.
  unfold parse_args. destruct (argparse_parse_args argv) as [ns' | code]; [|discriminate].
  intros H.
  repeat match type of H with
         | (if ?b then _ else _) = _ => destruct b; try discriminate H
         | match ?x with _ => _ end = _ => destruct x; try discriminate H
         end;
    injection H as <-; reflexivity.
Qed.

(** What [parse_args] has checked of a namespace without address. *)
Lemma parse_args_coordinates (argv : list string) (ns : Namespace) (lat : spec_float) :
  parse_args argv = Ok ns -> address ns = None -> latitude ns = Some lat ->
  exists long, longitude ns = Some long /\ validate_latitude_longitude lat long = true.
Proof.
  intros Hparse Haddr Hlat.
  pose proof (parse_args_returns argv ns Hparse) as Hargs.
  rewrite (parse_args_cases argv ns Hargs), Haddr, Hlat in Hparse.
  destruct (longitude ns) as [long|] eqn:Hlong; [|discriminate Hparse].
  destruct (validate_latitude_longitude lat long) eqn:Hv; [|discriminate Hparse].
  exists long. split; [reflexivity | exact Hv].
Qed.

(** The coordinates branch of [get_weather_url]. *)
Lemma get_weather_url_by_coordinates (ns : Namespace) (lat long : spec_float) (s : state) :
  address ns = None -> latitude ns = Some lat -> longitude ns = Some long ->
  PyFloat.truthy lat = true -> validate_latitude_longitude lat long = true ->
  get_weather_url ns s = (Ok (forecast_url (float_repr lat) (float_repr long)), s).
Proof.
  intros Haddr Hlat Hlong Htruthy Hv.
  unfold get_weather_url. rewrite Haddr, Hlat, Hlong, Htruthy. cbn [of_option_float].
  unfold lift.
  rewrite (build_url_in_range (PyFloat lat) (PyFloat long) lat long (verbose ns)
             eq_refl eq_refl Hv).
  reflexivity.
Qed.

(** X5. [parse_args] and [get_weather_url] agree on coordinates: for a
    namespace that [parse_args] returned, with no address and a latitude
    other than zero, [get_weather_url] builds the forecast URL of its latitude
    and longitude without touching the state; the second validation, in
    [build_url], never fails after the first. *)
Theorem get_weather_url_after_parse_args (argv : list string) (ns : Namespace)
        (lat : spec_float) (s : state) :
  parse_args argv = Ok ns ->
  address ns = None -> latitude ns = Some lat -> PyFloat.truthy lat = true ->
  exists long,
    longitude ns = Some long
    /\ get_weather_url ns s =
       (Ok ("https://api.open-meteo.com/v1/forecast?latitude=" ++ float_repr lat
              ++ "&longitude=" ++ float_repr long
              ++ "&current=temperature_2m,wind_speed_10m&temperature_unit=fahrenheit&wind_speed_unit=mph&timezone=auto"),
        s).
Proof.
  intros Hparse Haddr Hlat Htruthy.
  destruct (parse_args_coordinates argv ns lat Hparse Haddr Hlat) as (long & Hlong & Hv).
  exists long. split; [exact Hlong|].
  rewrite (get_weather_url_by_coordinates ns lat long s Haddr Hlat Hlong Htruthy Hv).
  reflexivity.
Qed.

(** What [sanitize_address] returns on an address that the parser splits. *)
Lemma sanitize_address_returns (raw : string) (v : bool) (s : state)
      (parsed_components : list (string * string)) :
  ~ PyStr.whitespace_only raw -> usaddress_parse raw = Components parsed_components ->
  sanitize_address raw v s =
  (Ok (PyStr.join " " (List.map fst parsed_components)),
   snd (when v (logging.info ("Sanitized address: "
                                ++ PyStr.join " " (List.map fst parsed_components)
                                ++ PyStr.newline)) s)).
Proof.
  intros Hnb Hparse. rewrite (sanitize_address_present raw v Hnb), Hparse.
  unfold bind, ret, logging.info.
  pose proof (when_log_returns v INFO
                ("Sanitized address: " ++ PyStr.join " " (List.map fst parsed_components)
                   ++ PyStr.newline) s) as Hlog.
  destruct (when v (logging.log INFO _) s) as [r s']. cbn [fst] in Hlog. subst r.
  reflexivity.
Qed.

(** What [get_coords_from_address] returns on a list of candidates. *)
Lemma get_coords_from_address_candidates (address : string) (v : bool) (s : state)
      (body : string) (items : list (string * pyval)) (others : list pyval)
      (lat lon : pyval) :
  http_request (count is_http_get (trace s)) (geocode_url address) = Response 200 body ->
  json_loads body = inr (PyList (PyDict items :: others)) ->
  Py.lookup items "lat" = Some lat -> Py.lookup items "lon" = Some lon ->
  v = false \/ (exists display_name, Py.lookup items "display_name" = Some display_name) ->
  fst (get_coords_from_address address v s) = Ok (PyList (PyDict items :: others)).
Proof.
  intros Hreq Hjson Hlat Hlon Hverbose. rewrite <- geocode_url_eq in Hreq.
  destruct (get_coords_from_address_decoded _ v _ _ _ Hreq Hjson) as (s1 & ->).
  destruct Hverbose as [-> | (dn & Hdn)]; [reflexivity|].
  destruct v; [|reflexivity].
  unfold try_except, bind, lift, when, Py.truthy, negb, Py.getitem0, Py.getitem.
  rewrite Hdn, Hlat, Hlon. unfold logging.info. rewrite log_run. reflexivity.
Qed.

Lemma not_blank_truthy (raw : string) : ~ PyStr.whitespace_only raw -> PyStr.truthy raw = true.
Proof.
  destruct raw; [|reflexivity]. intros H. contradiction H. constructor.
Qed.

Lemma sanitize_address_requests (address : string) (v : bool) (s : state) :
  count is_http_get (trace (snd (sanitize_address address v s))) = count is_http_get (trace s).
Proof.
  destruct (performs_sanitize_address address v s) as (j & Hj & _ & _ & Hg & _).
  rewrite Hg. lia.
Qed.

(** The address branch of [get_weather_url], once the address is sanitized
    and the geocoder has answered. *)
Lemma get_weather_url_by_address (ns : Namespace) (s : state) (raw : string)
      (parsed_components : list (string * string)) (body : string) (coords : pyval) :
  address ns = Some raw -> ~ PyStr.whitespace_only raw ->
  usaddress_parse raw = Components parsed_components ->
  http_request (count is_http_get (trace s))
               (geocode_url (PyStr.join " " (List.map fst parsed_components)))
  = Response 200 body ->
  json_loads body = inr coords ->
  fst (get_coords_from_address (PyStr.join " " (List.map fst parsed_components))
                               (verbose ns)
                               (snd (sanitize_address raw (verbose ns) s)))
  = Ok coords ->
  fst (get_weather_url ns s) =
  and_then (Py.getitem0 coords) (fun first =>
  and_then (Py.getitem first "lat") (fun lat =>
  and_then (Py.getitem0 coords) (fun first =>
  and_then (Py.getitem first "lon") (fun lon =>
  build_url lat lon (verbose ns))))).
Proof.
  intros Haddr Hnb Hparse Hreq Hjson Hcoords.
  unfold get_weather_url. rewrite Haddr, (not_blank_truthy raw Hnb).
  unfold bind at 1.
  rewrite (sanitize_address_returns raw (verbose ns) s _ Hnb Hparse) in *.
  cbn [snd] in Hcoords. unfold bind at 1.
  destruct (get_coords_from_address _ (verbose ns) _) as [r s2]. cbn [fst] in Hcoords.
  subst r. unfold bind, lift.
  destruct (Py.getitem0 coords) as [first | e]; [|reflexivity]. cbn [and_then].
  destruct (Py.getitem first "lat") as [lat | e]; [|reflexivity]. cbn [and_then].
  destruct (Py.getitem first "lon") as [lon | e]; reflexivity.
Qed.

(** X6. In address mode, [get_weather_url] sanitizes the address, asks the
    geocoder about the sanitized address, and builds the forecast URL from
    [lat] and [lon] of the first candidate, which are strings that [float]
    converts; the other candidates play no part. *)
Theorem get_weather_url_first_candidate (ns : Namespace) (s : state) (raw : string)
        (parsed_components : list (string * string)) (body : string)
        (items : list (string * pyval)) (others : list pyval)
        (lat lon : pyval) (x y : spec_float) :
  address ns = Some raw -> ~ PyStr.whitespace_only raw ->
  usaddress_parse raw = Components parsed_components ->
  http_request (count is_http_get (trace s))
               (geocode_url (PyStr.join " " (List.map fst parsed_components)))
  = Response 200 body ->
  json_loads body = inr (PyList (PyDict items :: others)) ->
  Py.lookup items "lat" = Some lat -> Py.lookup items "lon" = Some lon ->
  verbose ns = false \/ (exists display_name, Py.lookup items "display_name" = Some display_name) ->
  Py.float lat = Ok x -> Py.float lon = Ok y ->
  validate_latitude_longitude x y = true ->
  fst (get_weather_url ns s) =
  Ok ("https://api.open-meteo.com/v1/forecast?latitude=" ++ float_repr x
        ++ "&longitude=" ++ float_repr y
        ++ "&current=temperature_2m,wind_speed_10m&temperature_unit=fahrenheit&wind_speed_unit=mph&timezone=auto").
Proof.
  intros Haddr Hnb Hparse Hreq Hjson Hlat Hlon Hverbose Hx Hy Hv.
  assert (Hcoords : fst (get_coords_from_address
                           (PyStr.join " " (List.map fst parsed_components)) (verbose ns)
                           (snd (sanitize_address raw (verbose ns) s)))
                    = Ok (PyList (PyDict items :: others))).
  { apply (get_coords_from_address_candidates _ _ _ body items others lat lon);
      try assumption.
    rewrite sanitize_address_requests. exact Hreq. }
  rewrite (get_weather_url_by_address ns s raw parsed_components body _
             Haddr Hnb Hparse Hreq Hjson Hcoords).
  cbn [Py.getitem0 and_then Py.getitem]. rewrite Hlat, Hlon. cbn [and_then].
  rewrite (build_url_in_range lat lon x y (verbose ns) Hx Hy Hv). reflexivity.
Qed.

(** An exception of [get_weather_url] that [main] does not handle leaves
    [main] as it is. *)
Lemma main_reraises (argv : list string) (s0 : state) (ns : Namespace) (e : exn) :
  parse_args argv = Ok ns ->
  fst (get_weather_url ns (snd (setup_logging (verbose ns) s0))) = Raise e ->
  isinstance e handled_by_main = false ->
  fst (main argv s0) = Raise e.
Proof.
  intros Hp Hurl Hn. unfold main, try_except, main_try, bind at 1, lift. rewrite Hp.
  unfold setup_logging in *. unfold bind at 1.
  destruct (logging.basicConfig _ StdoutAndFile s0) as [[[] | e0] s1] eqn:E.
  - cbn [snd] in Hurl. unfold bind at 1.
    destruct (get_weather_url ns s1) as [r s2]. cbn [fst] in Hurl. subst r.
    unfold handled_by_main in Hn. rewrite Hn. reflexivity.
  - unfold logging.basicConfig in E. destruct (root_logger s0); discriminate E.
Qed.

(** What [get_coords_from_address] raises and does not turn into its own
    error leaves [get_weather_url] as it is. *)
Lemma get_weather_url_reraises (ns : Namespace) (s : state) (raw : string)
      (parsed_components : list (string * string)) (e : exn) :
  address ns = Some raw -> ~ PyStr.whitespace_only raw ->
  usaddress_parse raw = Components parsed_components ->
  fst (get_coords_from_address
         (PyStr.join " " (List.map fst parsed_components)) (verbose ns)
         (snd (sanitize_address raw (verbose ns) s)))
  = Raise e ->
  fst (get_weather_url ns s) = Raise e.
Proof.
  intros Haddr Hnb Hparse Hcoords.
  unfold get_weather_url. rewrite Haddr, (not_blank_truthy raw Hnb).
  unfold bind at 1.
  rewrite (sanitize_address_returns raw (verbose ns) s _ Hnb Hparse) in *.
  cbn [snd] in Hcoords. unfold bind at 1.
  destruct (get_coords_from_address _ (verbose ns) _) as [r s2]. cbn [fst] in Hcoords.
  subst r. reflexivity.
Qed.

(** The lookups of the verbose branch of [get_coords_from_address], lines
    68-72, come before those of [get_weather_url] and in this order:
    [display_name], [lat], [lon]. *)
Lemma get_coords_from_address_lookups (address : string) (s : state)
      (body : string) (coords : pyval) :
  http_request (count is_http_get (trace s)) (geocode_url address) = Response 200 body ->
  json_loads body = inr coords ->
  ((exists entry entries, coords = PyDict (entry :: entries)) ->
   fst (get_coords_from_address address true s) = Raise (Exn KeyError "0"))
  /\ (forall items others,
         coords = PyList (PyDict items :: others) ->
         (Py.lookup items "display_name" = None ->
          fst (get_coords_from_address address true s)
          = Raise (Exn KeyError (str_repr "display_name")))
         /\ (forall display_name,
                Py.lookup items "display_name" = Some display_name ->
                Py.lookup items "lat" = None ->
                fst (get_coords_from_address address true s)
                = Raise (Exn KeyError (str_repr "lat")))
         /\ (forall display_name lat,
                Py.lookup items "display_name" = Some display_name ->
                Py.lookup items "lat" = Some lat ->
                Py.lookup items "lon" = None ->
                fst (get_coords_from_address address true s)
                = Raise (Exn KeyError (str_repr "lon")))).
Proof.
  intros Hreq Hjson. rewrite <- geocode_url_eq in Hreq.
  destruct (get_coords_from_address_decoded _ true _ _ _ Hreq Hjson) as (s1 & ->).
  split.
  - intros (entry & entries & ->). reflexivity.
  - intros items others ->. split; [|split].
    + intros Hdn. unfold try_except, bind, lift, when, Py.truthy, negb, Py.getitem0, Py.getitem.
      rewrite Hdn. reflexivity.
    + intros dn Hdn Hlat.
      unfold try_except, bind, lift, when, Py.truthy, negb, Py.getitem0, Py.getitem.
      rewrite Hdn, Hlat. reflexivity.
    + intros dn lat Hdn Hlat Hlon.
      unfold try_except, bind, lift, when, Py.truthy, negb, Py.getitem0, Py.getitem.
      rewrite Hdn, Hlat, Hlon. reflexivity.
Qed.

(** X7. [get_weather_url] indexes the answer of the geocoder without
    checking its shape. When the geocoder answers with an object that is not
    empty, it raises [KeyError(0)], verbose or not. When the first candidate
    of a list is an object that lacks a field, it raises [KeyError] on the
    first field it misses: [lat], then [lon], when not verbose; and when
    verbose [display_name], then [lat], then [lon], from the lookups of
    [get_coords_from_address]. [main] does not handle [KeyError], and ends
    with the same exception. *)
Theorem get_weather_url_unchecked_answer (ns : Namespace) (s : state) (raw : string)
        (parsed_components : list (string * string)) (body : string) (coords : pyval) :
  address ns = Some raw -> ~ PyStr.whitespace_only raw ->
  usaddress_parse raw = Components parsed_components ->
  http_request (count is_http_get (trace s))
               (geocode_url (PyStr.join " " (List.map fst parsed_components)))
  = Response 200 body ->
  json_loads body = inr coords ->
  ((exists entry entries, coords = PyDict (entry :: entries)) ->
   fst (get_weather_url ns s) = Raise (Exn KeyError "0"))
  /\ (forall items others,
         coords = PyList (PyDict items :: others) ->
         (verbose ns = true -> Py.lookup items "display_name" = None ->
          fst (get_weather_url ns s) = Raise (Exn KeyError (str_repr "display_name")))
         /\ (verbose ns = false
             \/ (exists display_name, Py.lookup items "display_name" = Some display_name) ->
             Py.lookup items "lat" = None ->
             fst (get_weather_url ns s) = Raise (Exn KeyError (str_repr "lat")))
         /\ (verbose ns = false
             \/ (exists display_name, Py.lookup items "display_name" = Some display_name) ->
             forall lat,
               Py.lookup items "lat" = Some lat -> Py.lookup items "lon" = None ->
               fst (get_weather_url ns s) = Raise (Exn KeyError (str_repr "lon"))))
  /\ (forall argv s0 key,
         parse_args argv = Ok ns ->
         fst (get_weather_url ns (snd (setup_logging (verbose ns) s0)))
         = Raise (Exn KeyError key) ->
         fst (main argv s0) = Raise (Exn KeyError key)).
Proof.
  intros Haddr Hnb Hparse Hreq Hjson.
  assert (Hreq' : http_request
                    (count is_http_get (trace (snd (sanitize_address raw (verbose ns) s))))
                    (geocode_url (PyStr.join " " (List.map fst parsed_components)))
                  = Response 200 body).
  { rewrite sanitize_address_requests. exact Hreq. }
  assert (Hquiet : verbose ns = false -> Py.truthy coords = true ->
                   fst (get_weather_url ns s) =
                   and_then (Py.getitem0 coords) (fun first =>
                   and_then (Py.getitem first "lat") (fun lat =>
                   and_then (Py.getitem0 coords) (fun first =>
                   and_then (Py.getitem first "lon") (fun lon =>
                   build_url lat lon (verbose ns)))))).
  { intros Hq Ht.
    apply (get_weather_url_by_address ns s raw parsed_components body _
             Haddr Hnb Hparse Hreq Hjson).
    rewrite Hq at 1.
    apply (proj2 (get_coords_from_address_after_fetch _ false _ body coords Hreq' Hjson));
      [exact Ht | reflexivity]. }
  destruct (get_coords_from_address_lookups _ _ body coords Hreq' Hjson)
    as (Hobject & Hlist).
  split; [|split].
  - intros Hc. destruct (verbose ns) eqn:Hv.
    + apply (get_weather_url_reraises ns s raw parsed_components _ Haddr Hnb Hparse).
      rewrite Hv in *. apply Hobject, Hc.
    + destruct Hc as (entry & entries & ->). rewrite (Hquiet eq_refl eq_refl). reflexivity.
  - intros items others ->.
    destruct (Hlist items others eq_refl) as (Hdn & Hlat & Hlon).
    split; [|split].
    + intros Hv Hnone.
      apply (get_weather_url_reraises ns s raw parsed_components _ Haddr Hnb Hparse).
      rewrite Hv in *. apply Hdn, Hnone.
    + intros Hmode Hnone. destruct (verbose ns) eqn:Hv.
      * destruct Hmode as [Hmode | (dn & Hsome)]; [discriminate Hmode|].
        apply (get_weather_url_reraises ns s raw parsed_components _ Haddr Hnb Hparse).
        rewrite Hv in *. apply (Hlat dn Hsome Hnone).
      * rewrite (Hquiet eq_refl eq_refl).
        cbn [Py.getitem0 and_then Py.getitem]. rewrite Hnone. reflexivity.
    + intros Hmode lat Hsome Hnone. destruct (verbose ns) eqn:Hv.
      * destruct Hmode as [Hmode | (dn & Hname)]; [discriminate Hmode|].
        apply (get_weather_url_reraises ns s raw parsed_components _ Haddr Hnb Hparse).
        rewrite Hv in *. apply (Hlon dn lat Hname Hsome Hnone).
      * rewrite (Hquiet eq_refl eq_refl).
        cbn [Py.getitem0 and_then Py.getitem]. rewrite Hsome, Hnone. reflexivity.
  - intros argv s0 key Hp Hurl. apply (main_reraises argv s0 ns); auto.
Qed.

End DispatchFacts.

Section PayloadFacts.
Context {env : PythonEnv}.

Lemma float_raises (v : pyval) (e : exn) :
  Py.float v = Raise e ->
  exists msg, e = Exn ValueError msg \/ e = Exn TypeError msg \/ e = Exn OverflowError msg.
Proof.
  destruct v as [ | b | n | x | str | elems | items]; cbn [Py.float]; intros H;
    try (injection H as <-; eauto; fail); try discriminate H.
  - destruct (PyFloat.of_Z n); try discriminate H. injection H as <-. eauto.
  - destruct (float_of_str str); [discriminate H|]. injection H as <-. eauto.
Qed.

Lemma all_in_raises (keys : list string) (data : pyval) (e : exn) :
  all_in keys data = Raise e -> exists msg, e = Exn TypeError msg.
Proof.
  induction keys as [|key rest IH]; cbn [all_in]; [discriminate|].
  destruct (Py.contains key data) as [[|] | e'] eqn:E; try discriminate; [exact IH|].
  intros H. injection H as <-.
  destruct data; cbn [Py.contains] in E; try discriminate E; injection E as <-; eauto.
Qed.

Lemma all_in_true (keys : list string) (data : pyval) (key : string) :
  all_in keys data = Ok true -> In key keys -> Py.contains key data = Ok true.
Proof.
  induction keys as [|k rest IH]; intros H Hin; [contradiction|].
  cbn [all_in] in H. destruct (Py.contains k data) as [[|] | e] eqn:E; try discriminate H.
  destruct Hin as [<- | Hin]; [exact E | exact (IH H Hin)].
Qed.

Lemma getitem_raises (data : pyval) (key : string) (e : exn) :
  Py.contains key data = Ok true -> Py.getitem data key = Raise e ->
  exists msg, e = Exn TypeError msg.
Proof.
  destruct data; cbn [Py.contains Py.getitem]; intros Hc Hg;
    try discriminate Hc; try (injection Hg as <-; eauto; fail).
  destruct (Py.lookup items key); [discriminate Hg | discriminate Hc].
Qed.

(** What [from_dict] raises: never a [KeyError]. *)
Lemma from_dict_raises_only (data : pyval) (e : exn) :
  from_dict data = Raise e ->
  exists msg, e = Exn ValueError msg \/ e = Exn TypeError msg \/ e = Exn OverflowError msg.
Proof.
  unfold from_dict.
  destruct (all_in ["latitude"; "longitude"; "current"] data) as [[|] | e0] eqn:Hall;
    cbn [and_then negb].
  - pose proof (all_in_true _ _ "latitude" Hall ltac:(cbn; auto)) as H1.
    pose proof (all_in_true _ _ "longitude" Hall ltac:(cbn; auto)) as H2.
    pose proof (all_in_true _ _ "current" Hall ltac:(cbn; auto)) as H3.
    destruct (Py.getitem data "latitude") as [lat | e1] eqn:G1; cbn [and_then].
    + destruct (Py.float lat) as [x | e2] eqn:F1; cbn [and_then].
      * destruct (Py.getitem data "longitude") as [long | e3] eqn:G2; cbn [and_then].
        -- destruct (Py.float long) as [y | e4] eqn:F2; cbn [and_then].
           ++ destruct (Py.getitem data "current") as [cur | e5] eqn:G3; cbn [and_then].
              ** discriminate.
              ** intros H. injection H as <-.
                 destruct (getitem_raises _ _ _ H3 G3) as (msg & ->). eauto.
           ++ intros H. injection H as <-. apply (float_raises _ _ F2).
        -- intros H. injection H as <-.
           destruct (getitem_raises _ _ _ H2 G2) as (msg & ->). eauto.
      * intros H. injection H as <-. apply (float_raises _ _ F1).
    + intros H. injection H as <-.
      destruct (getitem_raises _ _ _ H1 G1) as (msg & ->). eauto.
  - intros H. injection H as <-. eauto.
  - intros H. injection H as <-.
    destruct (all_in_raises _ _ _ Hall) as (msg & ->). eauto.
Qed.

(** X8. [from_dict] raises [ValueError], [TypeError] or [OverflowError] and
    nothing else: the membership test of line 196 comes before every lookup,
    so no payload makes it raise [KeyError]. A payload that is a number, a
    boolean or [null] makes the membership test itself raise [TypeError]. *)
Theorem from_dict_raises (data : pyval) :
  (forall e,
      from_dict data = Raise e ->
      exists msg, e = Exn ValueError msg \/ e = Exn TypeError msg \/ e = Exn OverflowError msg)
  /\ ((data = PyNone \/ (exists b, data = PyBool b) \/ (exists n, data = PyInt n)
       \/ (exists x, data = PyFloat x)) ->
      exists msg, from_dict data = Raise (Exn TypeError msg)).
Proof.
  split.
  - apply from_dict_raises_only.
  - intros [-> | [(b & ->) | [(n & ->) | (x & ->)]]]; eexists; reflexivity.
Qed.

(** What [parse_json_response] raises: the [ValueError] it makes of a
    [JSONDecodeError], or what else [json.loads] raised. *)
Lemma parse_json_response_raises (response : string) (e : exn) :
  parse_json_response response = Raise e ->
  exists msg, e = Exn ValueError msg \/ e = Exn RecursionError msg.
Proof.
  unfold parse_json_response.
  destruct (json_loads response) as [[msg | msg | msg] | v]; intros H;
    try discriminate H; injection H as <-; eauto.
Qed.

(** X9. [display_weather_data] ends in one of three ways: it prints one
    text and returns; or it logs one line, [Failed to parse weather data: ...],
    and returns; or it raises, having printed and logged nothing, an
    exception that is not a [ValueError], such as the [RecursionError] of
    [json.loads] or the [TypeError], [AttributeError] or [OverflowError] of a
    payload of the wrong shape. A [ValueError] never leaves it. *)
Theorem display_weather_data_outcomes (response : string) (s : state) :
  (exists text, display_weather_data response s = (Ok tt, emit (Printed text) s))
  \/ (exists msg,
         display_weather_data response s =
         (Ok tt, snd (logging.error ("Failed to parse weather data: " ++ msg) s)))
  \/ (exists c msg,
         display_weather_data response s = (Raise (Exn c msg), s)
         /\ isinstance (Exn c msg) [ValueError] = false).
Proof.
  destruct (parse_json_response response) as [data | e1] eqn:Hjson.
  - destruct (from_dict data) as [wd | e2] eqn:Hfrom.
    + unfold display_weather_data, try_except, bind, lift. rewrite Hjson, Hfrom.
      destruct (wd_current wd) as [ | b | n | x | str | elems | fields];
        try (right; right; eexists AttributeError, _; split; reflexivity).
      left. eexists. reflexivity.
    + destruct (from_dict_raises_only data e2 Hfrom) as (msg & [-> | [-> | ->]]).
      * right. left. exists msg. apply display_weather_data_swallows. right. eauto.
      * right. right. exists TypeError, msg. split; [|reflexivity].
        unfold display_weather_data, try_except, bind, lift. rewrite Hjson, Hfrom. reflexivity.
      * right. right. exists OverflowError, msg. split; [|reflexivity].
        unfold display_weather_data, try_except, bind, lift. rewrite Hjson, Hfrom. reflexivity.
  - destruct (parse_json_response_raises response e1 Hjson) as (msg & [-> | ->]).
    + right. left. exists msg. apply display_weather_data_swallows. left. exact Hjson.
    + right. right. exists RecursionError, msg. split; [|reflexivity].
      unfold display_weather_data, try_except, bind, lift. rewrite Hjson. reflexivity.
Qed.

End PayloadFacts.

Section RunFacts.
Context {env : PythonEnv}.


Lemma configured_lets_through (v : bool) (l : log_level) (s : state) :
  root_logger s = root_logger (configured v) -> l = INFO \/ l = ERROR ->
  lets_through s l StdoutAndFile.
Proof.
  intros Hcfg Hl. exists (if v then DEBUG else INFO). split; [exact Hcfg|].
  destruct v, Hl as [-> | ->]; reflexivity.
Qed.


(** X11. An error of the arguments is found before the logger is set up:
    [main] logs it through the default configuration of [logging], on
    standard error and in the format [ERROR:root:message], not on standard
    output nor in the log file; the run exits with status 1 and has created
    no pool. *)
Theorem run_argument_error (argv : list string) (msg : string) :
  parse_args argv = Raise (Exn ParsedArgumentError msg) ->
  run argv =
  (1, {| instance := None;
         root_logger := Some (WARNING, DefaultStderr);
         trace := [Logged DefaultStderr ("ERROR:root:" ++ msg)] |}).
Proof.
  intros Hp. unfold run, main, try_except, main_try, bind at 1, lift. rewrite Hp.
  reflexivity.
Qed.

(** X12. When [argparse] exits by itself (a malformed option, [--help]),
    [main] handles nothing: the run ends with the code of [argparse], and
    nothing was logged, created or sent. *)
Theorem run_argparse_exit (argv : list string) (code : Z) :
  argparse_parse_args argv = inr code -> run argv = (code, initial_state).
Proof.
  intros Ha. unfold run, main, try_except, main_try, bind at 1, lift, parse_args.
  rewrite Ha. reflexivity.
Qed.




End RunFacts.

Section MoreRunFacts.
Context {env : PythonEnv}.



(** X15. The first configuration of the logger wins. A second
    [setup_logging] changes nothing, whatever its argument; neither does a
    [setup_logging] that comes after a record was logged. And on a logger
    that [setup_logging] configured, the records of the program, which are
    all of level INFO or ERROR, pass whether verbose or not. *)
Theorem setup_logging_first_wins (v v' : bool) (s : state) :
  setup_logging v' (snd (setup_logging v s)) = (Ok tt, snd (setup_logging v s))
  /\ (forall l msg,
         setup_logging v (snd (logging.log l msg s)) = (Ok tt, snd (logging.log l msg s)))
  /\ (root_logger s = None ->
      forall l msg,
        l = INFO \/ l = ERROR ->
        logging.log l msg (snd (setup_logging v s)) =
        (Ok tt, emit (Logged StdoutAndFile (levelname l ++ ": " ++ msg))
                     (snd (setup_logging v s)))).
Proof.
  unfold setup_logging, logging.basicConfig. split; [|split].
  - destruct (root_logger s) eqn:E; cbn [snd root_logger]; rewrite ?E; reflexivity.
  - intros l msg. unfold logging.log, logging.basicConfig, bind.
    destruct (root_logger s) as [[threshold h]|] eqn:E; cbn [root_logger]; rewrite ?E.
    + destruct (levelno threshold <=? levelno l); cbn [snd emit root_logger];
        rewrite E; reflexivity.
    + destruct (levelno WARNING <=? levelno l); reflexivity.
  - intros Hnone l msg Hl. rewrite Hnone. cbn [snd].
    apply (log_emits l msg _ StdoutAndFile).
    apply (configured_lets_through v); [reflexivity | exact Hl].
Qed.

End MoreRunFacts.

Section ExitFacts.
Context {env : PythonEnv}.

Lemma never_exits_ret {A} (a : A) : never_exits (ret a).
Proof. intros s code. discriminate. Qed.

Lemma never_exits_raise {A} (c : exn_class) (msg : string) : never_exits (@raise A (Exn c msg)).
Proof. intros s code. discriminate. Qed.

Lemma never_exits_lift {A} (r : result A) : pure_never_exits r -> never_exits (lift r).
Proof. intros H s code. apply H. Qed.

Lemma never_exits_bind {A B} (m : M A) (f : A -> M B) :
  never_exits m -> (forall x, never_exits (f x)) -> never_exits (bind m f).
Proof.
  intros Hm Hf s code. unfold bind. specialize (Hm s code).
  destruct (m s) as [[x | e] s1]; [apply Hf|].
  cbn [fst] in *. intros H. apply Hm. injection H as ->. reflexivity.
Qed.

Lemma never_exits_try_except {A} (body : M A) (classes : list exn_class)
      (handler : exn -> M A) :
  never_exits body -> (forall e, never_exits (handler e)) ->
  never_exits (try_except body classes handler).
Proof.
  intros Hm Hh s code. unfold try_except. specialize (Hm s code).
  destruct (body s) as [[x | e] s1]; [discriminate|].
  destruct (isinstance e classes); [apply Hh | exact Hm].
Qed.

Lemma never_exits_log (l : log_level) (msg : string) : never_exits (logging.log l msg).
Proof. intros s code. rewrite log_returns. discriminate. Qed.

Lemma never_exits_when_log (b : bool) (l : log_level) (msg : string) :
  never_exits (when b (logging.log l msg)).
Proof. intros s code. rewrite when_log_returns. discriminate. Qed.

Lemma never_exits_with_fetch (url : string) (v : bool) :
  never_exits (with_weather_api (fun weather_api => fetch_url weather_api url v)).
Proof.
  intros s code. destruct (with_fetch_run url v s) as (api & s1 & _ & ->). cbn [fst].
  intros H. destruct (fetch_url_raises api url v s1 _ H) as (msg & [Hmsg | Hmsg]);
    discriminate Hmsg.
Qed.

Lemma getitem0_never_exits (v : pyval) : pure_never_exits (Py.getitem0 v).
Proof.
  intros code. destruct v as [ | | | | [|c r] | [|first rest] | ]; discriminate.
Qed.

Lemma getitem_never_exits (v : pyval) (key : string) : pure_never_exits (Py.getitem v key).
Proof.
  intros code. destruct v; cbn [Py.getitem]; try discriminate.
  destruct (Py.lookup items key); discriminate.
Qed.

Lemma get_never_exits (v : pyval) (key : string) : pure_never_exits (Py.get v key).
Proof. intros code. destruct v; discriminate. Qed.

Lemma build_url_never_exits (latitude longitude : pyval) (v : bool) :
  pure_never_exits (build_url latitude longitude v).
Proof.
  intros code. unfold build_url.
  destruct (Py.float latitude); [|discriminate].
  destruct (Py.float longitude); [|discriminate].
  destruct (negb (validate_latitude_longitude a a0)); discriminate.
Qed.

Lemma parse_json_response_never_exits (response : string) :
  pure_never_exits (parse_json_response response).
Proof.
  intros code. unfold parse_json_response.
  destruct (json_loads response) as [[msg | msg | msg] | v]; discriminate.
Qed.

Lemma from_dict_never_exits (data : pyval) : pure_never_exits (from_dict data).
Proof.
  intros code H. destruct (from_dict_raises_only data _ H) as (msg & [E | [E | E]]);
    discriminate E.
Qed.

Lemma never_exits_get_weather_url (parsed_args : Namespace) :
  never_exits (get_weather_url parsed_args).
Proof.
  unfold get_weather_url.
  assert (Hc : never_exits
                 (if match latitude parsed_args with
                     | Some x => PyFloat.truthy x
                     | None => false
                     end
                  then lift (build_url (of_option_float (latitude parsed_args))
                                       (of_option_float (longitude parsed_args))
                                       (verbose parsed_args))
                  else @raise string
                         (Exn ParsedArgumentError
                            "Failed to build URL: No valid address / coordinates provided."))).
  { destruct (match latitude parsed_args with Some x => PyFloat.truthy x | None => false end);
      [apply never_exits_lift, build_url_never_exits | apply never_exits_raise]. }
  destruct (address parsed_args) as [raw|]; [|exact Hc].
  destruct (PyStr.truthy raw); [|exact Hc].
  apply never_exits_bind.
  { unfold sanitize_address.
    destruct (negb (PyStr.truthy raw) || negb (PyStr.truthy (PyStr.strip raw)));
      [apply never_exits_raise|].
    destruct (usaddress_parse raw); try apply never_exits_raise.
    apply never_exits_bind; [apply never_exits_when_log | intros _; apply never_exits_ret]. }
  intros a. apply never_exits_bind.
  { unfold get_coords_from_address.
    apply never_exits_try_except; [|intros e; apply never_exits_raise].
    apply never_exits_bind; [apply never_exits_with_fetch|]. intros response.
    apply never_exits_bind; [apply never_exits_lift, parse_json_response_never_exits|].
    intros coords. destruct (negb (Py.truthy coords)); [apply never_exits_raise|].
    apply never_exits_bind; [|intros _; apply never_exits_ret].
    destruct (verbose parsed_args); [|apply never_exits_ret]. cbn [when].
    repeat (apply never_exits_bind;
            [apply never_exits_lift;
             first [apply getitem0_never_exits | apply getitem_never_exits]|]; intro).
    apply never_exits_log. }
  intros coords.
  repeat (apply never_exits_bind;
          [apply never_exits_lift;
           first [apply getitem0_never_exits | apply getitem_never_exits]|]; intro).
  apply never_exits_lift, build_url_never_exits.
Qed.

Lemma never_exits_display_weather_data (response : string) :
  never_exits (display_weather_data response).
Proof.
  unfold display_weather_data.
  apply never_exits_try_except; [|intros e; apply never_exits_log].
  apply never_exits_bind; [apply never_exits_lift, parse_json_response_never_exits|].
  intros data.
  apply never_exits_bind; [apply never_exits_lift, from_dict_never_exits|].
  intros weather_data.
  apply never_exits_bind; [apply never_exits_lift, get_never_exits|]. intros temperature.
  apply never_exits_bind; [apply never_exits_lift, get_never_exits|]. intros wind_speed.
  intros s code. discriminate.
Qed.

(** [SystemExit] leaves the [try] block of [main] only when [argparse]
    raised it. *)
Lemma main_try_exit (argv : list string) (s : state) (code : Z) :
  fst (main_try argv s) = Raise (SystemExit code) -> argparse_parse_args argv = inr code.
Proof.
  unfold main_try, bind at 1, lift.
  destruct (parse_args argv) as [ns | e] eqn:Hp.
  - intros H. exfalso. revert H.
    assert (Hrest : never_exits
                      (setup_logging (verbose ns) ;;
                       url <- get_weather_url ns ;;
                       response <- with_weather_api
                                     (fun weather_api => fetch_url weather_api url (verbose ns)) ;;
                       display_weather_data response)).
    { apply never_exits_bind.
      { intros s' c'. unfold setup_logging, logging.basicConfig.
        destruct (root_logger s'); discriminate. }
      intros _. apply never_exits_bind; [apply never_exits_get_weather_url|].
      intros url. apply never_exits_bind; [apply never_exits_with_fetch|].
      intros response. apply never_exits_display_weather_data. }
    apply Hrest.
  - cbn [fst]. intros H. injection H as ->. unfold parse_args in Hp.
    destruct (argparse_parse_args argv) as [ns | c]; [|congruence].
    repeat match type of Hp with
           | (if ?b then _ else _) = _ => destruct b; try discriminate Hp
           | match ?x with _ => _ end = _ => destruct x; try discriminate Hp
           end.
Qed.

(** X16. The exit status of a run is 0, 1, or the code with which
    [argparse] exited: status 0 when [main] returns, 1 after an exception,
    handled or not. *)
Theorem run_exit_status (argv : list string) :
  fst (run argv) = 0 \/ fst (run argv) = 1
  \/ argparse_parse_args argv = inr (fst (run argv)).
Proof.
  unfold run, main, try_except.
  pose proof (main_try_exit argv initial_state) as Hexit.
  destruct (main_try argv initial_state) as [[[] | [c msg | code]] s1].
  - left. reflexivity.
  - right. left. destruct (isinstance (Exn c msg) _); [|reflexivity].
    unfold bind, logging.error. rewrite log_run. reflexivity.
  - right. right. cbn. apply Hexit. reflexivity.
Qed.

(** X10. [from_dict] checks that [current] is present, not what it is. A
    payload whose [current] is an object gives a [WeatherData] that
    [__str__] writes with the same temperature and wind speed as
    [display_weather_data] prints; a payload whose [current] is anything
    else is accepted too, and then [__str__] and [display_weather_data]
    both raise [AttributeError], which nothing catches. *)
Theorem from_dict_unchecked_current (items : list (string * pyval))
        (lat long current : pyval) (x y : spec_float) (response : string) (s : state) :
  Py.lookup items "latitude" = Some lat ->
  Py.lookup items "longitude" = Some long ->
  Py.lookup items "current" = Some current ->
  Py.float lat = Ok x -> Py.float long = Ok y ->
  parse_json_response response = Ok (PyDict items) ->
  let wd := {| wd_latitude := x; wd_longitude := y; wd_current := current |} in
  from_dict (PyDict items) = Ok wd
  /\ (forall fields,
         current = PyDict fields ->
         WeatherData_str wd =
         Ok ("WeatherData(latitude=" ++ float_repr x ++ ", longitude=" ++ float_repr y
               ++ ", temperature=" ++ shown fields "temperature_2m"
               ++ ", wind_speed=" ++ shown fields "wind_speed_10m" ++ ")"))
  /\ ((forall fields, current <> PyDict fields) ->
      let e := Exn AttributeError ("'" ++ Py.type_name current
                                       ++ "' object has no attribute 'get'") in
      WeatherData_str wd = Raise e
      /\ display_weather_data response s = (Raise e, s)
      /\ isinstance e handled_by_main = false).
Proof.
  intros Hlat Hlong Hcur Hx Hy Hjson wd.
  pose proof (from_dict_present items lat long current x y Hlat Hlong Hcur Hx Hy) as Hfrom.
  split; [exact Hfrom|]. split.
  - intros fields ->. reflexivity.
  - intros Hnot e.
    assert (Hget : forall key, Py.get current key = Raise e).
    { intros key. destruct current; try reflexivity. contradiction (Hnot items0 eq_refl). }
    split; [|split; [|reflexivity]].
    + unfold WeatherData_str. cbn [wd wd_current]. rewrite Hget. reflexivity.
    + unfold display_weather_data, try_except, bind, lift. rewrite Hjson, Hfrom.
      cbn [wd_current]. rewrite Hget. reflexivity.
Qed.

End ExitFacts.

Section AddressRun.
Context {env : PythonEnv}.



End AddressRun.

(** ** The recorded sessions, again *)

Section RecordedMore.
#[local] Existing Instance Session.env.

Lemma fetch_url_outcomes_witness :
  fst (fetch_url 0 Session.seattle_url false initial_state) = Ok Session.seattle_body
  /\ fst (fetch_url 0 Session.babel_geocode_url false initial_state) =
     Raise (Exn UnicodeDecodeError
              "'utf-8' codec can't decode byte 0xff in position 0: invalid start byte")
  /\ fst (fetch_url 0 "https://example.org/" false initial_state) =
     Raise (Exn FetchUrlDataError "Request failed: Max retries exceeded")
  /\ then_records
       [Logged StdoutAndFile
               ("INFO: Fetching data from: " ++ Session.seattle_url ++ " " ++ PyStr.newline);
        HttpGet 0 Session.seattle_url]
       (trace (snd (fetch_url 0 Session.seattle_url true (configured true)))).
Proof.
  assert (H1 : http_request (count is_http_get (trace initial_state)) Session.seattle_url
               = Response 200 Session.seattle_body) by reflexivity.
  assert (H2 : http_request (count is_http_get (trace initial_state))
                 Session.babel_geocode_url
               = Response 200 Session.latin_body) by reflexivity.
  assert (H3 : http_request (count is_http_get (trace initial_state)) "https://example.org/"
               = RequestError "Max retries exceeded") by reflexivity.
  assert (Hlog : lets_through (configured true) INFO StdoutAndFile)
    by (exists DEBUG; split; reflexivity).
  split; [|split; [|split]].
  - destruct (fetch_url_outcomes 0 Session.seattle_url false initial_state) as (Hok & _).
    apply (Hok _ H1). reflexivity.
  - destruct (fetch_url_outcomes 0 Session.babel_geocode_url false initial_state)
      as (_ & Hbad & _).
    apply (Hbad _ H2). reflexivity.
  - destruct (fetch_url_outcomes 0 "https://example.org/" false initial_state)
      as (_ & _ & _ & _ & Hreq & _).
    apply (Hreq _ H3).
  - destruct (fetch_url_outcomes 0 Session.seattle_url true (configured true))
      as (_ & _ & _ & _ & _ & _ & _ & Hline).
    apply (Hline StdoutAndFile eq_refl Hlog).
Defined.


Lemma get_coords_from_address_truth_test_witness :
  http_request (count is_http_get (trace initial_state)) (geocode_url "atlantis")
  = Response 200 "[]"
  /\ json_loads "[]" = inr (PyList [])
  /\ fst (get_coords_from_address "atlantis" true initial_state) =
     Raise (Exn GetCoordsFromAddressError
              "No coordinates found for address: atlantis. Verify that the address is valid.").
Proof.
  assert (Hreq : http_request (count is_http_get (trace initial_state)) (geocode_url "atlantis")
                 = Response 200 "[]") by reflexivity.
  assert (Hjson : json_loads "[]" = inr (PyList [])) by reflexivity.
  split; [exact Hreq|]. split; [exact Hjson|].
  apply (proj1 (get_coords_from_address_truth_test "atlantis" initial_state "[]" (PyList [])
                  Hreq Hjson)).
  left. reflexivity.
Defined.

Lemma get_weather_url_after_parse_args_witness :
  parse_args ["--latitude"; "47.6"; "--longitude"; "-122.3"] = Ok Session.seattle
  /\ get_weather_url Session.seattle initial_state = (Ok Session.seattle_url, initial_state).
Proof.
  assert (Hp : parse_args ["--latitude"; "47.6"; "--longitude"; "-122.3"] = Ok Session.seattle)
    by reflexivity.
  split; [exact Hp|].
  destruct (get_weather_url_after_parse_args _ Session.seattle Session.f47_6 initial_state
              Hp eq_refl eq_refl eq_refl) as (long & Hlong & Hurl).
  injection Hlong as <-. exact Hurl.
Defined.

Lemma get_weather_url_first_candidate_witness :
  usaddress_parse "1600 pennsylvania ave washington dc" =
  Components [("1600", "AddressNumber"); ("pennsylvania", "StreetName");
              ("ave", "StreetNamePostType"); ("washington", "PlaceName");
              ("dc", "StateName")]
  /\ json_loads Session.candidates_body = inr Session.candidates
  /\ fst (get_weather_url Session.white_house initial_state) = Ok Session.white_house_url.
Proof.
  assert (Hparse : usaddress_parse "1600 pennsylvania ave washington dc" =
                   Components [("1600", "AddressNumber"); ("pennsylvania", "StreetName");
                               ("ave", "StreetNamePostType"); ("washington", "PlaceName");
                               ("dc", "StateName")]) by reflexivity.
  assert (Hjson : json_loads Session.candidates_body = inr Session.candidates)
    by reflexivity.
  split; [exact Hparse|]. split; [exact Hjson|].
  apply (get_weather_url_first_candidate
           Session.white_house initial_state "1600 pennsylvania ave washington dc"
           [("1600", "AddressNumber"); ("pennsylvania", "StreetName");
            ("ave", "StreetNamePostType"); ("washington", "PlaceName");
            ("dc", "StateName")]
           Session.candidates_body
           [("display_name", PyStr "White House, Washington, DC");
            ("lat", PyStr "38.8977"); ("lon", PyStr "-77.0365")]
           [] (PyStr "38.8977") (PyStr "-77.0365")
           Session.f38_8977 Session.fm77_0365
           eq_refl white_house_not_blank Hparse);
    try reflexivity.
  left. reflexivity.
Defined.

Lemma from_dict_raises_witness :
  from_dict (PyInt 5) = Raise (Exn TypeError "argument of type 'int' is not iterable")
  /\ exists msg,
       Exn TypeError "float() argument must be a string or a real number, not 'NoneType'"
       = Exn ValueError msg
       \/ Exn TypeError "float() argument must be a string or a real number, not 'NoneType'"
          = Exn TypeError msg
       \/ Exn TypeError "float() argument must be a string or a real number, not 'NoneType'"
          = Exn OverflowError msg.
Proof.
  split.
  - destruct (proj2 (from_dict_raises (PyInt 5))) as (msg & Hmsg).
    + right. right. left. exists 5. reflexivity.
    + rewrite Hmsg. injection Hmsg as <-. reflexivity.
  - apply (proj1 (from_dict_raises Session.null_latitude)). reflexivity.
Defined.

Lemma run_argument_error_witness :
  parse_args [] =
  Raise (Exn ParsedArgumentError
           "Either '--latitude' and '--longitude' pair, or '--address' must be provided.")
  /\ run [] =
     (1, {| instance := None;
            root_logger := Some (WARNING, DefaultStderr);
            trace := [Logged DefaultStderr
                             "ERROR:root:Either '--latitude' and '--longitude' pair, or '--address' must be provided."] |}).
Proof.
  assert (Hp : parse_args [] =
               Raise (Exn ParsedArgumentError
                        "Either '--latitude' and '--longitude' pair, or '--address' must be provided."))
    by reflexivity.
  split; [exact Hp|]. apply (run_argument_error [] _ Hp).
Defined.

Lemma run_argparse_exit_witness :
  argparse_parse_args ["--bogus"] = inr 2 /\ run ["--bogus"] = (2, initial_state).
Proof.
  assert (Ha : argparse_parse_args ["--bogus"] = inr 2) by reflexivity.
  split; [exact Ha | apply (run_argparse_exit _ _ Ha)].
Defined.



Lemma setup_logging_first_wins_witness :
  root_logger initial_state = None
  /\ logging.log ERROR "late" (snd (setup_logging false initial_state)) =
     (Ok tt, {| instance := None; root_logger := Some (INFO, StdoutAndFile);
                trace := [Logged StdoutAndFile "ERROR: late"] |})
  /\ setup_logging true (snd (setup_logging false initial_state)) =
     (Ok tt, {| instance := None; root_logger := Some (INFO, StdoutAndFile); trace := [] |}).
Proof.
  destruct (setup_logging_first_wins false true initial_state) as (Htwice & _ & Hpass).
  split; [reflexivity|]. split.
  - apply (Hpass eq_refl ERROR "late"). right. reflexivity.
  - exact Htwice.
Defined.

End RecordedMore.

Section RecordedOutage.
#[local] Existing Instance Outage.env.

Lemma elsewhere_not_blank :
  ~ PyStr.whitespace_only "elsewhere".
Proof. intros H. apply PyStrFacts.strip_empty in H. vm_compute in H. discriminate H. Qed.

Lemma nameless_not_blank :
  ~ PyStr.whitespace_only "nameless".
Proof. intros H. apply PyStrFacts.strip_empty in H. vm_compute in H. discriminate H. Qed.

Lemma get_weather_url_unchecked_answer_witness :
  (http_request 0 Outage.elsewhere_geocode_url = Response 200 Outage.error_body
   /\ json_loads Outage.error_body = inr Outage.error_object
   /\ fst (get_weather_url Outage.elsewhere initial_state) = Raise (Exn KeyError "0")
   /\ fst (main ["--address"; "elsewhere"] initial_state) = Raise (Exn KeyError "0"))
  /\ (http_request 0 Outage.nameless_geocode_url = Response 200 Outage.nameless_body
      /\ json_loads Outage.nameless_body = inr (PyList [PyDict Outage.nameless_candidate])
      /\ fst (get_weather_url Outage.nameless initial_state) =
         Raise (Exn KeyError "'display_name'")).
Proof.
  assert (Hparse : usaddress_parse "elsewhere" = Components [("elsewhere", "PlaceName")])
    by reflexivity.
  assert (Hreq : http_request (count is_http_get (trace initial_state))
                   (geocode_url (PyStr.join " " (List.map fst [("elsewhere", "PlaceName")])))
                 = Response 200 Outage.error_body) by reflexivity.
  assert (Hjson : json_loads Outage.error_body = inr Outage.error_object) by reflexivity.
  assert (Hp : parse_args ["--address"; "elsewhere"] = Ok Outage.elsewhere) by reflexivity.
  assert (Hparse' : usaddress_parse "nameless" = Components [("nameless", "PlaceName")])
    by reflexivity.
  assert (Hreq' : http_request (count is_http_get (trace initial_state))
                    (geocode_url (PyStr.join " " (List.map fst [("nameless", "PlaceName")])))
                  = Response 200 Outage.nameless_body) by reflexivity.
  assert (Hjson' : json_loads Outage.nameless_body
                   = inr (PyList [PyDict Outage.nameless_candidate])) by reflexivity.
  split.
  - split; [exact Hreq|]. split; [exact Hjson|].
    destruct (get_weather_url_unchecked_answer
                Outage.elsewhere initial_state "elsewhere" _ Outage.error_body
                Outage.error_object eq_refl elsewhere_not_blank Hparse
                Hreq Hjson) as (Hobject & _ & Hmain).
    split.
    + apply Hobject. eexists _, _. reflexivity.
    + apply (Hmain _ initial_state "0" Hp). reflexivity.
  - split; [exact Hreq'|]. split; [exact Hjson'|].
    destruct (get_weather_url_unchecked_answer
                Outage.nameless initial_state "nameless" _ Outage.nameless_body
                (PyList [PyDict Outage.nameless_candidate]) eq_refl nameless_not_blank Hparse'
                Hreq' Hjson') as (_ & Hlist & _).
    destruct (Hlist Outage.nameless_candidate [] eq_refl) as (Hname & _).
    apply Hname; reflexivity.
Defined.

Lemma from_dict_unchecked_current_witness :
  parse_json_response Outage.null_current_body = Ok (PyDict Outage.null_current)
  /\ from_dict (PyDict Outage.null_current) =
     Ok {| wd_latitude := Session.f47_6; wd_longitude := Session.fm122_3;
           wd_current := PyNone |}
  /\ display_weather_data Outage.null_current_body initial_state =
     (Raise (Exn AttributeError "'NoneType' object has no attribute 'get'"), initial_state).
Proof.
  assert (Hjson : parse_json_response Outage.null_current_body
                  = Ok (PyDict Outage.null_current)) by reflexivity.
  destruct (from_dict_unchecked_current
              Outage.null_current (PyFloat Session.f47_6) (PyFloat Session.fm122_3) PyNone
              Session.f47_6 Session.fm122_3 Outage.null_current_body initial_state
              eq_refl eq_refl eq_refl eq_refl eq_refl Hjson) as (Hfrom & _ & Hbad).
  split; [exact Hjson|]. split; [exact Hfrom|].
  apply Hbad. intros fields. discriminate.
Defined.



End RecordedOutage.
